(** * job-platform: the integration-test orchestrator

    A shallow embedding of [run_integration_tests.py]
    (class [IntegrationTestRunner] and [main]) and the properties of its
    phases: environment start and stop, readiness probing, per-module test
    execution, the report and the exit status.

    The script talks to the outside world through [subprocess.run],
    [requests.get], [time.time], [time.sleep] and [print].  Every such call
    is modelled by an explicit outcome handed in by the caller (an oracle),
    and leaves an event in the trace of the state, so that "is invoked",
    "is never invoked" and "exactly once" are statements about the trace. *)

From Stdlib Require Import String Ascii List ZArith Lia Bool Arith.
From Stdlib Require Import Decimal DecimalString.
Import ListNotations.
Local Open Scope string_scope.
Local Open Scope Z_scope.

(** ** A small model of the Python runtime the script relies on *)

Module Py.

(** [str(n)] for an integer. *)
Definition str_nat (n : nat) : string := NilEmpty.string_of_uint (Nat.to_uint n).
Definition str_int (z : Z) : string := NilZero.string_of_int (Z.to_int z).

(** [sep.join(xs)]. *)
Fixpoint join (sep : string) (xs : list string) : string :=
  match xs with
  | [] => ""
  | [x] => x
  | x :: rest => x ++ sep ++ join sep rest
  end.

(** [s * n] for a string. *)
Fixpoint repeat_str (s : string) (n : nat) : string :=
  match n with
  | O => ""
  | S n' => s ++ repeat_str s n'
  end.

(** A Python [str] is kept as its UTF-8 encoding.  The white space that
    [str.strip] removes is what [str.isspace] accepts: U+0009 to U+000D,
    U+001C to U+0020, U+0085, U+00A0, U+1680, U+2000 to U+200A, U+2028,
    U+2029, U+202F, U+205F and U+3000; in UTF-8 these take one, two or
    three bytes. *)
Definition is_space (c : ascii) : bool :=
  let n := nat_of_ascii c in
  ((9 <=? n) && (n <=? 13) || (28 <=? n) && (n <=? 32))%nat.

Definition is_space2 (a b : ascii) : bool :=
  let x := nat_of_ascii a in
  let y := nat_of_ascii b in
  ((x =? 194) && ((y =? 133) || (y =? 160)))%nat.

Definition is_space3 (a b c : ascii) : bool :=
  let x := nat_of_ascii a in
  let y := nat_of_ascii b in
  let z := nat_of_ascii c in
  ((x =? 225) && (y =? 154) && (z =? 128)
   || (x =? 226) && (y =? 128)
      && ((128 <=? z) && (z <=? 138) || (z =? 168) || (z =? 169) || (z =? 175))
   || (x =? 226) && (y =? 129) && (z =? 159)
   || (x =? 227) && (y =? 128) && (z =? 128))%nat.

Fixpoint lstrip (s : string) : string :=
  match s with
  | EmptyString => EmptyString
  | String a rest =>
      if is_space a then lstrip rest
      else
        match rest with
        | EmptyString => s
        | String b rest2 =>
            if is_space2 a b then lstrip rest2
            else
              match rest2 with
              | EmptyString => s
              | String c rest3 =>
                  if is_space3 a b c then lstrip rest3 else s
              end
        end
  end.

(** The bytes of a string from the last to the first. *)
Fixpoint reversed (s acc : string) : string :=
  match s with
  | EmptyString => acc
  | String c rest => reversed rest (String c acc)
  end.

(** [lstrip] on the reversed bytes: the character at the front is read
    from its last byte. *)
Fixpoint lstrip_reversed (s : string) : string :=
  match s with
  | EmptyString => EmptyString
  | String c rest =>
      if is_space c then lstrip_reversed rest
      else
        match rest with
        | EmptyString => s
        | String b rest2 =>
            if is_space2 b c then lstrip_reversed rest2
            else
              match rest2 with
              | EmptyString => s
              | String a rest3 =>
                  if is_space3 a b c then lstrip_reversed rest3 else s
              end
        end
  end.

Definition rstrip (s : string) : string :=
  reversed (lstrip_reversed (reversed s EmptyString)) EmptyString.

Definition strip (s : string) : string := lstrip (rstrip s).

(** Truth value of a string: [bool(s)]. *)
Definition truthy (s : string) : bool :=
  match s with EmptyString => false | _ => true end.

(** [s.split('\n')]: always at least one field. *)
Fixpoint split_newline (s : string) : list string :=
  match s with
  | EmptyString => [EmptyString]
  | String c rest =>
      if Ascii.eqb c "010"%char
      then EmptyString :: split_newline rest
      else match split_newline rest with
           | [] => [String c EmptyString]
           | l :: ls => String c l :: ls
           end
  end.

(** [xs[-n:]]. *)
Definition last_n {A} (n : nat) (xs : list A) : list A :=
  skipn (length xs - n) xs.

(** [repr] of a list of plain strings, as it appears in the text of a
    [CalledProcessError]. *)
Definition repr_list (xs : list string) : string :=
  "[" ++ join ", " (map (fun x => "'" ++ x ++ "'") xs) ++ "]".

(** The exceptions the script can meet.  All of them are subclasses of
    [Exception]; [KeyboardInterrupt] and the other exceptions that only
    derive from [BaseException] are not modelled. *)
Inductive exn : Type :=
| CalledProcessError (cmd : list string) (returncode : Z)
    (stdout stderr : option string)
| TimeoutExpired (cmd : list string) (timeout : Z)
    (stdout stderr : option string)
| FileNotFoundError (msg : string)
| OSError (msg : string)
| UnicodeDecodeError (msg : string)
| OtherException (msg : string).

(** The names of [signal.Signals] (Linux). *)
Definition signal_name (n : Z) : option string :=
  if n <? 1 then None
  else if n =? 34 then Some "RTMIN"
  else if n =? 64 then Some "RTMAX"
  else
    nth_error
      ["HUP"; "INT"; "QUIT"; "ILL"; "TRAP"; "ABRT"; "BUS"; "FPE"; "KILL";
       "USR1"; "SEGV"; "USR2"; "PIPE"; "ALRM"; "TERM"; "STKFLT"; "CHLD";
       "CONT"; "STOP"; "TSTP"; "TTIN"; "TTOU"; "URG"; "XCPU"; "XFSZ";
       "VTALRM"; "PROF"; "WINCH"; "IO"; "PWR"; "SYS"]
      (Z.to_nat (n - 1)).

(** [str(e)].  A negative return code is the number of the signal that
    ended the child. *)
Definition str_exn (e : exn) : string :=
  match e with
  | CalledProcessError cmd rc _ _ =>
      if rc <? 0 then
        match signal_name (- rc) with
        | Some name =>
            "Command '" ++ repr_list cmd ++ "' died with <Signals.SIG" ++ name
              ++ ": " ++ str_int (- rc) ++ ">."
        | None =>
            "Command '" ++ repr_list cmd ++ "' died with unknown signal "
              ++ str_int (- rc) ++ "."
        end
      else
        "Command '" ++ repr_list cmd ++ "' returned non-zero exit status "
          ++ str_int rc ++ "."
  | TimeoutExpired cmd t _ _ =>
      "Command '" ++ repr_list cmd ++ "' timed out after "
        ++ str_int t ++ " seconds"
  | FileNotFoundError msg => msg
  | OSError msg => msg
  | UnicodeDecodeError msg => msg
  | OtherException msg => msg
  end.

Definition is_CalledProcessError (e : exn) : bool :=
  match e with CalledProcessError _ _ _ _ => true | _ => false end.
Definition is_TimeoutExpired (e : exn) : bool :=
  match e with TimeoutExpired _ _ _ _ => true | _ => false end.
Definition is_FileNotFoundError (e : exn) : bool :=
  match e with FileNotFoundError _ => true | _ => false end.

(** What the operating system does with a command: the program cannot be
    launched (the [OSError] family), or it runs and exits. *)
Inductive launch_failure : Type :=
| NotFound (msg : string)
| OtherOSFailure (msg : string).

Definition exn_of_failure (f : launch_failure) : exn :=
  match f with
  | NotFound msg => FileNotFoundError msg
  | OtherOSFailure msg => OSError msg
  end.

Inductive proc_outcome : Type :=
| Exited (returncode : Z) (out err : string)
| LaunchFailed (f : launch_failure).

(** With a [timeout=] argument the child may also be killed at the
    deadline; what it wrote until then travels with the exception. *)
Inductive timed_outcome : Type :=
| Finished (o : proc_outcome)
| Expired (out err : string).

(** What a call of [subprocess.run] meets.  In [Exited rc out err] the
    output is as the call returns it: for a call with [text=True] it is the
    text the bytes decode to, with the line ends translated to a newline.
    A call that captures the output as text decodes it before it looks at
    the exit status; when the child wrote bytes that are not text in the
    encoding of the locale, the codec fails with [reason]. *)
Inductive run_outcome : Type :=
| Ran (o : proc_outcome)
| Undecodable (returncode : Z) (out err : string) (reason : string).

Inductive timed_run_outcome : Type :=
| RanTimed (o : timed_outcome)
| UndecodableTimed (returncode : Z) (out err : string) (reason : string).

(** [subprocess.CompletedProcess]. *)
Record completed : Type := {
  returncode : Z;
  stdout : option string;
  stderr : option string
}.

(** With [capture_output=False] the streams are not read and the
    attributes are [None]. *)
Definition captured (capture_output : bool) (s : string) : option string :=
  if capture_output then Some s else None.

(** [subprocess.run(cmd, check=.., capture_output=.., text=..)].  The
    output is read, and decoded when it is captured as text, before
    [check] looks at the exit status; without [capture_output] nothing is
    read, and without [text] the bytes are returned as they are. *)
Definition subprocess_run (cmd : list string)
    (check capture_output text : bool) (o : run_outcome) : completed + exn :=
  match o with
  | Ran (Exited rc out err) =>
      if check && negb (rc =? 0)
      then inr (CalledProcessError cmd rc (captured capture_output out)
                  (captured capture_output err))
      else inl {| returncode := rc;
                  stdout := captured capture_output out;
                  stderr := captured capture_output err |}
  | Ran (LaunchFailed f) => inr (exn_of_failure f)
  | Undecodable rc out err reason =>
      if capture_output && text then inr (UnicodeDecodeError reason)
      else if check && negb (rc =? 0)
      then inr (CalledProcessError cmd rc (captured capture_output out)
                  (captured capture_output err))
      else inl {| returncode := rc;
                  stdout := captured capture_output out;
                  stderr := captured capture_output err |}
  end.

(** [subprocess.run(cmd, ..., timeout=t)]. *)
Definition subprocess_run_timeout (cmd : list string)
    (check capture_output text : bool) (t : Z) (o : timed_run_outcome)
  : completed + exn :=
  match o with
  | RanTimed (Finished o') =>
      subprocess_run cmd check capture_output text (Ran o')
  | RanTimed (Expired out err) =>
      inr (TimeoutExpired cmd t (captured capture_output out)
             (captured capture_output err))
  | UndecodableTimed rc out err reason =>
      subprocess_run cmd check capture_output text
                     (Undecodable rc out err reason)
  end.

(** The outcome as a call that does not decode the output meets it. *)
Definition unread (o : run_outcome) : proc_outcome :=
  match o with
  | Ran o' => o'
  | Undecodable rc out err _ => Exited rc out err
  end.

(** The text of an optional output, [""] for [None] (only used where the
    output was captured). *)
Definition text (s : option string) : string :=
  match s with Some x => x | None => "" end.

End Py.

(** An outcome of the child is an outcome of the call. *)
Coercion Py.Ran : Py.proc_outcome >-> Py.run_outcome.
Coercion Py.RanTimed : Py.timed_outcome >-> Py.timed_run_outcome.

(** ** Data of the script *)

(** [self.verbose], [self.no_cleanup], [self.project_root]; [sys.executable]
    and [os.environ] are read from the process. *)
Record Config : Type := {
  verbose : bool;
  no_cleanup : bool;
  project_root : string;
  sys_executable : string;
  os_environ : list (string * string)
}.

Inductive Level : Type := INFO | ERROR | WARNING | SUCCESS.

(** One entry of the [services] dict of [wait_for_services].  The check is a
    closure over the outside world: called with the url at an instant of the
    clock it answers, after some seconds, [True], [False] or an exception. *)
Inductive check_result : Type :=
| CheckReturned (ready : bool)
| CheckRaised (e : Py.exn).

Record check_reply : Type := {
  outcome : check_result;
  duration : nat
}.

Module Service.
Record t : Type := {
  url : string;
  name : string;
  check_function : string -> Z -> check_reply
}.
End Service.

(** One entry of the [submodules] list of [run_submodule_tests]. *)
Module Submodule.
Record t : Type := {
  name : string;
  path : string;
  test_command : list string;
  env : list (string * string)
}.
End Submodule.

(** The [result] dict of [_run_single_test]. *)
Module TestResult.
Record t : Type := {
  name : string;
  success : bool;
  output : string;
  error : string
}.
End TestResult.

(** [d.update(upd)] on a dict kept as an association list in insertion
    order. *)
Fixpoint dict_set (k v : string) (d : list (string * string))
  : list (string * string) :=
  match d with
  | [] => [(k, v)]
  | (k', v') :: rest =>
      if String.eqb k k' then (k, v) :: rest else (k', v') :: dict_set k v rest
  end.

Definition dict_update (d upd : list (string * string))
  : list (string * string) :=
  fold_left (fun acc kv => dict_set (fst kv) (snd kv) acc) upd d.

(** ** Observable events and the state of a run *)

Inductive Event : Type :=
| EvPrint (line : string)                       (* print(line) *)
| EvLog (level : Level) (message : string)      (* a line printed by self.log *)
| EvSpawn (cmd : list string) (cwd : option string)
    (env : option (list (string * string)))     (* subprocess.run(cmd, ...) *)
| EvProbe (key : string) (attempt : nat)
    (answer : check_result)                     (* a check_function call *)
| EvSleep (seconds : Z)                         (* time.sleep(seconds) *)
| EvCall (method : string).                     (* entry into a method *)

(** [clock] is what [time.time()] reads, counted in whole seconds;
    [live_stacks] counts the stacks of the test environment that are up.
    Only the calls of the readiness loop (a check, a sleep) are given a
    duration, the loop being all that reads the clock: the clock orders the
    probes and the sleeps against the deadline, it does not measure how
    long a run lasts. *)
Record State : Type := {
  clock : Z;
  live_stacks : nat;
  trace : list Event
}.

Definition emit (ev : Event) (st : State) : State :=
  {| clock := clock st; live_stacks := live_stacks st;
     trace := trace st ++ [ev] |}.

Definition advance (seconds : Z) (st : State) : State :=
  {| clock := clock st + seconds; live_stacks := live_stacks st;
     trace := trace st |}.

Definition set_stacks (n : nat) (st : State) : State :=
  {| clock := clock st; live_stacks := n; trace := trace st |}.

(** The commands of the environment tool. *)
Definition compose : list string :=
  ["docker-compose"; "-f"; "docker-compose.test.yml"].
Definition cmd_pre_down : list string := compose ++ ["down"; "-v"; "--remove-orphans"].
Definition cmd_up : list string := compose ++ ["up"; "-d"].
Definition cmd_down : list string := compose ++ ["down"; "-v"].
Definition cmd_logs : list string := compose ++ ["logs"].

Fixpoint cmd_eqb (a b : list string) : bool :=
  match a, b with
  | [], [] => true
  | x :: a', y :: b' => String.eqb x y && cmd_eqb a' b'
  | _, _ => false
  end.

(** The environment tool is external to the repository.  Its effect on the
    stack is taken as follows: a [down] that exits 0 leaves no stack, an
    [up] that exits 0 adds one stack to those that are up (so that only a
    tear-down can prevent an overlap), every other command and every failed
    command leaves the stacks as they are. *)
Definition stack_effect (cmd : list string) (o : Py.run_outcome) (n : nat)
  : nat :=
  match o with
  | Py.Ran (Py.Exited rc _ _) | Py.Undecodable rc _ _ _ =>
      if rc =? 0 then
        if cmd_eqb cmd cmd_pre_down || cmd_eqb cmd cmd_down then 0%nat
        else if cmd_eqb cmd cmd_up then S n
        else n
      else n
  | Py.Ran (Py.LaunchFailed _) => n
  end.

(** ** The monad of the script: state, exceptions, and fuel for its one
    loop that waits on the clock *)

Inductive Result (A : Type) : Type :=
| Returned (a : A)
| Raised (e : Py.exn)
| OutOfFuel.
Arguments Returned {A} a.
Arguments Raised {A} e.
Arguments OutOfFuel {A}.

Definition M (A : Type) : Type := State -> Result A * State.

Definition ret {A} (a : A) : M A := fun st => (Returned a, st).

Definition raise {A} (e : Py.exn) : M A := fun st => (Raised e, st).

Definition bind {A B} (m : M A) (k : A -> M B) : M B :=
  fun st =>
    match m st with
    | (Returned a, st') => k a st'
    | (Raised e, st') => (Raised e, st')
    | (OutOfFuel, st') => (OutOfFuel, st')
    end.

Notation "x <- m ;; k" := (bind m (fun x => k))
  (at level 61, m at next level, right associativity).
Notation "m ;; k" := (bind m (fun _ => k))
  (at level 61, right associativity).

(** The body of a [try]: an exception becomes a value the [except] clauses
    inspect. *)
Definition attempt {A} (m : M A) : M (A + Py.exn) :=
  fun st =>
    match m st with
    | (Returned a, st') => (Returned (inl a), st')
    | (Raised e, st') => (Returned (inr e), st')
    | (OutOfFuel, st') => (OutOfFuel, st')
    end.

Definition of_sum {A} (r : A + Py.exn) : M A :=
  match r with inl a => ret a | inr e => raise e end.

Definition do_emit (ev : Event) : M unit := fun st => (Returned tt, emit ev st).

Definition print (line : string) : M unit := do_emit (EvPrint line).

Definition time_time : M Z := fun st => (Returned (clock st), st).

Definition time_sleep (seconds : Z) : M unit :=
  fun st => (Returned tt, advance seconds (emit (EvSleep seconds) st)).

Definition when (b : bool) (m : M unit) : M unit := if b then m else ret tt.

Fixpoint for_each {A} (xs : list A) (body : A -> M unit) : M unit :=
  match xs with
  | [] => ret tt
  | x :: rest => body x ;; for_each rest body
  end.

(** [subprocess.run]: the command is launched (an event), the tool acts on
    the stack, and the call returns or raises. *)
Definition spawn (cmd : list string) (cwd : option string)
    (check capture_output text : bool) (o : Py.run_outcome)
  : M Py.completed :=
  fun st =>
    let st1 := emit (EvSpawn cmd cwd None) st in
    let st2 := set_stacks (stack_effect cmd o (live_stacks st1)) st1 in
    of_sum (Py.subprocess_run cmd check capture_output text o) st2.

Definition spawn_timeout (cmd : list string) (cwd : option string)
    (env : option (list (string * string)))
    (check capture_output text : bool) (t : Z) (o : Py.timed_run_outcome)
  : M Py.completed :=
  fun st =>
    of_sum (Py.subprocess_run_timeout cmd check capture_output text t o)
           (emit (EvSpawn cmd cwd env) st).

(** What the outside world answers during one run of the script.  The
    runs described are those in which every output the script captures as
    text is text; what each method does with an output that is not is
    stated for the method itself. *)
Record World : Type := {
  docker_version : Py.proc_outcome;     (* docker --version *)
  compose_version : Py.proc_outcome;    (* docker-compose --version *)
  python_version : Py.proc_outcome;     (* sys.executable --version *)
  file_exists : string -> bool;         (* Path.exists *)
  compose_pre_down : Py.proc_outcome;   (* down -v --remove-orphans *)
  compose_up : Py.proc_outcome;         (* up -d *)
  compose_logs : Py.proc_outcome;       (* logs *)
  test_process : Submodule.t -> Py.timed_outcome;
  compose_down : Py.proc_outcome        (* down -v *)
}.

Definition nl : string := String "010"%char EmptyString.

(** ** class IntegrationTestRunner *)

Section Runner.

Variable cfg : Config.

(** [log(self, message, level)]; the time stamp of the printed line is
    left out of the event. *)
Definition log (message : string) (level : Level) : M unit :=
  let shown :=
    verbose cfg ||
    match level with ERROR | WARNING | SUCCESS => true | INFO => false end in
  when shown (do_emit (EvLog level message)).

Definition root_file (name : string) : string :=
  project_root cfg ++ "/" ++ name.

(** [check_dependencies(self)] *)
Definition check_dependencies (o_docker o_compose o_python : Py.run_outcome)
  : M bool :=
  do_emit (EvCall "check_dependencies") ;;
  log "Проверка зависимостей..." INFO ;;
  r <- attempt (
         result <- spawn ["docker"; "--version"] None true true true
                     o_docker ;;
         log ("[OK] Docker: " ++ Py.strip (Py.text (Py.stdout result))) INFO) ;;
  match r with
  | inr e =>
      if Py.is_CalledProcessError e || Py.is_FileNotFoundError e then
        log "[ERROR] Docker не установлен или не запущен" ERROR ;;
        ret false
      else raise e
  | inl _ =>
  r <- attempt (
         result <- spawn ["docker-compose"; "--version"] None true true true
                     o_compose ;;
         log ("[OK] Docker Compose: " ++ Py.strip (Py.text (Py.stdout result)))
             INFO) ;;
  match r with
  | inr e =>
      if Py.is_CalledProcessError e || Py.is_FileNotFoundError e then
        log "[ERROR] Docker Compose не установлен" ERROR ;;
        ret false
      else raise e
  | inl _ =>
  r <- attempt (
         result <- spawn [sys_executable cfg; "--version"] None true true true
                     o_python ;;
         log ("[OK] Python: " ++ Py.strip (Py.text (Py.stdout result))) INFO) ;;
  match r with
  | inr e =>
      if Py.is_CalledProcessError e then
        log "[ERROR] Python не найден" ERROR ;;
        ret false
      else raise e
  | inl _ => ret true
  end end end.

(** [check_env_files(self)] *)
Definition check_env_files (exists_ : string -> bool) : M bool :=
  do_emit (EvCall "check_env_files") ;;
  log "Проверка файлов окружения..." INFO ;;
  let required_files := [".env.dev"; ".env.hh.dev"] in
  let missing_files :=
    filter (fun f => negb (exists_ (root_file f))) required_files in
  match missing_files with
  | _ :: _ =>
      log ("[ERROR] Отсутствуют файлы окружения: "
             ++ Py.join ", " missing_files) ERROR ;;
      log "  Создайте их на основе примеров или получите от администратора проекта"
          ERROR ;;
      ret false
  | [] =>
      log "[OK] Файлы окружения найдены" INFO ;;
      ret true
  end.

(** [start_test_environment(self)] *)
Definition start_test_environment (o_down o_up : Py.run_outcome) : M bool :=
  do_emit (EvCall "start_test_environment") ;;
  log "Запуск тестового окружения..." INFO ;;
  r <- attempt (
         log "Очистка предыдущих контейнеров..." INFO ;;
         spawn cmd_pre_down (Some (project_root cfg)) true
               (negb (verbose cfg)) true o_down ;;
         log "Запуск сервисов..." INFO ;;
         spawn cmd_up (Some (project_root cfg)) true
               (negb (verbose cfg)) true o_up) ;;
  match r with
  | inr e =>
      if Py.is_CalledProcessError e then
        log ("[ERROR] Ошибка запуска docker-compose: " ++ Py.str_exn e) ERROR ;;
        match e with
        | Py.CalledProcessError _ _ _ (Some err) =>
            when (negb (verbose cfg) && Py.truthy err)
                 (log ("Stderr: " ++ err) ERROR)
        | _ => ret tt
        end ;;
        ret false
      else raise e
  | inl _ => ret true
  end.

(** [_show_container_logs(self)] *)
Definition _show_container_logs (o_logs : Py.run_outcome) : M unit :=
  log "Показываем логи контейнеров для диагностики..." WARNING ;;
  r <- attempt (
         result <- spawn cmd_logs (Some (project_root cfg)) false true true
                     o_logs ;;
         log "Логи контейнеров:" WARNING ;;
         log (Py.text (Py.stdout result)) WARNING ;;
         when (Py.truthy (Py.text (Py.stderr result)))
              (log "Ошибки:" ERROR ;;
               log (Py.text (Py.stderr result)) ERROR)) ;;
  match r with
  | inr e => log ("Не удалось получить логи: " ++ Py.str_exn e) ERROR
  | inl _ => ret tt
  end.

(** One call [service_info["check_function"](service_info["url"])]. *)
Definition call_check (service_name : string) (service_info : Service.t)
    (attempts : nat) : M bool :=
  fun st =>
    let reply :=
      Service.check_function service_info (Service.url service_info)
                             (clock st) in
    let st' :=
      advance (Z.of_nat (duration reply))
              (emit (EvProbe service_name attempts (outcome reply)) st) in
    match outcome reply with
    | CheckReturned b => (Returned b, st')
    | CheckRaised e => (Raised e, st')
    end.

(** The [while] loop of [wait_for_services] for one service; the loop
    variables are [service_ready] and [attempts]. *)
Fixpoint wait_loop (fuel : nat) (service_name : string)
    (service_info : Service.t) (start_time timeout : Z)
    (service_ready : bool) (attempts : nat) : M (bool * nat) :=
  match fuel with
  | O => fun st => (OutOfFuel, st)
  | S fuel' =>
      now <- time_time ;;
      if (now - start_time <? timeout) && negb service_ready then
        let attempts := S attempts in
        r <- attempt (call_check service_name service_info attempts) ;;
        match r with
        | inl true =>
            log ("  [OK] " ++ Service.name service_info ++ " готов (попытка "
                   ++ Py.str_nat attempts ++ ")") INFO ;;
            wait_loop fuel' service_name service_info start_time timeout
                      true attempts
        | inl false =>
            time_sleep 5 ;;
            wait_loop fuel' service_name service_info start_time timeout
                      service_ready attempts
        | inr e =>
            when (verbose cfg)
                 (log ("  Попытка " ++ Py.str_nat attempts ++ " для "
                         ++ Service.name service_info ++ " не удалась: "
                         ++ Py.str_exn e) INFO) ;;
            time_sleep 5 ;;
            wait_loop fuel' service_name service_info start_time timeout
                      service_ready attempts
        end
      else ret (service_ready, attempts)
  end.

(** Iterations the loop can need: every unsuccessful one sleeps 5 seconds
    of a [timeout]-second budget. *)
Definition loop_fuel (timeout : Z) : nat := S (S (Z.to_nat timeout)).

(** The [for] loop of [wait_for_services] over [services.items()]. *)
Fixpoint wait_each (services : list (string * Service.t))
    (start_time timeout : Z) (o_logs : Py.run_outcome) : M bool :=
  match services with
  | [] =>
      log "[OK] Все сервисы готовы!" INFO ;;
      ret true
  | (service_name, service_info) :: rest =>
      log ("  Ожидание " ++ Service.name service_info ++ "...") INFO ;;
      r <- wait_loop (loop_fuel timeout) service_name service_info
                     start_time timeout false 0 ;;
      if negb (fst r) then
        log ("[ERROR] " ++ Service.name service_info ++ " не готов за "
               ++ Py.str_int timeout ++ " секунд") ERROR ;;
        _show_container_logs o_logs ;;
        ret false
      else wait_each rest start_time timeout o_logs
  end.

(** [wait_for_services(self, timeout)], over a given [services] dict. *)
Definition wait_for_services (services : list (string * Service.t))
    (timeout : Z) (o_logs : Py.run_outcome) : M bool :=
  do_emit (EvCall "wait_for_services") ;;
  log ("Ожидание готовности сервисов (таймаут: " ++ Py.str_int timeout
         ++ "с)...") INFO ;;
  start_time <- time_time ;;
  wait_each services start_time timeout o_logs.

(** [_run_single_test(self, submodule)] *)
Definition timeout_message : string :=
  "Тесты превысили время ожидания (10 мин)".

Definition _run_single_test (submodule : Submodule.t)
    (o : Py.timed_run_outcome) : M TestResult.t :=
  let result :=
    {| TestResult.name := Submodule.name submodule;
       TestResult.success := false;
       TestResult.output := "";
       TestResult.error := "" |} in
  r <- attempt (
         let env := dict_update (os_environ cfg) (Submodule.env submodule) in
         process <- spawn_timeout (Submodule.test_command submodule)
                      (Some (Submodule.path submodule)) (Some env)
                      false true true 600 o ;;
         let result :=
           {| TestResult.name := Submodule.name submodule;
              TestResult.success := (Py.returncode process =? 0);
              TestResult.output := Py.text (Py.stdout process);
              TestResult.error := Py.text (Py.stderr process) |} in
         (if TestResult.success result then
            log ("[SUCCESS] Тесты " ++ Submodule.name submodule ++ " пройдены")
                SUCCESS
          else
            log ("[ERROR] Тесты " ++ Submodule.name submodule ++ " провалились")
                ERROR ;;
            when (negb (verbose cfg))
              (let lines :=
                 Py.last_n 20
                   (Py.split_newline (Py.text (Py.stdout process)
                                        ++ Py.text (Py.stderr process))) in
               log "Последние строки вывода:" ERROR ;;
               for_each lines (fun line =>
                 when (Py.truthy (Py.strip line))
                      (log ("  " ++ line) ERROR)))) ;;
         ret result) ;;
  match r with
  | inl result' => ret result'
  | inr e =>
      if Py.is_TimeoutExpired e then
        log ("✗ Таймаут выполнения тестов " ++ Submodule.name submodule) ERROR ;;
        ret {| TestResult.name := TestResult.name result;
               TestResult.success := TestResult.success result;
               TestResult.output := TestResult.output result;
               TestResult.error := timeout_message |}
      else
        log ("✗ Ошибка запуска тестов " ++ Submodule.name submodule ++ ": "
               ++ Py.str_exn e) ERROR ;;
        ret {| TestResult.name := TestResult.name result;
               TestResult.success := TestResult.success result;
               TestResult.output := TestResult.output result;
               TestResult.error := Py.str_exn e |}
  end.

(** The [for] loop of [run_submodule_tests]: [results] is the list that
    [results.append] grows. *)
Fixpoint run_each (submodules : list Submodule.t)
    (test_outcome : Submodule.t -> Py.timed_outcome)
    (results : list TestResult.t) : M (list TestResult.t) :=
  match submodules with
  | [] => ret results
  | submodule :: rest =>
      log ("Запуск тестов для " ++ Submodule.name submodule ++ "...") INFO ;;
      result <- _run_single_test submodule (test_outcome submodule) ;;
      run_each rest test_outcome (results ++ [result])
  end.

(** [run_submodule_tests(self)], over a given [submodules] list. *)
Definition run_submodule_tests (submodules : list Submodule.t)
    (test_outcome : Submodule.t -> Py.timed_outcome)
  : M (list TestResult.t) :=
  do_emit (EvCall "run_submodule_tests") ;;
  log "Запуск интеграционных тестов..." INFO ;;
  run_each submodules test_outcome [].

(** [cleanup_environment(self)] *)
Definition cleanup_environment (o_down : Py.run_outcome) : M bool :=
  do_emit (EvCall "cleanup_environment") ;;
  if no_cleanup cfg then
    log "Пропуск очистки (--no-cleanup)" INFO ;;
    ret true
  else
    log "Очистка тестового окружения..." INFO ;;
    r <- attempt (
           spawn cmd_down (Some (project_root cfg)) true
                 (negb (verbose cfg)) true o_down ;;
           log "[OK] Тестовое окружение очищено" INFO) ;;
    match r with
    | inl _ => ret true
    | inr e =>
        if Py.is_CalledProcessError e then
          log ("[ERROR] Ошибка очистки: " ++ Py.str_exn e) ERROR ;;
          ret false
        else raise e
    end.

(** The [for] loop of [print_summary]; the loop variables are the two
    counters. *)
Fixpoint summary_loop (results : list TestResult.t)
    (total_passed total_failed : nat) : M (nat * nat) :=
  match results with
  | [] => ret (total_passed, total_failed)
  | result :: rest =>
      let status :=
        if TestResult.success result then "ПРОЙДЕН" else "ПРОВАЛЕН" in
      print (nl ++ TestResult.name result ++ ": " ++ status) ;;
      when (negb (TestResult.success result)
              && Py.truthy (TestResult.error result))
           (print ("  Ошибка: " ++ TestResult.error result)) ;;
      if TestResult.success result
      then summary_loop rest (S total_passed) total_failed
      else summary_loop rest total_passed (S total_failed)
  end.

(** [print_summary(self, results)] *)
Definition print_summary (results : list TestResult.t) : M bool :=
  do_emit (EvCall "print_summary") ;;
  print (nl ++ Py.repeat_str "=" 60) ;;
  print "РЕЗУЛЬТАТЫ ИНТЕГРАЦИОННЫХ ТЕСТОВ" ;;
  print (Py.repeat_str "=" 60) ;;
  totals <- summary_loop results 0 0 ;;
  let total_passed := fst totals in
  let total_failed := snd totals in
  print (nl ++ Py.repeat_str "=" 60) ;;
  print ("ИТОГО: " ++ Py.str_nat (total_passed + total_failed) ++ " модулей") ;;
  print ("Пройдено: " ++ Py.str_nat total_passed) ;;
  print ("Провалено: " ++ Py.str_nat total_failed) ;;
  if (total_failed =? 0)%nat then
    print (nl ++ "ВСЕ ИНТЕГРАЦИОННЫЕ ТЕСТЫ ПРОЙДЕНЫ!") ;;
    ret true
  else
    print (nl ++ Py.str_nat total_failed ++ " модуль(ей) провалено") ;;
    ret false.

(** The tail of [run]: summary and final status, from the results and the
    outcome of the cleanup. *)
Definition report (results : list TestResult.t) (cleanup_success : bool)
  : M bool :=
  success <- print_summary results ;;
  if success && cleanup_success then
    print (nl ++ "ИНТЕГРАЦИОННЫЕ ТЕСТЫ ЗАВЕРШЕНЫ УСПЕШНО") ;;
    ret true
  else
    print (nl ++ "ИНТЕГРАЦИОННЫЕ ТЕСТЫ ЗАВЕРШЕНЫ С ОШИБКАМИ") ;;
    ret false.

(** [run(self)], over given [services] and [submodules]. *)
Definition run (services : list (string * Service.t))
    (submodules : list Submodule.t) (w : World) : M bool :=
  print "Запуск интеграционных тестов job-platform" ;;
  print (Py.repeat_str "=" 60) ;;
  deps <- check_dependencies (docker_version w) (compose_version w)
                             (python_version w) ;;
  if negb deps then ret false else
  files <- check_env_files (file_exists w) ;;
  if negb files then ret false else
  started <- start_test_environment (compose_pre_down w) (compose_up w) ;;
  if negb started then ret false else
  ready <- wait_for_services services 180 (compose_logs w) ;;
  if negb ready then
    cleanup_environment (compose_down w) ;;
    ret false
  else
  results <- run_submodule_tests submodules (test_process w) ;;
  cleanup_success <- cleanup_environment (compose_down w) ;;
  report results cleanup_success.

End Runner.

(** [main()]: the exit status of the process.  An exception that leaves
    [run] ends the interpreter with status 1. *)
Definition exit_status (r : Result bool) : option Z :=
  match r with
  | Returned true => Some 0
  | Returned false => Some 1
  | Raised _ => Some 1
  | OutOfFuel => None
  end.

Definition initial_state : State :=
  {| clock := 0; live_stacks := 0; trace := [] |}.

Definition main (cfg : Config) (services : list (string * Service.t))
    (submodules : list Submodule.t) (w : World) (st : State) : option Z :=
  exit_status (fst (run cfg services submodules w st)).

(** ** The services and submodules the script is configured with *)

(** What the two probes of the script meet at an instant of the clock: the
    outcome of [docker exec ... pg_isready] and of [requests.get(url)], each
    with the seconds it takes. *)
Inductive http_outcome : Type :=
| HttpResponse (status_code : Z)
| HttpFailed (e : Py.exn).

Record ProbeWorld : Type := {
  pg_isready : Z -> Py.timed_outcome * nat;
  http_get : string -> Z -> http_outcome * nat
}.

Definition cmd_pg_isready : list string :=
  ["docker"; "exec"; "job_platform_test_db";
   "pg_isready"; "-U"; "test_user"; "-d"; "job_platform_test"].

(** [_check_database(self, url)] *)
Definition _check_database (pw : ProbeWorld) (url : string) (now : Z)
  : check_reply :=
  let (o, d) := pg_isready pw now in
  {| outcome :=
       match Py.subprocess_run_timeout cmd_pg_isready false true false 5 o with
       | inl result => CheckReturned (Py.returncode result =? 0)
       | inr e =>
           if Py.is_TimeoutExpired e || Py.is_CalledProcessError e
           then CheckReturned false
           else CheckRaised e
       end;
     duration := d |}.

(** [_check_api(self, url)] *)
Definition _check_api (pw : ProbeWorld) (url : string) (now : Z)
  : check_reply :=
  let (r, d) := http_get pw url now in
  {| outcome :=
       match r with
       | HttpResponse status_code => CheckReturned (status_code =? 200)
       | HttpFailed _ => CheckReturned false
       end;
     duration := d |}.

Definition default_services (pw : ProbeWorld) : list (string * Service.t) :=
  [ ("test_db",
     {| Service.url := "http://localhost:5433";
        Service.name := "База данных";
        Service.check_function := _check_database pw |});
    ("test_api",
     {| Service.url := "http://localhost:8001/api/v1/docs";
        Service.name := "API";
        Service.check_function := _check_api pw |}) ].

Definition default_submodules (cfg : Config) : list Submodule.t :=
  [ {| Submodule.name := "job-bot";
       Submodule.path := root_file cfg "job-bot";
       Submodule.test_command :=
         ["python"; "-m"; "pytest"; "tests/integration/"; "-v"; "--tb=short"];
       Submodule.env := [("API_BASE_URL", "http://localhost:8001")] |} ].

(** The script as it is configured. *)
Definition IntegrationTestRunner_run (cfg : Config) (pw : ProbeWorld)
    (w : World) : M bool :=
  run cfg (default_services pw) (default_submodules cfg) w.

(** ** Reading a trace *)

(** [EnvironmentController.stop] is the tear-down command issued by
    [cleanup_environment]: [down -v], in the project root, with the
    inherited environment. *)
Definition is_stop (ev : Event) : bool :=
  match ev with
  | EvSpawn cmd _ None => cmd_eqb cmd cmd_down
  | _ => false
  end.

Definition is_call (method : string) (ev : Event) : bool :=
  match ev with
  | EvCall m => String.eqb m method
  | _ => false
  end.

Definition is_probe (ev : Event) : bool :=
  match ev with EvProbe _ _ _ => true | _ => false end.

(** A test command is the only process launched with an explicit [env]. *)
Definition is_test_spawn (ev : Event) : bool :=
  match ev with EvSpawn _ _ (Some _) => true | _ => false end.

Definition count (p : Event -> bool) (evs : list Event) : nat :=
  length (filter p evs).

(** The commands launched, in order. *)
Fixpoint spawned (evs : list Event) : list (list string) :=
  match evs with
  | [] => []
  | EvSpawn cmd _ _ :: rest => cmd :: spawned rest
  | _ :: rest => spawned rest
  end.

Definition exits_ok (o : Py.proc_outcome) : bool :=
  match o with
  | Py.Exited rc _ _ => rc =? 0
  | Py.LaunchFailed _ => false
  end.

(** Sample data for the examples. *)
Definition cfg0 : Config :=
  {| verbose := false; no_cleanup := false; project_root := "/srv/job-platform";
     sys_executable := "/usr/bin/python3"; os_environ := [("PATH", "/usr/bin")] |}.

Definition ok : Py.proc_outcome := Py.Exited 0 "" "".

Definition world_ok (tests : Submodule.t -> Py.timed_outcome) : World :=
  {| docker_version := Py.Exited 0 "Docker version 24.0.7" "";
     compose_version := Py.Exited 0 "docker-compose version 1.29.2" "";
     python_version := Py.Exited 0 "Python 3.11.4" "";
     file_exists := fun _ => true;
     compose_pre_down := ok;
     compose_up := ok;
     compose_logs := Py.Exited 0 "db  | ready" "";
     test_process := tests;
     compose_down := ok |}.

Definition module_named (n : string) : Submodule.t :=
  {| Submodule.name := n; Submodule.path := "/srv/job-platform/" ++ n;
     Submodule.test_command := ["python"; "-m"; "pytest"];
     Submodule.env := [("API_BASE_URL", "http://localhost:8001")] |}.

(** "alpha" exits 0, every other module exits 1. *)
Definition alpha_beta (m : Submodule.t) : Py.timed_outcome :=
  if String.eqb (Submodule.name m) "alpha"
  then Py.Finished (Py.Exited 0 "2 passed" "")
  else Py.Finished (Py.Exited 1 "1 failed" "E   assert").

Definition always (r : check_result) (d : nat) : string -> Z -> check_reply :=
  fun _ _ => {| outcome := r; duration := d |}.

Definition service (n : string) (f : string -> Z -> check_reply) : Service.t :=
  {| Service.url := "http://localhost/" ++ n; Service.name := n;
     Service.check_function := f |}.

(** * Vocabulary of the properties *)

Local Open Scope list_scope.

(** [st'] extends [st] by events that all satisfy [P]. *)
Definition extends (P : Event -> Prop) (st st' : State) : Prop :=
  exists evs, trace st' = trace st ++ evs /\ Forall P evs.

(** Whatever the outcome, [m] only adds events that satisfy [P]. *)
Definition emits {A} (m : M A) (P : Event -> Prop) : Prop :=
  forall st, extends P st (snd (m st)).

(** [m] never runs out of fuel: it returns or raises. *)
Definition total {A} (m : M A) : Prop :=
  forall st, fst (m st) <> OutOfFuel.

(** [log] always returns; it changes nothing but the trace. *)
Definition logged (cfg : Config) (message : string) (level : Level)
    (st : State) : State :=
  snd (log cfg message level st).

Definition passed (results : list TestResult.t) : nat :=
  length (filter TestResult.success results).

Definition failed (results : list TestResult.t) : nat :=
  length (filter (fun r => negb (TestResult.success r)) results).

(** The state a launched command leaves. *)
Definition launched (cmd : list string) (cwd : option string)
    (o : Py.run_outcome) (st : State) : State :=
  set_stacks (stack_effect cmd o (live_stacks st)) (emit (EvSpawn cmd cwd None) st).

(** What [cleanup_environment] answers, by the outcome of the tear-down
    command. *)
Definition cleanup_answer (cfg : Config) (o : Py.proc_outcome) : Result bool :=
  if no_cleanup cfg then Returned true
  else match o with
       | Py.Exited rc _ _ => Returned (rc =? 0)
       | Py.LaunchFailed f => Raised (Py.exn_of_failure f)
       end.

Definition keys (services : list (string * Service.t)) : list string :=
  map fst services.

(** What [start_test_environment] answers, by the outcomes of its two
    commands. *)
Definition start_answer (o_down o_up : Py.proc_outcome) : Result bool :=
  match o_down with
  | Py.LaunchFailed f => Raised (Py.exn_of_failure f)
  | Py.Exited rc _ _ =>
      if rc =? 0 then
        match o_up with
        | Py.LaunchFailed f => Raised (Py.exn_of_failure f)
        | Py.Exited rc' _ _ => Returned (rc' =? 0)
        end
      else Returned false
  end.

Definition is_log (ev : Event) : Prop :=
  match ev with EvLog _ _ => True | _ => False end.

(** [st'] differs from [st] by log lines only. *)
Definition quiet (st st' : State) : Prop :=
  clock st' = clock st /\ live_stacks st' = live_stacks st /\
  extends is_log st st'.

Definition only_logs (m : M unit) : Prop :=
  forall st, exists st', m st = (Returned tt, st') /\ quiet st st'.

(** The result [_run_single_test] builds, by what became of the test
    command. *)
Definition result_of (submodule : Submodule.t) (o : Py.timed_outcome)
  : TestResult.t :=
  match o with
  | Py.Finished (Py.Exited rc out err) =>
      {| TestResult.name := Submodule.name submodule;
         TestResult.success := (rc =? 0);
         TestResult.output := out;
         TestResult.error := err |}
  | Py.Finished (Py.LaunchFailed f) =>
      {| TestResult.name := Submodule.name submodule;
         TestResult.success := false;
         TestResult.output := "";
         TestResult.error := Py.str_exn (Py.exn_of_failure f) |}
  | Py.Expired _ _ =>
      {| TestResult.name := Submodule.name submodule;
         TestResult.success := false;
         TestResult.output := "";
         TestResult.error := timeout_message |}
  end.

Definition test_event (cfg : Config) (submodule : Submodule.t) : Event :=
  EvSpawn (Submodule.test_command submodule)
          (Some (Submodule.path submodule))
          (Some (dict_update (os_environ cfg) (Submodule.env submodule))).

(** Keys of the services whose check answered [True], and of all the
    services probed, in the order of the calls. *)
Fixpoint ready_keys (evs : list Event) : list string :=
  match evs with
  | [] => []
  | EvProbe k _ (CheckReturned true) :: rest => k :: ready_keys rest
  | _ :: rest => ready_keys rest
  end.

Fixpoint probed_keys (evs : list Event) : list string :=
  match evs with
  | [] => []
  | EvProbe k _ _ :: rest => k :: probed_keys rest
  | _ :: rest => probed_keys rest
  end.

(** The check of a service never answers [True] when called before the
    deadline [start + timeout]. *)
Definition never_ready (start timeout : Z) (info : Service.t) : Prop :=
  forall t, start <= t -> t - start < timeout ->
    outcome (Service.check_function info (Service.url info) t)
    <> CheckReturned true.


(** The state after one call of the check and after one sleep. *)
Definition probed (key : string) (info : Service.t) (attempts : nat)
    (st : State) : State :=
  let reply :=
    Service.check_function info (Service.url info) (clock st) in
  advance (Z.of_nat (duration reply))
          (emit (EvProbe key attempts (outcome reply)) st).

Definition slept (seconds : Z) (st : State) : State :=
  advance seconds (emit (EvSleep seconds) st).

(** What one run of the [while] loop guarantees. *)
Record loop_post (key : string) (start timeout : Z) (info : Service.t)
    (ready : bool) (st : State) (ready' : bool) (st' : State) : Prop := {
  lp_clock : clock st <= clock st';
  lp_stacks : live_stacks st' = live_stacks st;
  lp_spawned : spawned (trace st') = spawned (trace st);
  lp_ready_keys :
    ready_keys (trace st')
    = ready_keys (trace st) ++ (if ready' && negb ready then [key] else []);
  lp_probed :
    exists ks, probed_keys (trace st') = probed_keys (trace st) ++ ks /\
               Forall (eq key) ks;
  lp_keeps : ready = true -> ready' = true;
  lp_deadline : ready' = false -> timeout <= clock st' - start;
  lp_never : never_ready start timeout info -> ready = false -> ready' = false;
  lp_asked :
    ready = false -> clock st - start < timeout ->
    exists ks, probed_keys (trace st') = probed_keys (trace st) ++ key :: ks /\
               Forall (eq key) ks
}.

(** What a phase that only launches the [logs] command leaves. *)
Record dumped (st st' : State) : Prop := {
  du_clock : clock st' = clock st;
  du_stacks : live_stacks st' = live_stacks st;
  du_spawned : spawned (trace st') = spawned (trace st) ++ [cmd_logs];
  du_ready_keys : ready_keys (trace st') = ready_keys (trace st);
  du_probed_keys : probed_keys (trace st') = probed_keys (trace st)
}.

Definition can_be_ready (start timeout : Z) (s : string * Service.t) : Prop :=
  ~ never_ready start timeout (snd s).

(** What the [for] loop over the services guarantees: on success every
    service answered [True] once, in order, and nothing was launched; on
    failure the deadline has passed, the logs were dumped, and the
    services split at the one that failed. *)
Record each_post (start timeout : Z)
    (services : list (string * Service.t)) (st : State)
    (b : bool) (st' : State) : Prop := {
  ep_clock : clock st <= clock st';
  ep_stacks : live_stacks st' = live_stacks st;
  ep_ready :
    b = true ->
    spawned (trace st') = spawned (trace st) /\
    ready_keys (trace st') = ready_keys (trace st) ++ keys services /\
    Forall (can_be_ready start timeout) services;
  ep_abort :
    b = false ->
    timeout <= clock st' - start /\
    spawned (trace st') = spawned (trace st) ++ [cmd_logs] /\
    exists pre a post,
      services = pre ++ a :: post /\
      ready_keys (trace st') = ready_keys (trace st) ++ keys pre /\
      (exists ks, probed_keys (trace st') = probed_keys (trace st) ++ ks /\
                  incl ks (keys (pre ++ [a]))) /\
      Forall (can_be_ready start timeout) pre
}.

(** The three preliminary phases succeed: the tools answer, the two
    environment files exist, and both commands of the start exit 0. *)
Definition env_ready (cfg : Config) (w : World) : Prop :=
  exits_ok (docker_version w) = true /\
  exits_ok (compose_version w) = true /\
  exits_ok (python_version w) = true /\
  file_exists w (root_file cfg ".env.dev") = true /\
  file_exists w (root_file cfg ".env.hh.dev") = true /\
  exits_ok (compose_pre_down w) = true /\
  exits_ok (compose_up w) = true.

(** The part of [run] that precedes the readiness phase, and the part that
    follows the start. *)
Definition before_readiness (cfg : Config) (w : World) : M bool :=
  print "Запуск интеграционных тестов job-platform" ;;
  print (Py.repeat_str "=" 60) ;;
  deps <- check_dependencies cfg (docker_version w) (compose_version w)
                             (python_version w) ;;
  if negb deps then ret false else
  files <- check_env_files cfg (file_exists w) ;;
  if negb files then ret false else
  start_test_environment cfg (compose_pre_down w) (compose_up w).

Definition from_readiness (cfg : Config) (services : list (string * Service.t))
    (submodules : list Submodule.t) (w : World) : M bool :=
  ready <- wait_for_services cfg services 180 (compose_logs w) ;;
  if negb ready then
    cleanup_environment cfg (compose_down w) ;;
    ret false
  else
  results <- run_submodule_tests cfg submodules (test_process w) ;;
  cleanup_success <- cleanup_environment cfg (compose_down w) ;;
  report results cleanup_success.

(** The state in which [run] enters the readiness phase. *)
Definition entering_readiness (cfg : Config) (w : World) (st : State) : State :=
  snd (before_readiness cfg w st).

(** Events of interest below: none of them occurs before the readiness
    phase. *)
Definition late_event (p : Event -> bool) (cfg : Config) : Prop :=
  (forall level message, p (EvLog level message) = false) /\
  (forall line, p (EvPrint line) = false) /\
  (forall seconds, p (EvSleep seconds) = false) /\
  (forall k a r, p (EvProbe k a r) = false) /\
  p (EvCall "check_dependencies") = false /\
  p (EvCall "check_env_files") = false /\
  p (EvCall "start_test_environment") = false /\
  p (EvCall "wait_for_services") = false /\
  (forall cmd, p (EvSpawn (cmd :: ["--version"]) None None) = false) /\
  p (EvSpawn cmd_pre_down (Some (project_root cfg)) None) = false /\
  p (EvSpawn cmd_up (Some (project_root cfg)) None) = false /\
  p (EvSpawn cmd_logs (Some (project_root cfg)) None) = false.

Definition db_never_ready : list (string * Service.t) :=
  [("db", service "db" (always (CheckReturned false) 1));
   ("api", service "api" (always (CheckReturned true) 0))].

Definition api_then_db : list (string * Service.t) :=
  [("api", service "api" (always (CheckReturned true) 2));
   ("db", service "db" (always (CheckRaised (Py.OSError "docker: not found")) 1));
   ("cache", service "cache" (always (CheckReturned true) 0))].

(** What [check_dependencies] answers, by the outcomes of its three
    probes. *)
Definition deps_answer (o_docker o_compose o_python : Py.proc_outcome)
  : Result bool :=
  match o_docker with
  | Py.LaunchFailed (Py.NotFound _) => Returned false
  | Py.LaunchFailed (Py.OtherOSFailure msg) => Raised (Py.OSError msg)
  | Py.Exited rc _ _ =>
      if negb (rc =? 0) then Returned false else
      match o_compose with
      | Py.LaunchFailed (Py.NotFound _) => Returned false
      | Py.LaunchFailed (Py.OtherOSFailure msg) => Raised (Py.OSError msg)
      | Py.Exited rc' _ _ =>
          if negb (rc' =? 0) then Returned false else
          match o_python with
          | Py.LaunchFailed f => Raised (Py.exn_of_failure f)
          | Py.Exited rc'' _ _ => Returned (rc'' =? 0)
          end
      end
  end.

(** The environment files [check_env_files] misses. *)
Definition missing_files (cfg : Config) (exists_ : string -> bool)
  : list string :=
  filter (fun f => negb (exists_ (root_file cfg f))) [".env.dev"; ".env.hh.dev"].

(** [m] changes neither the clock nor the stacks, whatever its outcome. *)
Definition keeps {A} (m : M A) : Prop :=
  forall st,
    live_stacks (snd (m st)) = live_stacks st /\ clock (snd (m st)) = clock st.

(** A command that only asks a tool for its version. *)
Definition is_version_probe (cmd : list string) : Prop :=
  exists tool, cmd = [tool; "--version"].

(** What the first three phases of [run] answer: the answer of the first
    phase that does not answer [True], or that of the start. *)
Definition start_phase_answer (cfg : Config) (w : World) : Result bool :=
  match deps_answer (docker_version w) (compose_version w) (python_version w) with
  | Returned true =>
      match missing_files cfg (file_exists w) with
      | [] => start_answer (compose_pre_down w) (compose_up w)
      | _ :: _ => Returned false
      end
  | a => a
  end.

(** The dependency probes answer and the environment files exist. *)
Definition preconditions_ok (cfg : Config) (w : World) : bool :=
  exits_ok (docker_version w) && exits_ok (compose_version w)
  && exits_ok (python_version w)
  && file_exists w (root_file cfg ".env.dev")
  && file_exists w (root_file cfg ".env.hh.dev").

(** [m] does not let the clock advance, whatever its outcome. *)
Definition timeless {A} (m : M A) : Prop :=
  forall st, clock (snd (m st)) = clock st.

(** Events that belong to the phases after the start: a probe, a test
    command, the tear-down of the cleanup, and the entry into
    [wait_for_services], [run_submodule_tests], [cleanup_environment] or
    [print_summary]. *)
Definition later_phase_event (ev : Event) : bool :=
  is_stop ev || is_probe ev || is_test_spawn ev
  || is_call "wait_for_services" ev || is_call "run_submodule_tests" ev
  || is_call "cleanup_environment" ev || is_call "print_summary" ev.

Definition is_sleep (ev : Event) : bool :=
  match ev with EvSleep _ => true | _ => false end.

(** [d.get(k)] on a dict kept as an association list. *)
Fixpoint dict_get (k : string) (d : list (string * string)) : option string :=
  match d with
  | [] => None
  | (k', v) :: rest => if String.eqb k k' then Some v else dict_get k rest
  end.

(** The lines written by [print] and the lines written by [self.log], in
    order. *)
Fixpoint printed (evs : list Event) : list string :=
  match evs with
  | [] => []
  | EvPrint line :: rest => line :: printed rest
  | _ :: rest => printed rest
  end.

Fixpoint logs (evs : list Event) : list (Level * string) :=
  match evs with
  | [] => []
  | EvLog level message :: rest => (level, message) :: logs rest
  | _ :: rest => logs rest
  end.

(** The lines of the summary for one result: its status, and its error
    when it failed with one. *)
Definition result_lines (result : TestResult.t) : list string :=
  (nl ++ TestResult.name result ++ ": "
      ++ (if TestResult.success result then "ПРОЙДЕН" else "ПРОВАЛЕН"))%string
  :: (if negb (TestResult.success result)
         && Py.truthy (TestResult.error result)
      then [("  Ошибка: " ++ TestResult.error result)%string]
      else []).

(** The lines of output shown at once when a test command fails: the
    non-blank ones among the last 20 of stdout followed by stderr. *)
Definition excerpt (out err : string) : list string :=
  filter (fun line => Py.truthy (Py.strip line))
         (Py.last_n 20 (Py.split_newline (out ++ err)%string)).

(** An event a run with this configuration may write as far as the level
    of the log lines goes: an INFO line needs [verbose]. *)
Definition shown (cfg : Config) (ev : Event) : Prop :=
  match ev with
  | EvLog INFO _ => verbose cfg = true
  | _ => True
  end.

(** A probe that found its service ready, and a sleep of another length
    than the 5 seconds of the readiness loop. *)
Definition is_ready_probe (ev : Event) : bool :=
  match ev with EvProbe _ _ (CheckReturned true) => true | _ => false end.

Definition is_other_sleep (ev : Event) : bool :=
  match ev with EvSleep seconds => negb (seconds =? 5) | _ => false end.

(** From [st] to [st'] there are as many probes as there are sleeps and
    probes that found the service ready together, and every sleep is one
    of 5 seconds. *)
Record paced (st st' : State) : Prop := {
  pc_probes :
    (count is_probe (trace st') + count is_sleep (trace st)
       + count is_ready_probe (trace st)
     = count is_probe (trace st) + count is_sleep (trace st')
       + count is_ready_probe (trace st'))%nat;
  pc_sleeps : count is_other_sleep (trace st') = count is_other_sleep (trace st)
}.

(** * Properties *)

Arguments String.append : simpl never.
Arguments Py.strip : simpl never.
Arguments Py.str_nat : simpl never.
Arguments Py.str_int : simpl never.
Arguments Py.str_exn : simpl never.
Arguments Py.join : simpl never.
Arguments Py.repeat_str : simpl never.
Arguments Py.split_newline : simpl never.
Arguments Py.last_n : simpl never.
Arguments dict_update : simpl never.
Arguments loop_fuel : simpl never.

(** ** Traces only grow, and what a computation adds can be bounded *)

Lemma extends_refl P st : extends P st st.
Proof. exists []. rewrite app_nil_r. auto. Qed.

Lemma extends_trans P st1 st2 st3 :
  extends P st1 st2 -> extends P st2 st3 -> extends P st1 st3.
Proof.
  intros [e1 [H1 F1]] [e2 [H2 F2]]. exists (e1 ++ e2). split.
  - rewrite H2, H1, app_assoc. reflexivity.
  - apply Forall_app. auto.
Qed.

Lemma extends_emit (P : Event -> Prop) ev st : P ev -> extends P st (emit ev st).
Proof. intros H. exists [ev]. simpl. auto. Qed.

Lemma extends_same_trace P st st' :
  trace st' = trace st -> extends P st st'.
Proof. intros H. exists []. rewrite app_nil_r. auto. Qed.

Lemma extends_weaken (P Q : Event -> Prop) st st' :
  (forall ev, P ev -> Q ev) -> extends P st st' -> extends Q st st'.
Proof.
  intros H [evs [E F]]. exists evs. split; [assumption|].
  eapply Forall_impl; eauto.
Qed.

Section Emits.

Variable P : Event -> Prop.

Lemma emits_ret {A} (a : A) : emits (ret a) P.
Proof. intros st. apply extends_refl. Qed.

Lemma emits_raise {A} e : emits (@raise A e) P.
Proof. intros st. apply extends_refl. Qed.

Lemma emits_bind {A B} (m : M A) (k : A -> M B) :
  emits m P -> (forall a, emits (k a) P) -> emits (bind m k) P.
Proof.
  intros Hm Hk st. unfold bind. specialize (Hm st).
  destruct (m st) as [[a | e |] st1]; simpl in *; auto.
  eapply extends_trans; [exact Hm | apply Hk].
Qed.

Lemma emits_attempt {A} (m : M A) : emits m P -> emits (attempt m) P.
Proof.
  intros Hm st. unfold attempt. specialize (Hm st).
  destruct (m st) as [[a | e |] st1]; simpl in *; auto.
Qed.

Lemma emits_of_sum {A} (r : A + Py.exn) : emits (of_sum r) P.
Proof. destruct r; [apply emits_ret | apply emits_raise]. Qed.

Lemma emits_do_emit ev : P ev -> emits (do_emit ev) P.
Proof. intros H st. apply extends_emit, H. Qed.

Lemma emits_when b m : emits m P -> emits (when b m) P.
Proof. intros H. destruct b; simpl; [exact H | apply emits_ret]. Qed.

Lemma emits_if {A} (b : bool) (m1 m2 : M A) :
  emits m1 P -> emits m2 P -> emits (if b then m1 else m2) P.
Proof. destruct b; auto. Qed.

Lemma emits_time_time : emits time_time P.
Proof. intros st. apply extends_refl. Qed.

Lemma emits_for_each {A} (xs : list A) body :
  (forall x, emits (body x) P) -> emits (for_each xs body) P.
Proof.
  intros H. induction xs as [|x xs IH]; simpl.
  - apply emits_ret.
  - apply emits_bind; auto.
Qed.

Lemma emits_spawn cmd cwd check cap text o :
  P (EvSpawn cmd cwd None) -> emits (spawn cmd cwd check cap text o) P.
Proof.
  intros H st. unfold spawn.
  eapply extends_trans; [apply (extends_emit P (EvSpawn cmd cwd None) st H)|].
  eapply extends_trans; [|apply emits_of_sum].
  apply extends_same_trace. reflexivity.
Qed.

Lemma emits_spawn_timeout cmd cwd env check cap text t o :
  P (EvSpawn cmd cwd env) ->
  emits (spawn_timeout cmd cwd env check cap text t o) P.
Proof.
  intros H st. unfold spawn_timeout.
  eapply extends_trans; [apply (extends_emit P _ st H)|].
  apply emits_of_sum.
Qed.

(** The lines the script writes are never of interest below. *)
Hypothesis P_log : forall level message, P (EvLog level message).
Hypothesis P_print : forall line, P (EvPrint line).

Lemma emits_log cfg message level : emits (log cfg message level) P.
Proof. unfold log. apply emits_when, emits_do_emit, P_log. Qed.

Lemma emits_print line : emits (print line) P.
Proof. apply emits_do_emit, P_print. Qed.

End Emits.

(** Steps through the structure of a computation, leaving the events. *)
Ltac emits_step :=
  first
    [ apply emits_ret | apply emits_raise | apply emits_log; [solve [auto]]
    | apply emits_print; solve [auto]
    | apply emits_time_time
    | apply emits_of_sum
    | apply emits_bind; [|intros ?]
    | apply emits_attempt
    | apply emits_when
    | apply emits_for_each; intros ?
    | apply emits_spawn
    | apply emits_spawn_timeout
    | apply emits_do_emit
    | apply emits_if
    | match goal with
      | |- emits (match ?x with _ => _ end) _ => destruct x
      end ].

Ltac emits_auto := repeat emits_step; auto.

Section EmitsMethods.

Variable cfg : Config.
Variable P : Event -> Prop.
Hypothesis P_log : forall level message, P (EvLog level message).
Hypothesis P_print : forall line, P (EvPrint line).

Lemma emits_check_dependencies o1 o2 o3 :
  P (EvCall "check_dependencies") ->
  (forall cmd, P (EvSpawn (cmd :: ["--version"]) None None)) ->
  emits (check_dependencies cfg o1 o2 o3) P.
Proof. intros C H. unfold check_dependencies. emits_auto. Qed.

Lemma emits_check_env_files ex :
  P (EvCall "check_env_files") -> emits (check_env_files cfg ex) P.
Proof. intros C. unfold check_env_files. emits_auto. Qed.

Lemma emits_start_test_environment o_down o_up :
  P (EvCall "start_test_environment") ->
  P (EvSpawn cmd_pre_down (Some (project_root cfg)) None) ->
  P (EvSpawn cmd_up (Some (project_root cfg)) None) ->
  emits (start_test_environment cfg o_down o_up) P.
Proof. intros C H1 H2. unfold start_test_environment. emits_auto. Qed.

Lemma emits_show_container_logs o_logs :
  P (EvSpawn cmd_logs (Some (project_root cfg)) None) ->
  emits (_show_container_logs cfg o_logs) P.
Proof. intros H. unfold _show_container_logs. emits_auto. Qed.

Lemma emits_run_single_test submodule o :
  (forall cmd cwd env, P (EvSpawn cmd cwd (Some env))) ->
  emits (_run_single_test cfg submodule o) P.
Proof. intros H. unfold _run_single_test. emits_auto. Qed.

Lemma emits_run_each submodules outcomes results :
  (forall cmd cwd env, P (EvSpawn cmd cwd (Some env))) ->
  emits (run_each cfg submodules outcomes results) P.
Proof.
  intros H. revert results.
  induction submodules as [|m ms IH]; intros results; simpl.
  - apply emits_ret.
  - emits_step; [emits_auto|]. emits_step; [|apply IH].
    apply emits_run_single_test, H.
Qed.

Lemma emits_run_submodule_tests submodules outcomes :
  P (EvCall "run_submodule_tests") ->
  (forall cmd cwd env, P (EvSpawn cmd cwd (Some env))) ->
  emits (run_submodule_tests cfg submodules outcomes) P.
Proof.
  intros C H. unfold run_submodule_tests. emits_step; [emits_auto|].
  emits_step; [emits_auto|]. apply emits_run_each, H.
Qed.

Lemma emits_cleanup_environment o_down :
  P (EvCall "cleanup_environment") ->
  (no_cleanup cfg = false ->
   P (EvSpawn cmd_down (Some (project_root cfg)) None)) ->
  emits (cleanup_environment cfg o_down) P.
Proof.
  intros C H. unfold cleanup_environment. emits_step; [emits_auto|].
  destruct (no_cleanup cfg); emits_auto.
Qed.

Lemma emits_summary_loop results p f : emits (summary_loop results p f) P.
Proof.
  revert p f. induction results as [|r rs IH]; intros p f; simpl.
  - apply emits_ret.
  - emits_step; [emits_auto|]. emits_step; [emits_auto|].
    destruct (TestResult.success r); apply IH.
Qed.

Lemma emits_print_summary results :
  P (EvCall "print_summary") -> emits (print_summary results) P.
Proof.
  intros C. unfold print_summary. do 4 (emits_step; [emits_auto|]).
  emits_step; [apply emits_summary_loop|]. emits_auto.
Qed.

Lemma emits_report results cleanup_success :
  P (EvCall "print_summary") -> emits (report results cleanup_success) P.
Proof.
  intros C. unfold report.
  emits_step; [apply emits_print_summary, C|]. emits_auto.
Qed.

End EmitsMethods.

(** ** Stepping through a computation *)

Lemma bind_returned {A B} (m : M A) (k : A -> M B) st a st1 :
  m st = (Returned a, st1) -> bind m k st = k a st1.
Proof. intros H. unfold bind. rewrite H. reflexivity. Qed.

Lemma bind_raised {A B} (m : M A) (k : A -> M B) st e st1 :
  m st = (Raised e, st1) -> bind m k st = (Raised e, st1).
Proof. intros H. unfold bind. rewrite H. reflexivity. Qed.

Lemma bind_attempt_returned {A B} (m : M A) (k : A + Py.exn -> M B) st a st1 :
  m st = (Returned a, st1) -> bind (attempt m) k st = k (inl a) st1.
Proof. intros H. unfold bind, attempt. rewrite H. reflexivity. Qed.

Lemma bind_attempt_raised {A B} (m : M A) (k : A + Py.exn -> M B) st e st1 :
  m st = (Raised e, st1) -> bind (attempt m) k st = k (inr e) st1.
Proof. intros H. unfold bind, attempt. rewrite H. reflexivity. Qed.

Lemma bind_assoc {A B C} (m : M A) (f : A -> M B) (g : B -> M C) st :
  bind (bind m f) g st = bind m (fun x => bind (f x) g) st.
Proof. unfold bind. destruct (m st) as [[a|e|] st1]; reflexivity. Qed.

Lemma bind_ret {A B} (a : A) (k : A -> M B) st : bind (ret a) k st = k a st.
Proof. reflexivity. Qed.

Lemma bind_do_emit {B} ev (k : unit -> M B) st :
  bind (do_emit ev) k st = k tt (emit ev st).
Proof. reflexivity. Qed.

Lemma bind_print {B} line (k : unit -> M B) st :
  bind (print line) k st = k tt (emit (EvPrint line) st).
Proof. reflexivity. Qed.

Lemma log_returns cfg message level st :
  log cfg message level st = (Returned tt, logged cfg message level st).
Proof.
  unfold logged, log, when.
  destruct (verbose cfg || _); reflexivity.
Qed.

Lemma bind_log {B} cfg message level (k : unit -> M B) st :
  bind (log cfg message level) k st = k tt (logged cfg message level st).
Proof. apply bind_returned, log_returns. Qed.

Lemma logged_clock cfg message level st :
  clock (logged cfg message level st) = clock st.
Proof.
  unfold logged, log, when. destruct (verbose cfg || _); reflexivity.
Qed.

Lemma logged_stacks cfg message level st :
  live_stacks (logged cfg message level st) = live_stacks st.
Proof.
  unfold logged, log, when. destruct (verbose cfg || _); reflexivity.
Qed.

Lemma logged_extends P cfg message level st :
  (forall l m, P (EvLog l m)) -> extends P st (logged cfg message level st).
Proof.
  intros H. unfold logged.
  apply (emits_log P H cfg message level st).
Qed.

Lemma in_trace_emit ev st : In ev (trace (emit ev st)).
Proof. simpl. apply in_or_app. right. left. reflexivity. Qed.

Lemma in_trace_later ev ev' st : In ev (trace st) -> In ev (trace (emit ev' st)).
Proof. intros H. simpl. apply in_or_app. left. exact H. Qed.

(** ** The report *)

Lemma passed_failed_total results :
  (passed results + failed results = length results)%nat.
Proof.
  unfold passed, failed. induction results as [|r rs IH]; simpl; [reflexivity|].
  destruct (TestResult.success r); simpl; lia.
Qed.

Lemma failed_zero_iff results :
  failed results = 0%nat <-> forallb TestResult.success results = true.
Proof.
  unfold failed. induction results as [|r rs IH]; simpl; [tauto|].
  destruct (TestResult.success r); simpl; [exact IH|].
  split; discriminate.
Qed.

Lemma summary_loop_counts results : forall p f st,
  exists st',
    summary_loop results p f st
    = (Returned ((p + passed results)%nat, (f + failed results)%nat), st').
Proof.
  unfold passed, failed.
  induction results as [|r rs IH]; intros p f st; simpl.
  - exists st. unfold ret. rewrite !Nat.add_0_r. reflexivity.
  - rewrite bind_print.
    destruct (TestResult.success r) eqn:Hs; simpl.
    + destruct (IH (S p) f (emit (EvPrint (nl ++ TestResult.name r ++ ": " ++ "ПРОЙДЕН")%string) st))
        as [st' E].
      exists st'. unfold bind at 1. simpl. rewrite E.
      f_equal. f_equal. f_equal. lia.
    + match goal with
      | |- context [bind (when ?b ?m) _ ?s] =>
          destruct (IH p (S f) (snd (when b m s))) as [st' E];
          exists st'; unfold bind at 1;
          assert (W : when b m s = (Returned tt, snd (when b m s)))
            by (destruct b; reflexivity);
          rewrite W, E
      end.
      f_equal. f_equal. f_equal. lia.
Qed.

Lemma print_summary_spec results st :
  exists st',
    print_summary results st = (Returned (failed results =? 0)%nat, st') /\
    In (EvPrint ("Пройдено: " ++ Py.str_nat (passed results))%string) (trace st') /\
    In (EvPrint ("Провалено: " ++ Py.str_nat (failed results))%string) (trace st').
Proof.
  unfold print_summary.
  rewrite bind_do_emit, !bind_print.
  match goal with
  | |- context [bind (summary_loop results 0 0) _ ?s] =>
      destruct (summary_loop_counts results 0 0 s) as [st1 E];
      rewrite (bind_returned _ _ _ _ _ E)
  end.
  simpl fst. simpl snd. rewrite !bind_print.
  destruct (failed results =? 0)%nat; rewrite bind_print; unfold ret;
    eexists; (split; [reflexivity|]);
    split; repeat (first [apply in_trace_emit | apply in_trace_later]).
Qed.

Lemma report_spec results cleanup_success st :
  fst (report results cleanup_success st)
  = Returned ((failed results =? 0)%nat && cleanup_success).
Proof.
  unfold report.
  destruct (print_summary_spec results st) as [st' [E _]].
  rewrite (bind_returned _ _ _ _ _ E).
  destruct ((failed results =? 0)%nat && cleanup_success);
    rewrite bind_print; reflexivity.
Qed.


(** ** Counting events *)

Lemma count_app p (a b : list Event) :
  count p (a ++ b) = (count p a + count p b)%nat.
Proof. unfold count. rewrite filter_app, length_app. reflexivity. Qed.

Lemma count_emit p ev st :
  count p (trace (emit ev st))
  = (count p (trace st) + if p ev then 1 else 0)%nat.
Proof. simpl. rewrite count_app. unfold count. simpl. destruct (p ev); reflexivity. Qed.

Lemma count_none p (evs : list Event) :
  Forall (fun ev => p ev = false) evs -> count p evs = 0%nat.
Proof.
  unfold count. induction 1 as [|ev evs H _ IH]; simpl; [reflexivity|].
  rewrite H. exact IH.
Qed.

Lemma count_extends p st st' :
  extends (fun ev => p ev = false) st st' ->
  count p (trace st') = count p (trace st).
Proof.
  intros [evs [E F]]. rewrite E, count_app, (count_none p evs F). lia.
Qed.

Lemma count_logged p cfg message level st :
  (forall l m, p (EvLog l m) = false) ->
  count p (trace (logged cfg message level st)) = count p (trace st).
Proof.
  intros H. apply count_extends.
  apply (logged_extends (fun ev => p ev = false)). exact H.
Qed.

Lemma count_zero_not_in p (evs : list Event) ev :
  count p evs = 0%nat -> In ev evs -> p ev = false.
Proof.
  unfold count. intros H I.
  destruct (p ev) eqn:E; [|reflexivity].
  assert (In ev (filter p evs)) by (apply filter_In; auto).
  destruct (filter p evs); [contradiction | discriminate].
Qed.

Lemma spawned_app (a b : list Event) :
  spawned (a ++ b) = spawned a ++ spawned b.
Proof.
  induction a as [|ev a IH]; simpl; [reflexivity|].
  destruct ev; simpl; rewrite IH; reflexivity.
Qed.

(** ** Launching a command *)

Lemma spawn_exit0 cmd cwd check cap text out err st :
  spawn cmd cwd check cap text (Py.Exited 0 out err) st
  = (Returned {| Py.returncode := 0; Py.stdout := Py.captured cap out;
                 Py.stderr := Py.captured cap err |},
     launched cmd cwd (Py.Exited 0 out err) st).
Proof.
  unfold spawn, launched, Py.subprocess_run. simpl.
  rewrite andb_false_r. reflexivity.
Qed.

Lemma spawn_check_nonzero cmd cwd cap text rc out err st :
  rc <> 0 ->
  spawn cmd cwd true cap text (Py.Exited rc out err) st
  = (Raised (Py.CalledProcessError cmd rc (Py.captured cap out)
               (Py.captured cap err)),
     launched cmd cwd (Py.Exited rc out err) st).
Proof.
  intros H. unfold spawn, launched, Py.subprocess_run.
  apply Z.eqb_neq in H. rewrite H. reflexivity.
Qed.

Lemma spawn_launch_failed cmd cwd check cap text f st :
  spawn cmd cwd check cap text (Py.LaunchFailed f) st
  = (Raised (Py.exn_of_failure f), launched cmd cwd (Py.LaunchFailed f) st).
Proof. reflexivity. Qed.

Lemma spawn_undecodable cmd cwd check rc out err reason st :
  spawn cmd cwd check true true (Py.Undecodable rc out err reason) st
  = (Raised (Py.UnicodeDecodeError reason),
     launched cmd cwd (Py.Undecodable rc out err reason) st).
Proof. reflexivity. Qed.

Lemma exits_ok_inv o :
  exits_ok o = true -> exists out err, o = Py.Exited 0 out err.
Proof.
  destruct o as [rc out err|f]; simpl; [|discriminate].
  intros H. apply Z.eqb_eq in H. subst rc. eauto.
Qed.

Lemma count_launched p cmd cwd o st :
  count p (trace (launched cmd cwd o st))
  = (count p (trace st) + if p (EvSpawn cmd cwd None) then 1 else 0)%nat.
Proof. unfold launched. simpl. apply (count_emit p (EvSpawn cmd cwd None) st). Qed.

Lemma is_failure_exn f :
  Py.is_CalledProcessError (Py.exn_of_failure f) = false.
Proof. destruct f; reflexivity. Qed.

(** ** cleanup_environment *)

Lemma cleanup_environment_spec cfg (o : Py.proc_outcome) st :
  fst (cleanup_environment cfg o st) = cleanup_answer cfg o /\
  count is_stop (trace (snd (cleanup_environment cfg o st)))
  = (count is_stop (trace st) + if no_cleanup cfg then 0 else 1)%nat /\
  count (is_call "cleanup_environment")
        (trace (snd (cleanup_environment cfg o st)))
  = (count (is_call "cleanup_environment") (trace st) + 1)%nat.
Proof.
  unfold cleanup_environment, cleanup_answer.
  rewrite bind_do_emit.
  destruct (no_cleanup cfg).
  - rewrite bind_log. unfold ret. simpl fst. simpl snd.
    rewrite !count_logged, !count_emit by reflexivity. simpl. auto.
  - rewrite bind_log.
    destruct o as [rc out err|f].
    + destruct (Z.eq_dec rc 0) as [->|N].
      * erewrite bind_attempt_returned
          by (rewrite (bind_returned _ _ _ _ _ (spawn_exit0 _ _ _ _ _ _ _ _));
              apply log_returns).
        unfold ret. simpl fst. simpl snd.
        rewrite !count_logged, !count_launched, !count_logged, !count_emit
          by reflexivity.
        simpl. repeat split; lia.
      * erewrite bind_attempt_raised
          by (apply bind_raised, spawn_check_nonzero, N).
        cbv beta iota. cbn [Py.is_CalledProcessError].
        rewrite bind_log. unfold ret. simpl fst. simpl snd.
        apply Z.eqb_neq in N. rewrite N.
        rewrite !count_logged, !count_launched, !count_logged, !count_emit
          by reflexivity.
        simpl. repeat split; lia.
    + erewrite bind_attempt_raised
        by (apply bind_raised, spawn_launch_failed).
      cbv beta iota. rewrite is_failure_exn. unfold raise.
      simpl fst. simpl snd.
      rewrite !count_launched, !count_logged, !count_emit by reflexivity.
      simpl. repeat split; lia.
Qed.

Section EmitsRun.

Variable cfg : Config.
Variable P : Event -> Prop.
Hypothesis P_log : forall level message, P (EvLog level message).
Hypothesis P_print : forall line, P (EvPrint line).
Hypothesis P_sleep : forall seconds, P (EvSleep seconds).

Lemma emits_time_sleep seconds : emits (time_sleep seconds) P.
Proof.
  intros st. unfold time_sleep. simpl.
  apply (extends_emit P (EvSleep seconds) st), P_sleep.
Qed.

Lemma emits_call_check key info attempts :
  (forall a r, P (EvProbe key a r)) -> emits (call_check key info attempts) P.
Proof.
  intros H st. unfold call_check.
  destruct (outcome _); simpl; apply (extends_emit P _ st), H.
Qed.

Lemma emits_wait_loop fuel key info start timeout :
  (forall a r, P (EvProbe key a r)) ->
  forall ready attempts,
    emits (wait_loop cfg fuel key info start timeout ready attempts) P.
Proof.
  intros H. induction fuel as [|fuel IH]; intros ready attempts; simpl.
  - intros st. apply extends_refl.
  - emits_step; [emits_auto|].
    apply emits_if; [|apply emits_ret].
    emits_step; [apply emits_attempt, emits_call_check, H|].
    destruct a0 as [[|]|e].
    + emits_step; [emits_auto|]. apply IH.
    + emits_step; [apply emits_time_sleep|]. apply IH.
    + emits_step; [emits_auto|].
      emits_step; [apply emits_time_sleep|]. apply IH.
Qed.

Lemma emits_wait_each services start timeout o_logs :
  (forall k a r, In k (keys services) -> P (EvProbe k a r)) ->
  P (EvSpawn cmd_logs (Some (project_root cfg)) None) ->
  emits (wait_each cfg services start timeout o_logs) P.
Proof.
  intros H L. induction services as [|[key info] rest IH]; cbn [wait_each].
  - emits_auto.
  - emits_step; [emits_auto|].
    emits_step.
    + apply emits_wait_loop. intros a0 r. apply H. simpl. auto.
    + apply emits_if.
      * emits_step; [emits_auto|].
        emits_step; [apply emits_show_container_logs; auto|]. emits_auto.
      * apply IH. intros k a1 r I. apply H. simpl. auto.
Qed.

Lemma emits_wait_for_services services timeout o_logs :
  P (EvCall "wait_for_services") ->
  (forall k a r, In k (keys services) -> P (EvProbe k a r)) ->
  P (EvSpawn cmd_logs (Some (project_root cfg)) None) ->
  emits (wait_for_services cfg services timeout o_logs) P.
Proof.
  intros C H L. unfold wait_for_services.
  do 3 (emits_step; [emits_auto|]). apply emits_wait_each; auto.
Qed.

Hypothesis P_call : forall method, P (EvCall method).
Hypothesis P_probe : forall k a r, P (EvProbe k a r).
Hypothesis P_version : forall cmd, P (EvSpawn (cmd :: ["--version"]) None None).
Hypothesis P_pre_down : P (EvSpawn cmd_pre_down (Some (project_root cfg)) None).
Hypothesis P_up : P (EvSpawn cmd_up (Some (project_root cfg)) None).
Hypothesis P_logs : P (EvSpawn cmd_logs (Some (project_root cfg)) None).

Lemma emits_run services submodules w :
  (forall cmd cwd env, P (EvSpawn cmd cwd (Some env))) ->
  (no_cleanup cfg = false ->
   P (EvSpawn cmd_down (Some (project_root cfg)) None)) ->
  emits (run cfg services submodules w) P.
Proof.
  intros T D. unfold run.
  do 2 (emits_step; [emits_auto|]).
  emits_step; [apply emits_check_dependencies; auto|].
  apply emits_if; [apply emits_ret|].
  emits_step; [apply emits_check_env_files; auto|].
  apply emits_if; [apply emits_ret|].
  emits_step; [apply emits_start_test_environment; auto|].
  apply emits_if; [apply emits_ret|].
  emits_step; [apply emits_wait_for_services; auto|].
  apply emits_if.
  - emits_step; [apply emits_cleanup_environment; auto|]. apply emits_ret.
  - emits_step; [apply emits_run_submodule_tests; auto|].
    emits_step; [apply emits_cleanup_environment; auto|].
    apply emits_report; auto.
Qed.

End EmitsRun.

(** A tear-down whose output is not text: the cleanup that captures the
    output cannot decode it, the cleanup that does not never reads it. *)
Lemma cleanup_environment_undecodable cfg rc out err reason st :
  fst (cleanup_environment cfg (Py.Undecodable rc out err reason) st)
  = if no_cleanup cfg then Returned true
    else if verbose cfg then Returned (rc =? 0)
    else Raised (Py.UnicodeDecodeError reason).
Proof.
  destruct (no_cleanup cfg) eqn:NC.
  - unfold cleanup_environment. rewrite NC, bind_do_emit, bind_log.
    reflexivity.
  - destruct (verbose cfg) eqn:V.
    + assert (U : cleanup_environment cfg (Py.Undecodable rc out err reason) st
                  = cleanup_environment cfg (Py.Exited rc out err) st)
        by (unfold cleanup_environment; rewrite V; reflexivity).
      rewrite U.
      destruct (cleanup_environment_spec cfg (Py.Exited rc out err) st)
        as [E _].
      rewrite E. unfold cleanup_answer. rewrite NC. reflexivity.
    + unfold cleanup_environment. rewrite NC, V, bind_do_emit, bind_log.
      erewrite bind_attempt_raised
        by (apply bind_raised, spawn_undecodable).
      reflexivity.
Qed.

(** C9 (amended).  [cleanup_environment] answers [True] without launching
    anything when no_cleanup is set.  Otherwise it turns a tear-down
    command that ran and exited, and whose output is text, into a boolean,
    for every exit status: [True] for 0, [False] otherwise, never an
    exception.  A tear-down command that cannot be launched is not
    captured: its [OSError] leaves [cleanup_environment]; and so does the
    [UnicodeDecodeError] of a tear-down command whose output is not text,
    when the output is captured, that is when the run is not verbose (a
    verbose run does not read the output and answers by the exit
    status). *)
Theorem stop_captures_exit_status :
  (forall cfg rc out err st,
      fst (cleanup_environment cfg (Py.Exited rc out err) st)
      = Returned (no_cleanup cfg || (rc =? 0))) /\
  (forall cfg f st,
      fst (cleanup_environment cfg (Py.LaunchFailed f) st)
      = if no_cleanup cfg then Returned true
        else Raised (Py.exn_of_failure f)) /\
  (forall cfg rc out err reason st,
      fst (cleanup_environment cfg (Py.Undecodable rc out err reason) st)
      = if no_cleanup cfg then Returned true
        else if verbose cfg then Returned (rc =? 0)
        else Raised (Py.UnicodeDecodeError reason)).
Proof.
  split; [|split]; intros.
  - destruct (cleanup_environment_spec cfg (Py.Exited rc out err) st) as [E _].
    rewrite E. unfold cleanup_answer. destruct (no_cleanup cfg); reflexivity.
  - destruct (cleanup_environment_spec cfg (Py.LaunchFailed f) st) as [E _].
    rewrite E. reflexivity.
  - apply cleanup_environment_undecodable.
Qed.

(** C9 as stated fails: when [docker-compose] cannot be launched at cleanup
    time, [subprocess.run] raises [FileNotFoundError], which the handler for
    [CalledProcessError] does not catch. *)
Lemma stop_propagates_launch_failure :
  let missing :=
    Py.LaunchFailed
      (Py.NotFound "[Errno 2] No such file or directory: 'docker-compose'") in
  fst (cleanup_environment cfg0 missing initial_state)
  = Raised (Py.FileNotFoundError
              "[Errno 2] No such file or directory: 'docker-compose'") /\
  ~ (exists b, fst (cleanup_environment cfg0 missing initial_state) = Returned b).
Proof.
  split; [reflexivity|]. intros [b H]. discriminate H.
Qed.

(** The same happens, in a run that is not verbose, when the tear-down
    command exits 0 after writing bytes that are not text. *)
Example stop_propagates_decode_failure :
  let reason :=
    "'utf-8' codec can't decode byte 0xff in position 0: invalid start byte" in
  let garbled := Py.Undecodable 0 (String "255"%char "") "" reason in
  fst (cleanup_environment cfg0 garbled initial_state)
  = Raised (Py.UnicodeDecodeError reason) /\
  live_stacks (snd (cleanup_environment cfg0 garbled
                      (set_stacks 1 initial_state))) = 0%nat.
Proof. split; reflexivity. Qed.

(** C7.  With no_cleanup set, [cleanup_environment] answers [True] without
    launching anything, whatever the tear-down command would have done, and
    no run launches the tear-down command of the cleanup phase, whatever the
    outcome of its phases. *)
Theorem no_cleanup_never_stops :
  forall (cfg : Config) (services : list (string * Service.t))
         (submodules : list Submodule.t) (w : World) (st : State),
    no_cleanup cfg = true ->
    (forall o st0,
        fst (cleanup_environment cfg o st0) = Returned true /\
        spawned (trace (snd (cleanup_environment cfg o st0)))
        = spawned (trace st0)) /\
    count is_stop (trace (snd (run cfg services submodules w st)))
    = count is_stop (trace st).
Proof.
  intros cfg services submodules w st NC. split.
  - intros o st0. unfold cleanup_environment. rewrite NC.
    rewrite bind_do_emit, bind_log. unfold ret, logged, log, when. simpl fst.
    split; [reflexivity|].
    destruct (verbose cfg || _); simpl;
      rewrite !spawned_app; simpl; rewrite ?app_nil_r; reflexivity.
  - apply count_extends.
    apply (emits_run cfg (fun ev => is_stop ev = false)); try reflexivity.
    + intros cmd. simpl. apply andb_false_r.
    + intros H. rewrite NC in H. discriminate H.
Qed.

Lemma no_cleanup_never_stops_witness :
  let cfg := {| verbose := true; no_cleanup := true;
                project_root := "/srv/job-platform";
                sys_executable := "/usr/bin/python3"; os_environ := [] |} in
  let services := [("db", service "db" (always (CheckReturned false) 1))] in
  count is_stop
    (trace (snd (run cfg services [module_named "alpha"] (world_ok alpha_beta)
                     initial_state)))
  = count is_stop (trace initial_state).
Proof.
  intros cfg services.
  apply (no_cleanup_never_stops cfg services [module_named "alpha"]
           (world_ok alpha_beta) initial_state).
  reflexivity.
Defined.

(** ** start_test_environment *)

Lemma spawned_emit ev st :
  spawned (trace (emit ev st))
  = spawned (trace st) ++ match ev with EvSpawn cmd _ _ => [cmd] | _ => [] end.
Proof. simpl. rewrite spawned_app. destruct ev; reflexivity. Qed.

Lemma spawned_logged cfg message level st :
  spawned (trace (logged cfg message level st)) = spawned (trace st).
Proof.
  unfold logged, log, when. destruct (verbose cfg || _); simpl; [|reflexivity].
  rewrite spawned_app. simpl. apply app_nil_r.
Qed.

Lemma spawned_launched cmd cwd o st :
  spawned (trace (launched cmd cwd o st)) = spawned (trace st) ++ [cmd].
Proof. unfold launched. simpl. rewrite spawned_app. reflexivity. Qed.

Lemma launched_stacks cmd cwd o st :
  live_stacks (launched cmd cwd o st) = stack_effect cmd o (live_stacks st).
Proof. reflexivity. Qed.

Lemma bind_when_log {B} cfg b message level (k : unit -> M B) st :
  bind (when b (log cfg message level)) k st
  = k tt (if b then logged cfg message level st else st).
Proof. destruct b; simpl; [apply bind_log | reflexivity]. Qed.

Ltac state_norm :=
  repeat first
    [ rewrite logged_stacks | rewrite launched_stacks
    | rewrite spawned_logged | rewrite spawned_launched
    | rewrite spawned_emit | rewrite logged_clock ].

Ltac trace_done :=
  rewrite ?app_nil_r, <- ?app_assoc; simpl; rewrite ?app_nil_r; auto.

Lemma start_handler_state cfg cmd rc out err st :
  exists st',
    (log cfg ("[ERROR] Ошибка запуска docker-compose: "
                ++ Py.str_exn
                     (Py.CalledProcessError cmd rc
                        (Py.captured (negb (verbose cfg)) out)
                        (Py.captured (negb (verbose cfg)) err)))%string ERROR ;;
     match Py.CalledProcessError cmd rc
             (Py.captured (negb (verbose cfg)) out)
             (Py.captured (negb (verbose cfg)) err) with
     | Py.CalledProcessError _ _ _ (Some err0) =>
         when (negb (verbose cfg) && Py.truthy err0)
              (log cfg ("Stderr: " ++ err0)%string ERROR)
     | _ => ret tt
     end ;;
     ret false) st = (Returned false, st') /\
    live_stacks st' = live_stacks st /\
    spawned (trace st') = spawned (trace st).
Proof.
  rewrite bind_log.
  destruct (verbose cfg); simpl Py.captured; cbv iota.
  - eexists. split; [reflexivity|]. state_norm. auto.
  - rewrite bind_when_log. eexists. split; [reflexivity|].
    destruct (negb false && Py.truthy err); state_norm; auto.
Qed.

Lemma start_test_environment_spec cfg (o_down o_up : Py.proc_outcome) st :
  let r := start_test_environment cfg o_down o_up st in
  fst r = start_answer o_down o_up /\
  spawned (trace (snd r))
  = spawned (trace st)
      ++ cmd_pre_down :: (if exits_ok o_down then [cmd_up] else []) /\
  live_stacks (snd r)
  = (if exits_ok o_down then (if exits_ok o_up then 1 else 0)
     else live_stacks st)%nat.
Proof.
  unfold start_test_environment, start_answer.
  rewrite bind_do_emit, bind_log.
  destruct o_down as [rc out err|f].
  - destruct (Z.eq_dec rc 0) as [->|N].
    + destruct o_up as [rc' out' err'|f'].
      * destruct (Z.eq_dec rc' 0) as [->|N'].
        -- erewrite bind_attempt_returned
             by (rewrite bind_log,
                   (bind_returned _ _ _ _ _ (spawn_exit0 _ _ _ _ _ _ _ _)),
                   bind_log;
                 apply spawn_exit0).
           cbv zeta. unfold ret. cbn [fst snd]. state_norm. simpl.
           trace_done.
        -- erewrite bind_attempt_raised
             by (rewrite bind_log,
                   (bind_returned _ _ _ _ _ (spawn_exit0 _ _ _ _ _ _ _ _)),
                   bind_log;
                 apply spawn_check_nonzero, N').
           cbv beta iota. cbn [Py.is_CalledProcessError].
           match goal with
           | |- context [bind (log cfg ?m ?l) ?k ?s] =>
               destruct (start_handler_state cfg cmd_up rc' out' err' s)
                 as [st' [E [L S]]]
           end.
           cbv zeta. rewrite E. cbn [fst snd]. rewrite L, S.
           apply Z.eqb_neq in N'. state_norm. simpl. rewrite N'.
           trace_done.
      * erewrite bind_attempt_raised
          by (rewrite bind_log,
                (bind_returned _ _ _ _ _ (spawn_exit0 _ _ _ _ _ _ _ _)),
                bind_log;
              apply spawn_launch_failed).
        cbv beta iota zeta. rewrite is_failure_exn. unfold raise.
        cbn [fst snd]. state_norm. simpl. trace_done.
    + erewrite bind_attempt_raised
        by (rewrite bind_log; apply bind_raised, spawn_check_nonzero, N).
      cbv beta iota. cbn [Py.is_CalledProcessError].
      match goal with
      | |- context [bind (log cfg ?m ?l) ?k ?s] =>
          destruct (start_handler_state cfg cmd_pre_down rc out err s)
            as [st' [E [L S]]]
      end.
      cbv zeta. rewrite E. cbn [fst snd]. rewrite L, S.
      apply Z.eqb_neq in N. state_norm. simpl. rewrite N. trace_done.
  - erewrite bind_attempt_raised
      by (rewrite bind_log; apply bind_raised, spawn_launch_failed).
    cbv beta iota zeta. rewrite is_failure_exn. unfold raise.
    cbn [fst snd]. state_norm. simpl. trace_done.
Qed.

(** A start whose output is not captured does not decode it; a start that
    captures it and cannot decode it raises. *)
Lemma start_test_environment_uncaptured cfg (d u : Py.run_outcome) st :
  verbose cfg = true ->
  start_test_environment cfg d u st
  = start_test_environment cfg (Py.unread d) (Py.unread u) st.
Proof.
  intros V. unfold start_test_environment. rewrite V.
  destruct d as [d|rc out err reason], u as [u|rc' out' err' reason'];
    reflexivity.
Qed.

Lemma start_test_environment_undecodable_down cfg rc out err reason u st :
  verbose cfg = false ->
  fst (start_test_environment cfg (Py.Undecodable rc out err reason) u st)
  = Raised (Py.UnicodeDecodeError reason).
Proof.
  intros V. unfold start_test_environment. rewrite V.
  rewrite bind_do_emit, bind_log.
  erewrite bind_attempt_raised
    by (rewrite bind_log; apply bind_raised, spawn_undecodable).
  reflexivity.
Qed.

Lemma start_test_environment_undecodable_up cfg (d : Py.proc_outcome)
    rc out err reason st :
  verbose cfg = false ->
  fst (start_test_environment cfg d (Py.Undecodable rc out err reason) st)
  = match d with
    | Py.Exited rc' _ _ =>
        if rc' =? 0 then Raised (Py.UnicodeDecodeError reason)
        else Returned false
    | Py.LaunchFailed f => Raised (Py.exn_of_failure f)
    end.
Proof.
  intros V.
  destruct d as [rc' out' err'|f].
  - destruct (Z.eq_dec rc' 0) as [->|N].
    + unfold start_test_environment. rewrite V.
      rewrite bind_do_emit, bind_log.
      erewrite bind_attempt_raised
        by (rewrite bind_log,
              (bind_returned _ _ _ _ _ (spawn_exit0 _ _ _ _ _ _ _ _)),
              bind_log;
            apply spawn_undecodable).
      reflexivity.
    + destruct (start_test_environment_spec cfg (Py.Exited rc' out' err')
                  (Py.Exited 0 "" "") st) as [E _].
      apply Z.eqb_neq in N. rewrite N.
      unfold start_answer in E. rewrite N in E. rewrite <- E.
      unfold start_test_environment. rewrite V.
      rewrite !bind_do_emit, !bind_log.
      apply Z.eqb_neq in N.
      erewrite !bind_attempt_raised
        by (rewrite bind_log; apply bind_raised, spawn_check_nonzero, N).
      reflexivity.
  - destruct (start_test_environment_spec cfg (Py.LaunchFailed f)
                (Py.Exited 0 "" "") st) as [E _].
    unfold start_answer in E. rewrite <- E.
    unfold start_test_environment. rewrite V.
    rewrite !bind_do_emit, !bind_log.
    erewrite !bind_attempt_raised
      by (rewrite bind_log; apply bind_raised, spawn_launch_failed).
    reflexivity.
Qed.

(** Whatever the two commands meet, a start either does what it does for
    outcomes that have nothing undecodable, or does not answer [True]. *)
Lemma start_test_environment_read cfg (d u : Py.run_outcome) st :
  (exists d' u' : Py.proc_outcome,
      start_test_environment cfg d u st
      = start_test_environment cfg d' u' st) \/
  fst (start_test_environment cfg d u st) <> Returned true.
Proof.
  destruct (verbose cfg) eqn:V.
  - left. exists (Py.unread d), (Py.unread u).
    apply start_test_environment_uncaptured, V.
  - destruct d as [d|rc out err reason].
    + destruct u as [u|rc' out' err' reason'].
      * left. exists d, u. reflexivity.
      * right. rewrite start_test_environment_undecodable_up by exact V.
        destruct d as [rc ? ?|f]; [destruct (rc =? 0)|]; discriminate.
    + right. rewrite start_test_environment_undecodable_down by exact V.
      discriminate.
Qed.

(** C5.  [start_test_environment] always launches the forced tear-down
    first and the bring-up only after a tear-down that exited 0; it answers
    [True] exactly when both commands exit 0, answers [False] when either
    exits non-zero (a failed tear-down aborts the start: [up] is not
    launched), and never answers [True] when either cannot be launched.
    After a start that answers [True] exactly one stack is up, whatever was
    up before: so also after two starts in succession. *)
Theorem start_tears_down_then_brings_up :
  forall (cfg : Config) (o_down o_up : Py.proc_outcome) (st : State),
    let r := start_test_environment cfg o_down o_up st in
    spawned (trace (snd r))
    = spawned (trace st)
        ++ cmd_pre_down :: (if exits_ok o_down then [cmd_up] else []) /\
    (fst r = Returned true <-> exits_ok o_down = true /\ exits_ok o_up = true) /\
    (forall rc out err,
        rc <> 0 ->
        fst (start_test_environment cfg (Py.Exited rc out err) o_up st)
        = Returned false) /\
    (forall rc out err,
        rc <> 0 -> exits_ok o_down = true ->
        fst (start_test_environment cfg o_down (Py.Exited rc out err) st)
        = Returned false) /\
    (fst r = Returned true -> live_stacks (snd r) = 1%nat) /\
    (forall o_down' o_up',
        let r' := start_test_environment cfg o_down' o_up' (snd r) in
        fst r = Returned true -> fst r' = Returned true ->
        live_stacks (snd r') = 1%nat).
Proof.
  intros cfg o_down o_up st r.
  assert (A : forall (d u : Py.proc_outcome) s,
             fst (start_test_environment cfg d u s) = Returned true <->
             exits_ok d = true /\ exits_ok u = true).
  { intros d u s.
    destruct (start_test_environment_spec cfg d u s) as [E _]. rewrite E.
    unfold start_answer, exits_ok.
    destruct d as [rc ? ?|f]; [|split; [discriminate | intros [H _]; discriminate]].
    destruct (rc =? 0);
      [|split; [discriminate | intros [H _]; discriminate]].
    destruct u as [rc' ? ?|f']; [|split; [discriminate | intros [_ H]; discriminate]].
    destruct (rc' =? 0); split; auto; try discriminate.
    intros [_ H]; discriminate. }
  assert (L : forall (d u : Py.proc_outcome) s,
             fst (start_test_environment cfg d u s) = Returned true ->
             live_stacks (snd (start_test_environment cfg d u s)) = 1%nat).
  { intros d u s H. apply A in H. destruct H as [Hd Hu].
    destruct (start_test_environment_spec cfg d u s) as [_ [_ S]].
    rewrite S, Hd, Hu. reflexivity. }
  destruct (start_test_environment_spec cfg o_down o_up st) as [E [S _]].
  split; [exact S|].
  split; [apply A|].
  split.
  { intros rc out err N.
    destruct (start_test_environment_spec cfg (Py.Exited rc out err) o_up st)
      as [E' _].
    rewrite E'. unfold start_answer. apply Z.eqb_neq in N. rewrite N.
    reflexivity. }
  split.
  { intros rc out err N D.
    destruct (start_test_environment_spec cfg o_down (Py.Exited rc out err) st)
      as [E' _].
    rewrite E'. unfold start_answer.
    destruct (exits_ok_inv _ D) as [o [e ->]]. simpl.
    apply Z.eqb_neq in N. rewrite N. reflexivity. }
  split; [apply L|].
  intros o_down' o_up' r' _ H'. subst r'.
  destruct (start_test_environment_read cfg o_down' o_up' (snd r))
    as [[d [u E']]|N]; [|contradiction].
  rewrite E' in *. apply L, H'.
Qed.

(** The model of the tool does let stacks overlap: bringing up twice
    without a tear-down in between leaves two. *)
Example up_twice_overlaps :
  live_stacks
    (launched cmd_up None ok (launched cmd_up None ok initial_state)) = 2%nat.
Proof. reflexivity. Qed.

Example start_twice_one_stack :
  let st1 := snd (start_test_environment cfg0 ok ok initial_state) in
  let st2 := snd (start_test_environment cfg0 ok ok st1) in
  live_stacks st1 = 1%nat /\ live_stacks st2 = 1%nat /\
  spawned (trace st2) = [cmd_pre_down; cmd_up; cmd_pre_down; cmd_up].
Proof. vm_compute. auto. Qed.

(** ** Computations that only write log lines *)

Lemma quiet_refl st : quiet st st.
Proof. repeat split. apply extends_refl. Qed.

Lemma quiet_trans st1 st2 st3 : quiet st1 st2 -> quiet st2 st3 -> quiet st1 st3.
Proof.
  intros [C1 [L1 E1]] [C2 [L2 E2]]. repeat split; try congruence.
  eapply extends_trans; eauto.
Qed.

Lemma quiet_spawned st st' : quiet st st' -> spawned (trace st') = spawned (trace st).
Proof.
  intros [_ [_ [evs [E F]]]]. rewrite E, spawned_app.
  assert (spawned evs = []) as ->.
  { clear E. induction F as [|ev evs H _ IH]; simpl; [reflexivity|].
    destruct ev; simpl in H; try contradiction. exact IH. }
  apply app_nil_r.
Qed.

Lemma quiet_count p st st' :
  (forall l m, p (EvLog l m) = false) ->
  quiet st st' -> count p (trace st') = count p (trace st).
Proof.
  intros H [_ [_ X]]. apply count_extends.
  eapply extends_weaken; [|exact X].
  intros ev. destruct ev; simpl; try contradiction. intros _. apply H.
Qed.

Lemma only_logs_ret : only_logs (ret tt).
Proof. intros st. exists st. split; [reflexivity | apply quiet_refl]. Qed.

Lemma only_logs_log cfg message level : only_logs (log cfg message level).
Proof.
  intros st. exists (logged cfg message level st).
  split; [apply log_returns|].
  repeat split; [apply logged_clock | apply logged_stacks |].
  apply logged_extends. simpl. auto.
Qed.

Lemma only_logs_bind (m : M unit) (k : unit -> M unit) :
  only_logs m -> (forall u, only_logs (k u)) -> only_logs (bind m k).
Proof.
  intros Hm Hk st. destruct (Hm st) as [st1 [E1 Q1]].
  destruct (Hk tt st1) as [st2 [E2 Q2]].
  exists st2. split; [|eapply quiet_trans; eauto].
  rewrite (bind_returned _ _ _ _ _ E1). exact E2.
Qed.

Lemma only_logs_when b m : only_logs m -> only_logs (when b m).
Proof. intros H. destruct b; simpl; [exact H | apply only_logs_ret]. Qed.

Lemma only_logs_for_each {A} (xs : list A) body :
  (forall x, only_logs (body x)) -> only_logs (for_each xs body).
Proof.
  intros H. induction xs as [|x xs IH]; simpl.
  - apply only_logs_ret.
  - apply only_logs_bind; auto.
Qed.

Lemma bind_only_logs {B} (m : M unit) (k : unit -> M B) st :
  only_logs m -> exists st', bind m k st = k tt st' /\ quiet st st'.
Proof.
  intros H. destruct (H st) as [st' [E Q]]. exists st'.
  split; [apply bind_returned, E | exact Q].
Qed.

(** ** _run_single_test and run_submodule_tests *)

Lemma run_single_test_spec cfg submodule (o : Py.timed_outcome) st :
  exists st',
    _run_single_test cfg submodule o st
    = (Returned (result_of submodule o), st') /\
    quiet (emit (test_event cfg submodule) st) st'.
Proof.
  unfold _run_single_test, test_event.
  destruct o as [[rc out err|f]|out err].
  - match goal with
    | |- context [bind (attempt (bind ?sp ?body)) ?k st] =>
        assert (B : exists st',
                   bind sp body st
                   = (Returned (result_of submodule
                                  (Py.Finished (Py.Exited rc out err))), st') /\
                   quiet (emit (EvSpawn (Submodule.test_command submodule)
                                  (Some (Submodule.path submodule))
                                  (Some (dict_update (os_environ cfg)
                                           (Submodule.env submodule)))) st) st')
    end.
    { erewrite bind_returned by reflexivity.
      cbn [Py.returncode Py.stdout Py.stderr Py.text TestResult.success].
      match goal with
      | |- context [bind ?m ?k ?s] =>
          assert (OL : only_logs m);
          [| destruct (bind_only_logs m k s OL) as [st' [E Q]];
             exists st'; rewrite E; split; [reflexivity | exact Q] ]
      end.
      destruct (rc =? 0).
      - apply only_logs_log.
      - apply only_logs_bind; [apply only_logs_log|]. intros _.
        apply only_logs_when.
        apply only_logs_bind; [apply only_logs_log|]. intros _.
        apply only_logs_for_each. intros line.
        apply only_logs_when, only_logs_log. }
    destruct B as [st' [E Q]]. exists st'.
    rewrite (bind_attempt_returned _ _ _ _ _ E). split; [reflexivity | exact Q].
  - erewrite bind_attempt_raised by reflexivity.
    cbv beta iota.
    assert (T : Py.is_TimeoutExpired (Py.exn_of_failure f) = false)
      by (destruct f; reflexivity).
    rewrite T, bind_log. eexists. split; [reflexivity|].
    destruct (only_logs_log cfg
                ("✗ Ошибка запуска тестов " ++ Submodule.name submodule ++ ": "
                   ++ Py.str_exn (Py.exn_of_failure f))%string ERROR
                (emit (EvSpawn (Submodule.test_command submodule)
                         (Some (Submodule.path submodule))
                         (Some (dict_update (os_environ cfg)
                                  (Submodule.env submodule)))) st))
      as [st' [E Q]].
    rewrite log_returns in E. injection E as <-. exact Q.
  - erewrite bind_attempt_raised by reflexivity.
    cbv beta iota. cbn [Py.is_TimeoutExpired].
    rewrite bind_log. eexists. split; [reflexivity|].
    destruct (only_logs_log cfg
                ("✗ Таймаут выполнения тестов " ++ Submodule.name submodule)%string
                ERROR
                (emit (EvSpawn (Submodule.test_command submodule)
                         (Some (Submodule.path submodule))
                         (Some (dict_update (os_environ cfg)
                                  (Submodule.env submodule)))) st))
      as [st' [E Q]].
    rewrite log_returns in E. injection E as <-. exact Q.
Qed.

Lemma run_each_spec cfg outcomes submodules : forall results st,
  exists st',
    run_each cfg submodules outcomes results st
    = (Returned (results ++ map (fun m => result_of m (outcomes m)) submodules),
       st') /\
    spawned (trace st')
    = spawned (trace st) ++ map Submodule.test_command submodules /\
    count is_test_spawn (trace st')
    = (count is_test_spawn (trace st) + length submodules)%nat.
Proof.
  induction submodules as [|m ms IH]; intros results st; cbn [run_each].
  - exists st. simpl. rewrite !app_nil_r, Nat.add_0_r. auto.
  - rewrite bind_log.
    match goal with
    | |- context [bind (_run_single_test cfg m _) ?k ?s] =>
        destruct (run_single_test_spec cfg m (outcomes m) s) as [st1 [E Q]];
        rewrite (bind_returned _ _ _ _ _ E)
    end.
    destruct (IH (results ++ [result_of m (outcomes m)]) st1) as [st2 [E2 [S2 C2]]].
    exists st2. rewrite E2. split; [|split].
    + simpl. rewrite <- app_assoc. reflexivity.
    + rewrite S2, (quiet_spawned _ _ Q). unfold test_event.
      rewrite spawned_emit, spawned_logged. simpl.
      rewrite <- app_assoc. reflexivity.
    + rewrite C2, (quiet_count is_test_spawn _ _ (fun _ _ => eq_refl) Q).
      unfold test_event. rewrite count_emit, count_logged by reflexivity.
      simpl. lia.
Qed.

Lemma run_submodule_tests_spec cfg submodules outcomes st :
  exists st',
    run_submodule_tests cfg submodules outcomes st
    = (Returned (map (fun m => result_of m (outcomes m)) submodules), st') /\
    spawned (trace st')
    = spawned (trace st) ++ map Submodule.test_command submodules /\
    count is_test_spawn (trace st')
    = (count is_test_spawn (trace st) + length submodules)%nat.
Proof.
  unfold run_submodule_tests. rewrite bind_do_emit, bind_log.
  match goal with
  | |- context [run_each cfg submodules outcomes [] ?s] =>
      destruct (run_each_spec cfg outcomes submodules [] s) as [st' [E [S C]]]
  end.
  exists st'. split; [exact E|]. split.
  - rewrite S, spawned_logged, spawned_emit. simpl.
    rewrite app_nil_r. reflexivity.
  - rewrite C, count_logged, count_emit by reflexivity. simpl. lia.
Qed.

(** C4.  For every list of submodules and whatever becomes of each test
    command, [run_submodule_tests] returns normally with exactly one result
    per submodule, in order and under the submodule's name; every test
    command is launched, in order; each result is determined by the outcome
    of its own command alone: a command that exits gives
    [success = (returncode == 0)], a command that times out gives
    [success = False] with the time-out message, a command that cannot be
    launched gives [success = False] with the text of the exception. *)
Theorem one_result_per_submodule :
  forall (cfg : Config) (submodules : list Submodule.t)
         (outcomes : Submodule.t -> Py.timed_outcome) (st : State),
  exists results st',
    run_submodule_tests cfg submodules outcomes st = (Returned results, st') /\
    length results = length submodules /\
    map TestResult.name results = map Submodule.name submodules /\
    spawned (trace st')
    = spawned (trace st) ++ map Submodule.test_command submodules /\
    results = map (fun m => result_of m (outcomes m)) submodules /\
    Forall2
      (fun m r =>
         match outcomes m with
         | Py.Finished (Py.Exited rc _ _) => TestResult.success r = (rc =? 0)
         | Py.Finished (Py.LaunchFailed f) =>
             TestResult.success r = false /\
             TestResult.error r = Py.str_exn (Py.exn_of_failure f)
         | Py.Expired _ _ =>
             TestResult.success r = false /\
             TestResult.error r = timeout_message
         end)
      submodules results.
Proof.
  intros cfg submodules outcomes st.
  destruct (run_submodule_tests_spec cfg submodules outcomes st)
    as [st' [E [S _]]].
  exists (map (fun m => result_of m (outcomes m)) submodules), st'.
  split; [exact E|]. split; [apply length_map|]. split.
  { rewrite map_map. apply map_ext. intros m. unfold result_of.
    destruct (outcomes m) as [[? ? ?|?]|? ?]; reflexivity. }
  split; [exact S|]. split; [reflexivity|].
  clear E S. induction submodules as [|m ms IH]; simpl; constructor.
  - unfold result_of. destruct (outcomes m) as [[? ? ?|?]|? ?]; simpl; auto.
  - exact IH.
Qed.

(** A module that times out, one that cannot be launched and one that
    passes: three results, the last one passed. *)
Example isolation_of_failures :
  let outcomes (m : Submodule.t) :=
    if String.eqb (Submodule.name m) "a" then Py.Expired "" ""
    else if String.eqb (Submodule.name m) "b"
         then Py.Finished (Py.LaunchFailed (Py.NotFound "[Errno 2] python"))
         else Py.Finished (Py.Exited 0 "1 passed" "") in
  map (fun r => (TestResult.name r, TestResult.success r))
      (match fst (run_submodule_tests cfg0
                    [module_named "a"; module_named "b"; module_named "c"]
                    outcomes initial_state) with
       | Returned rs => rs
       | _ => []
       end)
  = [("a", false); ("b", false); ("c", true)].
Proof. vm_compute. reflexivity. Qed.

(** A test command whose output is not text: decoding fails inside
    [subprocess.run], and the handler for [Exception] records the text of
    the error. *)
Lemma run_single_test_undecodable cfg submodule rc out err reason st :
  _run_single_test cfg submodule (Py.UndecodableTimed rc out err reason) st
  = (Returned {| TestResult.name := Submodule.name submodule;
                 TestResult.success := false;
                 TestResult.output := "";
                 TestResult.error := reason |},
     logged cfg ("✗ Ошибка запуска тестов " ++ Submodule.name submodule ++ ": "
                   ++ reason)%string ERROR
            (emit (test_event cfg submodule) st)).
Proof.
  unfold _run_single_test, test_event.
  erewrite bind_attempt_raised by reflexivity.
  cbv beta iota. cbn [Py.is_TimeoutExpired]. rewrite bind_log. reflexivity.
Qed.

(** C6 (amended).  The result carries the captured stdout and stderr of a
    test command that ran and exited, whatever its exit status, when what
    it wrote is text.  In every other case what the command wrote is
    dropped.  When the command times out, [output] is empty and [error] is
    the fixed time-out message.  When the command cannot be launched,
    [output] is empty and [error] is the text of the exception.  When what
    the command wrote is not text, [output] is empty, [error] is the text
    of the [UnicodeDecodeError] and [success] is [False], also for the exit
    status 0. *)
Theorem result_carries_output_of_finished_command :
  forall (cfg : Config) (submodule : Submodule.t) (st : State),
    (forall rc out err,
        exists st',
          _run_single_test cfg submodule (Py.Finished (Py.Exited rc out err)) st
          = (Returned {| TestResult.name := Submodule.name submodule;
                         TestResult.success := (rc =? 0);
                         TestResult.output := out;
                         TestResult.error := err |}, st')) /\
    (forall out err,
        exists st',
          _run_single_test cfg submodule (Py.Expired out err) st
          = (Returned {| TestResult.name := Submodule.name submodule;
                         TestResult.success := false;
                         TestResult.output := "";
                         TestResult.error := timeout_message |}, st')) /\
    (forall f,
        exists st',
          _run_single_test cfg submodule (Py.Finished (Py.LaunchFailed f)) st
          = (Returned {| TestResult.name := Submodule.name submodule;
                         TestResult.success := false;
                         TestResult.output := "";
                         TestResult.error := Py.str_exn (Py.exn_of_failure f) |},
             st')) /\
    (forall rc out err reason,
        exists st',
          _run_single_test cfg submodule
                           (Py.UndecodableTimed rc out err reason) st
          = (Returned {| TestResult.name := Submodule.name submodule;
                         TestResult.success := false;
                         TestResult.output := "";
                         TestResult.error :=
                           Py.str_exn (Py.UnicodeDecodeError reason) |},
             st')).
Proof.
  intros cfg submodule st. split; [|split; [|split]]; intros.
  - destruct (run_single_test_spec cfg submodule
                (Py.Finished (Py.Exited rc out err)) st) as [st' [E _]].
    exists st'. exact E.
  - destruct (run_single_test_spec cfg submodule (Py.Expired out err) st)
      as [st' [E _]].
    exists st'. exact E.
  - destruct (run_single_test_spec cfg submodule
                (Py.Finished (Py.LaunchFailed f)) st) as [st' [E _]].
    exists st'. exact E.
  - eexists. apply run_single_test_undecodable.
Qed.

(** C6 as stated fails: a test command that printed and then hung until the
    time limit leaves a result with none of what it printed. *)
Lemma timeout_drops_captured_output :
  let o := Py.Expired "collected 3 items" "DeprecationWarning: pkg_resources" in
  exists r st',
    _run_single_test cfg0 (module_named "alpha") o initial_state
    = (Returned r, st') /\
    TestResult.output r = "" /\
    TestResult.output r <> "collected 3 items" /\
    TestResult.error r = timeout_message /\
    TestResult.error r <> "DeprecationWarning: pkg_resources".
Proof.
  eexists. eexists. split; [vm_compute; reflexivity|].
  simpl. repeat split; discriminate.
Qed.

(** Nor is the output carried when it is not text: a test command that
    exits 0 after writing a byte that does not decode leaves a failed
    result with the text of the error. *)
Example undecodable_output_fails_the_module :
  let reason :=
    "'utf-8' codec can't decode byte 0xff in position 8: invalid start byte" in
  let o := Py.UndecodableTimed 0 ("1 passed" ++ String "255"%char "") "" reason in
  exists st',
    _run_single_test cfg0 (module_named "alpha") o initial_state
    = (Returned {| TestResult.name := "alpha"; TestResult.success := false;
                   TestResult.output := ""; TestResult.error := reason |}, st').
Proof. eexists. vm_compute. reflexivity. Qed.

(** ** The readiness loop *)

Lemma ready_keys_app a b : ready_keys (a ++ b) = ready_keys a ++ ready_keys b.
Proof.
  induction a as [|ev a IH]; simpl; [reflexivity|].
  destruct ev as [| | |k n [[|]|e]| |]; simpl; rewrite IH; reflexivity.
Qed.

Lemma probed_keys_app a b : probed_keys (a ++ b) = probed_keys a ++ probed_keys b.
Proof.
  induction a as [|ev a IH]; simpl; [reflexivity|].
  destruct ev; simpl; rewrite IH; reflexivity.
Qed.

Lemma quiet_ready_keys st st' :
  quiet st st' -> ready_keys (trace st') = ready_keys (trace st).
Proof.
  intros [_ [_ [evs [E F]]]]. rewrite E, ready_keys_app.
  assert (ready_keys evs = []) as ->.
  { clear E. induction F as [|ev evs H _ IH]; simpl; [reflexivity|].
    destruct ev; simpl in H; try contradiction. exact IH. }
  apply app_nil_r.
Qed.

Lemma quiet_probed_keys st st' :
  quiet st st' -> probed_keys (trace st') = probed_keys (trace st).
Proof.
  intros [_ [_ [evs [E F]]]]. rewrite E, probed_keys_app.
  assert (probed_keys evs = []) as ->.
  { clear E. induction F as [|ev evs H _ IH]; simpl; [reflexivity|].
    destruct ev; simpl in H; try contradiction. exact IH. }
  apply app_nil_r.
Qed.

Lemma quiet_logged cfg message level st : quiet st (logged cfg message level st).
Proof.
  destruct (only_logs_log cfg message level st) as [st' [E Q]].
  rewrite log_returns in E. injection E as <-. exact Q.
Qed.

Lemma bind_attempt_call_check {B} key info attempts
    (k : bool + Py.exn -> M B) st :
  bind (attempt (call_check key info attempts)) k st
  = k (match outcome (Service.check_function info (Service.url info)
                        (clock st)) with
       | CheckReturned b => inl b
       | CheckRaised e => inr e
       end)
      (probed key info attempts st).
Proof.
  unfold bind, attempt, call_check, probed.
  destruct (outcome _); reflexivity.
Qed.

Lemma bind_time_sleep {B} seconds (k : unit -> M B) st :
  bind (time_sleep seconds) k st = k tt (slept seconds st).
Proof. reflexivity. Qed.

Lemma bind_time_time {B} (k : Z -> M B) st :
  bind time_time k st = k (clock st) st.
Proof. reflexivity. Qed.

Lemma probed_clock key info attempts st :
  clock (probed key info attempts st)
  = clock st
    + Z.of_nat (duration (Service.check_function info (Service.url info)
                            (clock st))).
Proof. reflexivity. Qed.

Lemma probed_trace key info attempts st :
  trace (probed key info attempts st)
  = trace st
      ++ [EvProbe key attempts
            (outcome (Service.check_function info (Service.url info)
                        (clock st)))].
Proof. reflexivity. Qed.

Lemma slept_clock seconds st : clock (slept seconds st) = clock st + seconds.
Proof. reflexivity. Qed.

Lemma slept_trace seconds st :
  trace (slept seconds st) = trace st ++ [EvSleep seconds].
Proof. reflexivity. Qed.

Lemma wait_loop_spec cfg key info start timeout :
  forall (fuel : nat) (ready : bool) (attempts : nat) (st : State),
    start <= clock st ->
    ((if ready then 0 else S (Z.to_nat (timeout - (clock st - start)))) < fuel)%nat ->
    exists ready' attempts' st',
      wait_loop cfg fuel key info start timeout ready attempts st
      = (Returned (ready', attempts'), st') /\
      loop_post key start timeout info ready st ready' st'.
Proof.
  induction fuel as [|fuel IH]; intros ready attempts st Hs Hf; [lia|].
  cbn [wait_loop]. rewrite bind_time_time.
  destruct ready.
  - (* already ready: the test fails *)
    rewrite andb_false_r. exists true, attempts, st.
    split; [reflexivity|].
    constructor; try reflexivity; try lia; try discriminate; auto.
    + simpl. rewrite app_nil_r. reflexivity.
    + exists []. rewrite app_nil_r. auto.
  - destruct (Z.ltb_spec (clock st - start) timeout) as [Lt|Ge]; cbn [andb negb].
    + rewrite bind_attempt_call_check.
      destruct (outcome (Service.check_function info (Service.url info)
                           (clock st))) as [[|]|e] eqn:O.
      * (* the check answers True *)
        rewrite bind_log.
        match goal with
        | |- context [wait_loop cfg fuel key info start timeout true ?a ?s] =>
            destruct (IH true a s) as [r' [a' [st' [E P]]]]
        end.
        { rewrite logged_clock, probed_clock. lia. }
        { lia. }
        exists r', a', st'. split; [exact E|].
        destruct P as [Pc Ps Psp Pr [ks [Pk Fk]] Pkeep Pd Pn _].
        specialize (Pkeep eq_refl). subst r'.
        rewrite logged_clock, probed_clock in Pc.
        constructor;
          [ lia
          | rewrite Ps, logged_stacks; reflexivity
          | rewrite Psp, (quiet_spawned _ _ (quiet_logged _ _ _ _)),
              probed_trace, spawned_app; simpl; apply app_nil_r
          | rewrite Pr, (quiet_ready_keys _ _ (quiet_logged _ _ _ _)),
              probed_trace, ready_keys_app, O; simpl;
            rewrite app_nil_r; reflexivity
          | exists (key :: ks); split; [|constructor; auto];
            rewrite Pk, (quiet_probed_keys _ _ (quiet_logged _ _ _ _)),
              probed_trace, probed_keys_app; simpl;
            rewrite <- app_assoc; reflexivity
          | discriminate
          | discriminate
          | intros N _; exfalso; apply (N (clock st)); [lia | lia | exact O]
          | intros _ _; exists ks; split; [|exact Fk];
            rewrite Pk, (quiet_probed_keys _ _ (quiet_logged _ _ _ _)),
              probed_trace, probed_keys_app; simpl;
            rewrite <- app_assoc; reflexivity ].
      * (* the check answers False *)
        rewrite bind_time_sleep.
        match goal with
        | |- context [wait_loop cfg fuel key info start timeout false ?a ?s] =>
            destruct (IH false a s) as [r' [a' [st' [E P]]]]
        end.
        { rewrite slept_clock, probed_clock. lia. }
        { rewrite slept_clock, probed_clock. lia. }
        exists r', a', st'. split; [exact E|].
        destruct P as [Pc Ps Psp Pr [ks [Pk Fk]] Pkeep Pd Pn _].
        rewrite slept_clock, probed_clock in Pc.
        constructor;
          [ lia
          | rewrite Ps; reflexivity
          | rewrite Psp, slept_trace, spawned_app, probed_trace, spawned_app;
            simpl; rewrite !app_nil_r; reflexivity
          | rewrite Pr, slept_trace, ready_keys_app, probed_trace,
              ready_keys_app, O; simpl; rewrite !app_nil_r; reflexivity
          | exists (key :: ks); split; [|constructor; auto];
            rewrite Pk, slept_trace, probed_keys_app, probed_trace,
              probed_keys_app; simpl;
            rewrite app_nil_r, <- app_assoc; reflexivity
          | discriminate
          | exact Pd
          | intros N R; apply (Pn N R)
          | intros _ _; exists ks; split; [|exact Fk];
            rewrite Pk, slept_trace, probed_keys_app, probed_trace,
              probed_keys_app; simpl;
            rewrite app_nil_r, <- app_assoc; reflexivity ].
      * (* the check raises *)
        rewrite bind_when_log, bind_time_sleep.
        match goal with
        | |- context [wait_loop cfg fuel key info start timeout false ?a
                                (slept 5 ?s0)] =>
            assert (Q : quiet (probed key info (S attempts) st) s0)
              by (destruct (verbose cfg);
                  [apply quiet_logged | apply quiet_refl]);
            destruct (IH false a (slept 5 s0)) as [r' [a' [st' [E P]]]]
        end.
        { rewrite slept_clock. destruct Q as [-> _]. rewrite probed_clock. lia. }
        { rewrite slept_clock. destruct Q as [-> _]. rewrite probed_clock. lia. }
        exists r', a', st'. split; [exact E|].
        destruct P as [Pc Ps Psp Pr [ks [Pk Fk]] Pkeep Pd Pn _].
        rewrite slept_clock in Pc.
        pose proof Q as [Qc [Qs _]]. rewrite Qc, probed_clock in Pc.
        constructor;
          [ lia
          | rewrite Ps; change (live_stacks (slept 5 ?s)) with (live_stacks s);
            rewrite Qs; reflexivity
          | rewrite Psp, slept_trace, spawned_app, (quiet_spawned _ _ Q),
              probed_trace, spawned_app;
            simpl; rewrite !app_nil_r; reflexivity
          | rewrite Pr, slept_trace, ready_keys_app, (quiet_ready_keys _ _ Q),
              probed_trace, ready_keys_app, O;
            simpl; rewrite !app_nil_r; reflexivity
          | exists (key :: ks); split; [|constructor; auto];
            rewrite Pk, slept_trace, probed_keys_app, (quiet_probed_keys _ _ Q),
              probed_trace, probed_keys_app; simpl;
            rewrite app_nil_r, <- app_assoc; reflexivity
          | discriminate
          | exact Pd
          | intros N R; apply (Pn N R)
          | intros _ _; exists ks; split; [|exact Fk];
            rewrite Pk, slept_trace, probed_keys_app, (quiet_probed_keys _ _ Q),
              probed_trace, probed_keys_app; simpl;
            rewrite app_nil_r, <- app_assoc; reflexivity ].
    + (* the deadline has passed *)
      exists false, attempts, st. split; [reflexivity|].
      constructor; try reflexivity; try lia; try discriminate; auto.
      * simpl. rewrite app_nil_r. reflexivity.
      * exists []. rewrite app_nil_r. auto.
Qed.

(** ** _show_container_logs and wait_for_services *)

Lemma stack_effect_logs o n : stack_effect cmd_logs o n = n.
Proof.
  destruct o as [[rc ? ?|?]|rc ? ? ?]; simpl; try reflexivity;
    destruct (rc =? 0); reflexivity.
Qed.

Lemma dumped_intro cfg o st st1 st' :
  quiet st st1 ->
  quiet (launched cmd_logs (Some (project_root cfg)) o st1) st' ->
  dumped st st'.
Proof.
  intros Q1 Q2.
  pose proof Q1 as [C1 [L1 _]]. pose proof Q2 as [C2 [L2 _]].
  constructor.
  - rewrite C2. simpl. exact C1.
  - rewrite L2, launched_stacks, stack_effect_logs. exact L1.
  - rewrite (quiet_spawned _ _ Q2), spawned_launched, (quiet_spawned _ _ Q1).
    reflexivity.
  - rewrite (quiet_ready_keys _ _ Q2). unfold launched. simpl.
    rewrite ready_keys_app. simpl. rewrite app_nil_r.
    apply (quiet_ready_keys _ _ Q1).
  - rewrite (quiet_probed_keys _ _ Q2). unfold launched. simpl.
    rewrite probed_keys_app. simpl. rewrite app_nil_r.
    apply (quiet_probed_keys _ _ Q1).
Qed.

Lemma show_container_logs_spec cfg o st :
  exists st', _show_container_logs cfg o st = (Returned tt, st') /\ dumped st st'.
Proof.
  unfold _show_container_logs. rewrite bind_log.
  pose proof (quiet_logged cfg "Показываем логи контейнеров для диагностики..."
                WARNING st) as Q1.
  destruct o as [[rc out err|f]|rc out err reason].
  - match goal with
    | |- context [bind (attempt (bind ?sp ?body)) ?k ?s] =>
        assert (B : exists st',
                   bind sp body s = (Returned tt, st') /\
                   quiet (launched cmd_logs (Some (project_root cfg))
                            (Py.Exited rc out err) s) st')
    end.
    { erewrite bind_returned by reflexivity.
      match goal with
      | |- exists st', ?m ?s = _ /\ _ =>
          assert (OL : only_logs m);
          [| destruct (OL s) as [st' [E Q]]; exists st'; split; assumption ]
      end.
      apply only_logs_bind; [apply only_logs_log|]. intros _.
      apply only_logs_bind; [apply only_logs_log|]. intros _.
      apply only_logs_when.
      apply only_logs_bind; [apply only_logs_log|]. intros _.
      apply only_logs_log. }
    destruct B as [st' [E Q]]. exists st'.
    rewrite (bind_attempt_returned _ _ _ _ _ E).
    split; [reflexivity|]. eapply dumped_intro; eauto.
  - erewrite bind_attempt_raised by (apply bind_raised, spawn_launch_failed).
    cbv beta iota. rewrite log_returns. eexists. split; [reflexivity|].
    eapply dumped_intro; [exact Q1 | apply quiet_logged].
  - erewrite bind_attempt_raised by (apply bind_raised, spawn_undecodable).
    cbv beta iota. rewrite log_returns. eexists. split; [reflexivity|].
    eapply dumped_intro; [exact Q1 | apply quiet_logged].
Qed.

Section WaitEach.

Variable cfg : Config.
Variables start timeout : Z.
Variable o_logs : Py.run_outcome.

Lemma wait_each_spec : forall services st,
  start <= clock st ->
  exists b st',
    wait_each cfg services start timeout o_logs st = (Returned b, st') /\
    each_post start timeout services st b st'.
Proof.
  induction services as [|[key info] rest IH]; intros st Hs; cbn [wait_each].
  - rewrite bind_log. exists true. eexists. split; [reflexivity|].
    pose proof (quiet_logged cfg "[OK] Все сервисы готовы!" INFO st) as Q.
    pose proof Q as [Qc [Qs _]].
    constructor; [lia | exact Qs | | discriminate].
    intros _. split; [apply (quiet_spawned _ _ Q)|].
    split; [|constructor].
    rewrite (quiet_ready_keys _ _ Q). simpl. rewrite app_nil_r. reflexivity.
  - rewrite bind_log.
    match goal with
    | |- context [bind (wait_loop cfg _ key info start timeout false 0%nat)
                       _ ?s] =>
        pose proof (quiet_logged cfg
                      ("  Ожидание " ++ Service.name info ++ "...")%string
                      INFO st) as Q0;
        destruct (wait_loop_spec cfg key info start timeout
                    (loop_fuel timeout) false 0%nat s)
          as [r [a [st1 [E P]]]]
    end.
    { rewrite logged_clock. exact Hs. }
    { rewrite logged_clock. unfold loop_fuel. lia. }
    rewrite (bind_returned _ _ _ _ _ E). cbn [fst].
    destruct P as [Pc Ps Psp Pr [ks [Pk Fk]] _ Pd Pn _].
    pose proof Q0 as [Q0c [Q0s _]].
    rewrite Q0c in Pc. rewrite Q0s in Ps.
    rewrite (quiet_spawned _ _ Q0) in Psp.
    rewrite (quiet_ready_keys _ _ Q0) in Pr.
    rewrite (quiet_probed_keys _ _ Q0) in Pk.
    destruct r; cbn [negb].
    + (* this service is ready: on to the next *)
      destruct (IH st1) as [b [st2 [E2 P2]]]; [lia|].
      exists b, st2. split; [exact E2|].
      destruct P2 as [C2 S2 R2 A2].
      assert (Hcan : can_be_ready start timeout (key, info)).
      { intros N. specialize (Pn N eq_refl). discriminate. }
      constructor; [lia | congruence | |].
      * intros Hb. destruct (R2 Hb) as [Sp [Rk Fa]].
        split; [congruence|]. split; [|constructor; assumption].
        rewrite Rk, Pr. simpl. rewrite <- app_assoc. reflexivity.
      * intros Hb. destruct (A2 Hb) as [D [Sp [pre [x [post [Sv [Rk [[ks2 [Kk Ik]] Fp]]]]]]]].
        split; [exact D|]. split; [congruence|].
        exists ((key, info) :: pre), x, post.
        split; [simpl; rewrite Sv; reflexivity|].
        split; [rewrite Rk, Pr; simpl; rewrite <- app_assoc; reflexivity|].
        split; [|constructor; assumption].
        exists (ks ++ ks2). split.
        -- rewrite Kk, Pk, app_assoc. reflexivity.
        -- intros k Hk. apply in_app_or in Hk. destruct Hk as [Hk|Hk].
           ++ left. exact (proj1 (Forall_forall _ _) Fk k Hk).
           ++ right. apply Ik, Hk.
    + (* this service is not ready: dump the logs and give up *)
      rewrite bind_log.
      match goal with
      | |- context [bind (_show_container_logs cfg _) _ ?s] =>
          destruct (show_container_logs_spec cfg o_logs s) as [st2 [E2 D2]];
          pose proof (quiet_logged cfg
                        ("[ERROR] " ++ Service.name info ++ " не готов за "
                           ++ Py.str_int timeout ++ " секунд")%string
                        ERROR st1) as Q1
      end.
      rewrite (bind_returned _ _ _ _ _ E2).
      exists false, st2. split; [reflexivity|].
      destruct D2 as [Dc Ds Dsp Dr Dp].
      pose proof Q1 as [Q1c [Q1s _]].
      rewrite Q1c in Dc. rewrite Q1s in Ds.
      rewrite (quiet_spawned _ _ Q1) in Dsp.
      rewrite (quiet_ready_keys _ _ Q1) in Dr.
      rewrite (quiet_probed_keys _ _ Q1) in Dp.
      constructor; [lia | congruence | discriminate |].
      intros _. specialize (Pd eq_refl).
      split; [lia|]. split; [congruence|].
      exists [], (key, info), rest.
      split; [reflexivity|].
      split; [rewrite Dr, Pr; simpl; reflexivity|].
      split; [|constructor].
      exists ks. split; [congruence|].
      intros k Hk. left. exact (proj1 (Forall_forall _ _) Fk k Hk).
Qed.

End WaitEach.

Lemma wait_for_services_spec cfg services timeout o_logs st :
  exists b st',
    wait_for_services cfg services timeout o_logs st = (Returned b, st') /\
    each_post (clock st) timeout services st b st'.
Proof.
  unfold wait_for_services.
  rewrite bind_do_emit, bind_log, bind_time_time.
  pose proof (quiet_logged cfg
                ("Ожидание готовности сервисов (таймаут: "
                   ++ Py.str_int timeout ++ "с)...")%string INFO
                (emit (EvCall "wait_for_services") st)) as Q.
  rewrite logged_clock.
  change (clock (emit (EvCall "wait_for_services") st)) with (clock st).
  match goal with
  | |- context [wait_each cfg services (clock st) timeout _ ?s] =>
      destruct (wait_each_spec cfg (clock st) timeout o_logs services s)
        as [b [st' [E P]]]
  end.
  { rewrite logged_clock. simpl. lia. }
  exists b, st'. split; [exact E|].
  destruct P as [Pc Ps Pr Pa].
  pose proof Q as [Qc [Qs _]].
  rewrite Qc in Pc. rewrite Qs in Ps.
  assert (Sp : spawned (trace (logged cfg
                ("Ожидание готовности сервисов (таймаут: "
                   ++ Py.str_int timeout ++ "с)...")%string INFO
                (emit (EvCall "wait_for_services") st))) = spawned (trace st)).
  { rewrite (quiet_spawned _ _ Q), spawned_emit. apply app_nil_r. }
  assert (Rk : ready_keys (trace (logged cfg
                ("Ожидание готовности сервисов (таймаут: "
                   ++ Py.str_int timeout ++ "с)...")%string INFO
                (emit (EvCall "wait_for_services") st))) = ready_keys (trace st)).
  { rewrite (quiet_ready_keys _ _ Q). simpl. rewrite ready_keys_app.
    apply app_nil_r. }
  assert (Pk : probed_keys (trace (logged cfg
                ("Ожидание готовности сервисов (таймаут: "
                   ++ Py.str_int timeout ++ "с)...")%string INFO
                (emit (EvCall "wait_for_services") st))) = probed_keys (trace st)).
  { rewrite (quiet_probed_keys _ _ Q). simpl. rewrite probed_keys_app.
    apply app_nil_r. }
  rewrite Sp, Rk in Pr. rewrite Sp, Rk, Pk in Pa.
  constructor; auto.
Qed.

(** ** run, up to the readiness phase *)

Lemma launched_clock cmd cwd o st : clock (launched cmd cwd o st) = clock st.
Proof. reflexivity. Qed.

Lemma check_dependencies_ok cfg o1 o2 o3 st :
  exits_ok o1 = true -> exits_ok o2 = true -> exits_ok o3 = true ->
  exists st',
    check_dependencies cfg o1 o2 o3 st = (Returned true, st') /\
    clock st' = clock st.
Proof.
  intros H1 H2 H3.
  destruct (exits_ok_inv _ H1) as [a1 [b1 ->]].
  destruct (exits_ok_inv _ H2) as [a2 [b2 ->]].
  destruct (exits_ok_inv _ H3) as [a3 [b3 ->]].
  unfold check_dependencies. rewrite bind_do_emit, bind_log.
  erewrite bind_attempt_returned
    by (rewrite (bind_returned _ _ _ _ _ (spawn_exit0 _ _ _ _ _ _ _ _));
        apply log_returns).
  cbv beta iota.
  erewrite bind_attempt_returned
    by (rewrite (bind_returned _ _ _ _ _ (spawn_exit0 _ _ _ _ _ _ _ _));
        apply log_returns).
  cbv beta iota.
  erewrite bind_attempt_returned
    by (rewrite (bind_returned _ _ _ _ _ (spawn_exit0 _ _ _ _ _ _ _ _));
        apply log_returns).
  cbv beta iota.
  eexists. split; [reflexivity|].
  repeat first [rewrite logged_clock | rewrite launched_clock]. reflexivity.
Qed.

Lemma check_env_files_ok cfg ex st :
  ex (root_file cfg ".env.dev") = true ->
  ex (root_file cfg ".env.hh.dev") = true ->
  exists st',
    check_env_files cfg ex st = (Returned true, st') /\ clock st' = clock st.
Proof.
  intros H1 H2. unfold check_env_files.
  rewrite bind_do_emit, bind_log. cbn [filter]. rewrite H1, H2. cbn [negb].
  rewrite bind_log. eexists. split; [reflexivity|].
  rewrite !logged_clock. reflexivity.
Qed.

Lemma start_test_environment_ok cfg o_down o_up st :
  exits_ok o_down = true -> exits_ok o_up = true ->
  exists st',
    start_test_environment cfg o_down o_up st = (Returned true, st') /\
    clock st' = clock st.
Proof.
  intros H1 H2.
  destruct (exits_ok_inv _ H1) as [a1 [b1 ->]].
  destruct (exits_ok_inv _ H2) as [a2 [b2 ->]].
  unfold start_test_environment. rewrite bind_do_emit, bind_log.
  erewrite bind_attempt_returned
    by (rewrite bind_log,
          (bind_returned _ _ _ _ _ (spawn_exit0 _ _ _ _ _ _ _ _)),
          bind_log;
        apply spawn_exit0).
  cbv beta iota. eexists. split; [reflexivity|].
  repeat first [rewrite logged_clock | rewrite launched_clock]. reflexivity.
Qed.

Lemma emits_before_readiness cfg w (P : Event -> Prop) :
  (forall level message, P (EvLog level message)) ->
  (forall line, P (EvPrint line)) ->
  P (EvCall "check_dependencies") ->
  P (EvCall "check_env_files") ->
  P (EvCall "start_test_environment") ->
  (forall cmd, P (EvSpawn (cmd :: ["--version"]) None None)) ->
  P (EvSpawn cmd_pre_down (Some (project_root cfg)) None) ->
  P (EvSpawn cmd_up (Some (project_root cfg)) None) ->
  emits (before_readiness cfg w) P.
Proof.
  intros. unfold before_readiness.
  do 2 (emits_step; [emits_auto|]).
  emits_step; [apply emits_check_dependencies; auto|].
  apply emits_if; [apply emits_ret|].
  emits_step; [apply emits_check_env_files; auto|].
  apply emits_if; [apply emits_ret|].
  apply emits_start_test_environment; auto.
Qed.

Lemma run_from_readiness cfg services submodules w st :
  env_ready cfg w ->
  run cfg services submodules w st
  = from_readiness cfg services submodules w (entering_readiness cfg w st) /\
  clock (entering_readiness cfg w st) = clock st.
Proof.
  intros [H1 [H2 [H3 [H4 [H5 [H6 H7]]]]]].
  unfold run, entering_readiness, before_readiness, from_readiness.
  rewrite !bind_print.
  match goal with
  | |- context [bind (check_dependencies cfg _ _ _) _ ?s] =>
      destruct (check_dependencies_ok cfg _ _ _ s H1 H2 H3) as [st1 [E1 C1]]
  end.
  rewrite !(bind_returned _ _ _ _ _ E1). cbn [negb].
  destruct (check_env_files_ok cfg _ st1 H4 H5) as [st2 [E2 C2]].
  rewrite !(bind_returned _ _ _ _ _ E2). cbn [negb].
  destruct (start_test_environment_ok cfg _ _ st2 H6 H7) as [st3 [E3 C3]].
  rewrite (bind_returned _ _ _ _ _ E3), E3. cbn [negb snd].
  split; [reflexivity|]. rewrite C3, C2, C1. reflexivity.
Qed.

Lemma late_is_stop cfg : late_event is_stop cfg.
Proof.
  repeat split; try reflexivity. intros cmd. simpl. apply andb_false_r.
Qed.

Lemma late_is_test_spawn cfg : late_event is_test_spawn cfg.
Proof. repeat split; reflexivity. Qed.

Lemma late_is_call_tests cfg : late_event (is_call "run_submodule_tests") cfg.
Proof. repeat split; reflexivity. Qed.

Lemma late_is_call_cleanup cfg : late_event (is_call "cleanup_environment") cfg.
Proof. repeat split; reflexivity. Qed.

Lemma count_entering_readiness cfg w st p :
  late_event p cfg ->
  count p (trace (entering_readiness cfg w st)) = count p (trace st).
Proof.
  intros [? [? [? [? [? [? [? [? [? [? [? ?]]]]]]]]]]]. apply count_extends.
  apply (emits_before_readiness cfg w (fun ev => p ev = false)); auto.
Qed.

Lemma count_wait_for_services cfg services timeout o_logs st p :
  late_event p cfg ->
  count p (trace (snd (wait_for_services cfg services timeout o_logs st)))
  = count p (trace st).
Proof.
  intros [? [? [? [? [? [? [? [? [? [? [? ?]]]]]]]]]]]. apply count_extends.
  apply (emits_wait_for_services cfg (fun ev => p ev = false)); auto.
Qed.

(** ** The script always ends *)

Lemma total_ret {A} (a : A) : total (ret a).
Proof. intros st. discriminate. Qed.

Lemma total_raise {A} e : total (@raise A e).
Proof. intros st. discriminate. Qed.

Lemma total_bind {A B} (m : M A) (k : A -> M B) :
  total m -> (forall a, total (k a)) -> total (bind m k).
Proof.
  intros Hm Hk st. unfold bind. specialize (Hm st).
  destruct (m st) as [[a|e|] st1]; cbn [fst] in *;
    [apply Hk | discriminate | contradiction].
Qed.

Lemma total_attempt {A} (m : M A) : total m -> total (attempt m).
Proof.
  intros Hm st. unfold attempt. specialize (Hm st).
  destruct (m st) as [[a|e|] st1]; cbn [fst] in *;
    [discriminate | discriminate | contradiction].
Qed.

Lemma total_of_sum {A} (r : A + Py.exn) : total (of_sum r).
Proof. destruct r; [apply total_ret | apply total_raise]. Qed.

Lemma total_do_emit ev : total (do_emit ev).
Proof. intros st. discriminate. Qed.

Lemma total_when b m : total m -> total (when b m).
Proof. intros H. destruct b; [exact H | apply total_ret]. Qed.

Lemma total_log cfg message level : total (log cfg message level).
Proof. intros st. rewrite log_returns. discriminate. Qed.

Lemma total_if {A} (b : bool) (m1 m2 : M A) :
  total m1 -> total m2 -> total (if b then m1 else m2).
Proof. destruct b; auto. Qed.

Lemma total_for_each {A} (xs : list A) body :
  (forall x, total (body x)) -> total (for_each xs body).
Proof.
  intros H. induction xs as [|x xs IH]; simpl.
  - apply total_ret.
  - apply total_bind; auto.
Qed.

Lemma total_spawn cmd cwd check cap text o :
  total (spawn cmd cwd check cap text o).
Proof. intros st. unfold spawn. apply total_of_sum. Qed.

Lemma total_spawn_timeout cmd cwd env check cap text t o :
  total (spawn_timeout cmd cwd env check cap text t o).
Proof. intros st. unfold spawn_timeout. apply total_of_sum. Qed.

Ltac total_step :=
  first
    [ apply total_ret | apply total_raise | apply total_log
    | apply total_do_emit | apply total_of_sum
    | apply total_spawn | apply total_spawn_timeout
    | apply total_bind; [|intros ?]
    | apply total_attempt
    | apply total_when
    | apply total_for_each; intros ?
    | apply total_if
    | match goal with
      | |- total (match ?x with _ => _ end) => destruct x
      end ].

Ltac total_auto := repeat total_step.

Lemma total_run_each cfg submodules outcomes : forall results,
  total (run_each cfg submodules outcomes results).
Proof.
  induction submodules as [|m ms IH]; intros results; simpl.
  - apply total_ret.
  - total_step; [total_auto|]. total_step; [|apply IH].
    unfold _run_single_test. total_auto.
Qed.

Lemma total_summary_loop results : forall p f, total (summary_loop results p f).
Proof.
  induction results as [|r rs IH]; intros p f; simpl.
  - apply total_ret.
  - total_step; [apply total_do_emit|]. total_step; [total_auto|].
    destruct (TestResult.success r); apply IH.
Qed.

Lemma total_wait_for_services cfg services timeout o_logs :
  total (wait_for_services cfg services timeout o_logs).
Proof.
  intros st.
  destruct (wait_for_services_spec cfg services timeout o_logs st)
    as [b [st' [E _]]].
  rewrite E. discriminate.
Qed.

Lemma total_cleanup_environment cfg o : total (cleanup_environment cfg o).
Proof. unfold cleanup_environment. total_auto. Qed.

Lemma total_run cfg services submodules w :
  total (run cfg services submodules w).
Proof.
  unfold run.
  do 2 (total_step; [apply total_do_emit|]).
  total_step; [unfold check_dependencies; total_auto|].
  total_step; [apply total_ret|].
  total_step; [unfold check_env_files; total_auto|].
  total_step; [apply total_ret|].
  total_step; [unfold start_test_environment; total_auto|].
  total_step; [apply total_ret|].
  total_step; [apply total_wait_for_services|].
  total_step.
  - total_step; [apply total_cleanup_environment | apply total_ret].
  - total_step.
    + unfold run_submodule_tests.
      total_step; [apply total_do_emit|]. total_step; [apply total_log|].
      apply total_run_each.
    + total_step; [apply total_cleanup_environment|].
      unfold report. total_step.
      * unfold print_summary.
        do 4 (total_step; [apply total_do_emit|]).
        total_step; [apply total_summary_loop|].
        do 4 (total_step; [apply total_do_emit|]).
        total_auto.
      * total_auto.
Qed.

(** Every run ends with exit status 0 or 1. *)
Lemma main_exit_status cfg services submodules w st :
  main cfg services submodules w st = Some 0 \/
  main cfg services submodules w st = Some 1.
Proof.
  unfold main. pose proof (total_run cfg services submodules w st) as T.
  destruct (fst (run cfg services submodules w st)) as [[|]|e|]; simpl; auto.
  contradiction.
Qed.

(** ** The report and the exit status of a run *)

Lemma run_after_readiness cfg services submodules w st st4 :
  env_ready cfg w ->
  wait_for_services cfg services 180 (compose_logs w)
                    (entering_readiness cfg w st) = (Returned true, st4) ->
  fst (run cfg services submodules w st)
  = match cleanup_answer cfg (compose_down w) with
    | Returned cleanup_success =>
        Returned
          ((failed (map (fun m => result_of m (test_process w m)) submodules)
            =? 0)%nat && cleanup_success)
    | Raised e => Raised e
    | OutOfFuel => OutOfFuel
    end.
Proof.
  intros Hw E4.
  destruct (run_from_readiness cfg services submodules w st Hw) as [R _].
  rewrite R. unfold from_readiness.
  rewrite (bind_returned _ _ _ _ _ E4). cbn [negb].
  destruct (run_submodule_tests_spec cfg submodules (test_process w) st4)
    as [st5 [E5 _]].
  rewrite (bind_returned _ _ _ _ _ E5).
  destruct (cleanup_environment_spec cfg (compose_down w) st5) as [A _].
  rewrite <- A. unfold bind at 1.
  destruct (cleanup_environment cfg (compose_down w) st5) as [[c|e|] st6];
    cbn [fst]; try reflexivity.
  apply report_spec.
Qed.

(** C1.  For every sequence of results and every cleanup outcome the
    summary counts the results with [success = True] as passed and the
    others as failed, prints both tallies, answers [total_failed == 0], and
    the final status of the run is that answer AND the cleanup outcome;
    the exit status is 0 exactly when both hold, and 1 otherwise.  So a run
    that gets past the readiness phase exits with 0 exactly when no module
    failed and the cleanup succeeded, and every run exits with 0 or 1.  For
    the modules "alpha" (exits 0) and "beta" (exits 1) the whole run prints
    one passed, one failed, returns failure and exits with status 1. *)
Theorem reporter_tally_and_exit_status :
  forall (results : list TestResult.t) (cleanup_success : bool) (st : State),
    (exists st', summary_loop results 0 0 st
                 = (Returned (passed results, failed results), st')) /\
    (exists st',
        print_summary results st = (Returned (failed results =? 0)%nat, st') /\
        In (EvPrint ("Пройдено: " ++ Py.str_nat (passed results))%string)
           (trace st') /\
        In (EvPrint ("Провалено: " ++ Py.str_nat (failed results))%string)
           (trace st')) /\
    fst (report results cleanup_success st)
    = Returned ((failed results =? 0)%nat && cleanup_success) /\
    (exit_status (fst (report results cleanup_success st)) = Some 0
     <-> failed results = 0%nat /\ cleanup_success = true) /\
    (exit_status (fst (report results cleanup_success st)) = Some 1
     <-> ~ (failed results = 0%nat /\ cleanup_success = true)) /\
    (forall cfg services submodules w rc out err,
        env_ready cfg w ->
        fst (wait_for_services cfg services 180 (compose_logs w)
                               (entering_readiness cfg w st)) = Returned true ->
        compose_down w = Py.Exited rc out err ->
        main cfg services submodules w st
        = Some (if (failed (map (fun m => result_of m (test_process w m))
                                submodules) =? 0)%nat
                   && (no_cleanup cfg || (rc =? 0))
                then 0 else 1)) /\
    (forall cfg services submodules w,
        main cfg services submodules w st = Some 0 \/
        main cfg services submodules w st = Some 1) /\
    (let alpha := module_named "alpha" in
     let beta := module_named "beta" in
     let w := world_ok alpha_beta in
     let r := run cfg0 [] [alpha; beta] w initial_state in
     fst r = Returned false /\
     main cfg0 [] [alpha; beta] w initial_state = Some 1 /\
     In (EvPrint "Пройдено: 1") (trace (snd r)) /\
     In (EvPrint "Провалено: 1") (trace (snd r))).
Proof.
  intros results cleanup_success st.
  split; [apply (summary_loop_counts results 0 0 st)|].
  split; [apply print_summary_spec|].
  split; [apply report_spec|].
  rewrite report_spec.
  split; [|split; [|split; [|split]]].
  - destruct (Nat.eqb_spec (failed results) 0) as [F|F], cleanup_success;
      simpl; split; intros H; try discriminate; try tauto;
      destruct H; try discriminate; contradiction.
  - destruct (Nat.eqb_spec (failed results) 0) as [F|F], cleanup_success;
      simpl; split; intros H; try discriminate; try tauto;
      try reflexivity; try (exfalso; apply H; split; auto).
    + intros [_ H']. discriminate.
  - intros cfg services submodules w rc out err Hw Hr D.
    destruct (wait_for_services cfg services 180 (compose_logs w)
                                (entering_readiness cfg w st))
      as [b st4] eqn:E4.
    cbn [fst] in Hr. subst b.
    unfold main.
    rewrite (run_after_readiness cfg services submodules w st st4 Hw E4).
    unfold cleanup_answer. rewrite D.
    destruct (no_cleanup cfg); cbn [orb];
      [rewrite andb_true_r|];
      match goal with
      | |- context [if ?c then _ else _] => destruct c
      end; reflexivity.
  - intros cfg services submodules w. apply main_exit_status.
  - vm_compute. repeat split; auto 60.
Qed.

(** ** A run whose readiness phase fails *)


Lemma run_readiness_failure cfg services submodules w st st4 :
  env_ready cfg w ->
  wait_for_services cfg services 180 (compose_logs w)
                    (entering_readiness cfg w st) = (Returned false, st4) ->
  let r := run cfg services submodules w st in
  fst r = match cleanup_answer cfg (compose_down w) with
          | Raised e => Raised e
          | _ => Returned false
          end /\
  count is_stop (trace (snd r))
  = (count is_stop (trace st) + if no_cleanup cfg then 0 else 1)%nat /\
  count (is_call "cleanup_environment") (trace (snd r))
  = (count (is_call "cleanup_environment") (trace st) + 1)%nat /\
  count (is_call "run_submodule_tests") (trace (snd r))
  = count (is_call "run_submodule_tests") (trace st) /\
  count is_test_spawn (trace (snd r)) = count is_test_spawn (trace st).
Proof.
  intros Hw E4 r.
  assert (K : forall p, late_event p cfg -> count p (trace st4) = count p (trace st)).
  { intros p L.
    pose proof (count_wait_for_services cfg services 180 (compose_logs w)
                  (entering_readiness cfg w st) p L) as C.
    rewrite E4 in C. cbn [snd] in C.
    rewrite C. apply count_entering_readiness, L. }
  destruct (run_from_readiness cfg services submodules w st Hw) as [R _].
  subst r. rewrite R. unfold from_readiness.
  rewrite (bind_returned _ _ _ _ _ E4). cbn [negb].
  destruct (cleanup_environment_spec cfg (compose_down w) st4) as [A [S C]].
  assert (T : count (is_call "run_submodule_tests")
                    (trace (snd (cleanup_environment cfg (compose_down w) st4)))
              = count (is_call "run_submodule_tests") (trace st4)).
  { apply count_extends.
    apply (emits_cleanup_environment cfg
             (fun ev => is_call "run_submodule_tests" ev = false));
      reflexivity. }
  assert (U : count is_test_spawn
                    (trace (snd (cleanup_environment cfg (compose_down w) st4)))
              = count is_test_spawn (trace st4)).
  { apply count_extends.
    apply (emits_cleanup_environment cfg (fun ev => is_test_spawn ev = false));
      reflexivity. }
  rewrite (K _ (late_is_stop cfg)) in S.
  rewrite (K _ (late_is_call_cleanup cfg)) in C.
  rewrite (K _ (late_is_call_tests cfg)) in T.
  rewrite (K _ (late_is_test_spawn cfg)) in U.
  unfold bind.
  destruct (cleanup_environment cfg (compose_down w) st4) as [[b|e|] st5];
    cbn [fst snd] in *; [rewrite <- A; auto | rewrite <- A; auto |].
  exfalso. unfold cleanup_answer in A.
  destruct (no_cleanup cfg), (compose_down w); discriminate A.
Qed.

(** C2 (amended).  For every run that reaches the readiness phase and in
    which that phase fails, the run does not succeed and, before it ends,
    calls [cleanup_environment] once; the tear-down command is launched once
    when no_cleanup is not set and not at all when it is.  (The run returns
    [False], unless the tear-down command cannot be launched and its
    exception leaves [run].) *)
Theorem readiness_failure_routes_to_cleanup :
  forall (cfg : Config) (services : list (string * Service.t))
         (submodules : list Submodule.t) (w : World) (st : State),
    env_ready cfg w ->
    fst (wait_for_services cfg services 180 (compose_logs w)
                           (entering_readiness cfg w st)) = Returned false ->
    let r := run cfg services submodules w st in
    fst r <> Returned true /\
    ((exists rc out err, compose_down w = Py.Exited rc out err) \/
     no_cleanup cfg = true ->
     fst r = Returned false) /\
    count (is_call "cleanup_environment") (trace (snd r))
    = (count (is_call "cleanup_environment") (trace st) + 1)%nat /\
    count is_stop (trace (snd r))
    = (count is_stop (trace st) + if no_cleanup cfg then 0 else 1)%nat.
Proof.
  intros cfg services submodules w st Hw Hf r.
  destruct (wait_for_services cfg services 180 (compose_logs w)
                              (entering_readiness cfg w st)) as [b st4] eqn:E4.
  cbn [fst] in Hf. subst b.
  destruct (run_readiness_failure cfg services submodules w st st4 Hw E4)
    as [A [S [C _]]].
  fold r in A, S, C. split; [|split; [|split; assumption]].
  - rewrite A. destruct (cleanup_answer cfg (compose_down w)); discriminate.
  - intros H. rewrite A. unfold cleanup_answer.
    destruct (no_cleanup cfg); [reflexivity|].
    destruct H as [[rc [o [e ->]]]|H]; [reflexivity | discriminate H].
Qed.

Lemma readiness_failure_routes_to_cleanup_witness :
  let r := run cfg0 db_never_ready [module_named "alpha"] (world_ok alpha_beta)
               initial_state in
  fst r <> Returned true /\
  ((exists rc out err, compose_down (world_ok alpha_beta) = Py.Exited rc out err) \/
   no_cleanup cfg0 = true ->
   fst r = Returned false) /\
  count (is_call "cleanup_environment") (trace (snd r))
  = (count (is_call "cleanup_environment") (trace initial_state) + 1)%nat /\
  count is_stop (trace (snd r))
  = (count is_stop (trace initial_state) + if no_cleanup cfg0 then 0 else 1)%nat.
Proof.
  apply (readiness_failure_routes_to_cleanup cfg0 db_never_ready
           [module_named "alpha"] (world_ok alpha_beta) initial_state).
  - repeat split; reflexivity.
  - vm_compute. reflexivity.
Defined.

(** C2 as stated fails on both of its parts.  When the bring-up command
    exits 1 the run returns at once: [cleanup_environment] is not called and
    no tear-down command is launched.  When the readiness phase times out
    under no_cleanup, [cleanup_environment] is called but launches
    nothing. *)
Lemma start_failure_skips_cleanup :
  (let w := {| docker_version := ok; compose_version := ok;
               python_version := ok; file_exists := fun _ => true;
               compose_pre_down := ok;
               compose_up := Py.Exited 1 "" "port is already allocated";
               compose_logs := ok; test_process := alpha_beta;
               compose_down := ok |} in
   let r := run cfg0 db_never_ready [module_named "alpha"] w initial_state in
   fst r = Returned false /\
   spawned (trace (snd r))
   = [["docker"; "--version"]; ["docker-compose"; "--version"];
      ["/usr/bin/python3"; "--version"]; cmd_pre_down; cmd_up] /\
   count is_stop (trace (snd r)) = 0%nat /\
   count (is_call "cleanup_environment") (trace (snd r)) = 0%nat) /\
  (let cfg := {| verbose := false; no_cleanup := true;
                 project_root := "/srv/job-platform";
                 sys_executable := "/usr/bin/python3"; os_environ := [] |} in
   let r := run cfg db_never_ready [module_named "alpha"] (world_ok alpha_beta)
                initial_state in
   fst r = Returned false /\
   count (is_call "wait_for_services") (trace (snd r)) = 1%nat /\
   count (is_call "run_submodule_tests") (trace (snd r)) = 0%nat /\
   count is_stop (trace (snd r)) = 0%nat).
Proof. vm_compute. repeat split; reflexivity. Qed.









(** The run of that example: "api" answers, "db" raises until the deadline,
    "cache" is never probed, the logs are dumped and the stack is torn
    down. *)
Example abort_at_db :
  let r := run cfg0 api_then_db [module_named "alpha"] (world_ok alpha_beta)
               initial_state in
  fst r = Returned false /\
  ready_keys (trace (snd r)) = ["api"] /\
  count is_probe (trace (snd r)) = 31%nat /\
  ~ In "cache" (probed_keys (trace (snd r))) /\
  skipn 5 (spawned (trace (snd r))) = [cmd_logs; cmd_down] /\
  clock (snd r) = 182.
Proof.
  vm_compute. repeat split; try discriminate.
  intros H. repeat (destruct H as [H|H]; [discriminate H|]). exact H.
Qed.

(** ** Exceptions of a check, and a deadline that has already passed *)


(** A check that raises twice and then answers: the phase succeeds on the
    third attempt, ten seconds of sleep later. *)
Example raises_then_ready :
  let flaky (_ : string) (t : Z) :=
    {| outcome := if t <? 10
                  then CheckRaised (Py.OSError "connection refused")
                  else CheckReturned true;
       duration := 0 |} in
  let r := wait_for_services cfg0 [("db", service "db" flaky)] 180 ok
                             initial_state in
  fst r = Returned true /\
  filter is_probe (trace (snd r))
  = [EvProbe "db" 1 (CheckRaised (Py.OSError "connection refused"));
     EvProbe "db" 2 (CheckRaised (Py.OSError "connection refused"));
     EvProbe "db" 3 (CheckReturned true)] /\
  clock (snd r) = 10.
Proof. vm_compute. auto. Qed.

(** C10.  With a deadline that is not positive no check is ever called and
    no time passes: the phase returns [False] for every non-empty list of
    services, whatever their checks would answer, and [True] for the empty
    list. *)
Theorem non_positive_deadline_probes_nothing :
  forall (cfg : Config) (services : list (string * Service.t)) (timeout : Z)
         (o_logs : Py.proc_outcome) (st : State),
    timeout <= 0 ->
    exists st',
      wait_for_services cfg services timeout o_logs st
      = (Returned (match services with [] => true | _ :: _ => false end), st') /\
      probed_keys (trace st') = probed_keys (trace st) /\
      count is_probe (trace st') = count is_probe (trace st) /\
      clock st' = clock st.
Proof.
  intros cfg services timeout o_logs st Ht.
  unfold wait_for_services.
  rewrite bind_do_emit, bind_log, bind_time_time.
  pose proof (quiet_logged cfg
                ("Ожидание готовности сервисов (таймаут: "
                   ++ Py.str_int timeout ++ "с)...")%string INFO
                (emit (EvCall "wait_for_services") st)) as Q0.
  assert (B : forall s, quiet (emit (EvCall "wait_for_services") st) s ->
                probed_keys (trace s) = probed_keys (trace st) /\
                count is_probe (trace s) = count is_probe (trace st) /\
                clock s = clock st).
  { intros s Q. split; [|split].
    - rewrite (quiet_probed_keys _ _ Q). simpl. rewrite probed_keys_app.
      apply app_nil_r.
    - rewrite (quiet_count is_probe _ _ (fun _ _ => eq_refl) Q), count_emit.
      simpl. lia.
    - destruct Q as [-> _]. reflexivity. }
  destruct services as [|[key info] rest]; cbn [wait_each].
  - rewrite bind_log. eexists. split; [reflexivity|].
    apply B. eapply quiet_trans; [exact Q0 | apply quiet_logged].
  - rewrite bind_log. unfold loop_fuel. cbn [wait_loop].
    rewrite bind_assoc, bind_time_time, !logged_clock.
    change (clock (emit (EvCall "wait_for_services") st)) with (clock st).
    replace (clock st - clock st <? timeout) with false
      by (symmetry; apply Z.ltb_ge; lia).
    cbn [andb]. rewrite bind_ret. cbn [fst negb]. rewrite bind_log.
    match goal with
    | |- context [bind (_show_container_logs cfg _) _ ?s] =>
        destruct (show_container_logs_spec cfg o_logs s) as [st2 [E2 D2]];
        assert (Q1 : quiet (emit (EvCall "wait_for_services") st) s)
          by (eapply quiet_trans; [exact Q0|];
              eapply quiet_trans; apply quiet_logged)
    end.
    rewrite (bind_returned _ _ _ _ _ E2).
    exists st2. split; [reflexivity|].
    destruct (B _ Q1) as [Bp [Bc Bk]].
    destruct D2 as [Dc Ds Dsp Dr Dp].
    split; [congruence|]. split; [|congruence].
    assert (L : forall evs, count is_probe evs = length (probed_keys evs)).
    { induction evs as [|ev evs IH]; [reflexivity|].
      destruct ev; simpl; unfold count in *; simpl; rewrite ?IH; reflexivity. }
    rewrite !L. congruence.
Qed.

Lemma non_positive_deadline_probes_nothing_witness :
  exists st',
    wait_for_services cfg0 [("db", service "db" (always (CheckReturned true) 0))]
                      0 ok initial_state
    = (Returned false, st') /\
    probed_keys (trace st') = probed_keys (trace initial_state) /\
    count is_probe (trace st') = count is_probe (trace initial_state) /\
    clock st' = clock initial_state.
Proof.
  apply (non_positive_deadline_probes_nothing cfg0
           [("db", service "db" (always (CheckReturned true) 0))] 0 ok
           initial_state).
  lia.
Defined.

(** ** The script as it is configured *)

(** The keys of the [services] dict of the script are distinct. *)
Lemma default_services_keys pw : NoDup (keys (default_services pw)).
Proof. repeat constructor; simpl; intuition discriminate. Qed.

(** The database answers [pg_isready] from second 10 on, the API answers
    200 from second 20 on, the tests of job-bot pass: the run succeeds, the
    stack that was brought up is torn down, and the process exits with 0. *)
Example configured_run_succeeds :
  let pw :=
    {| pg_isready := fun t =>
         (Py.Finished (Py.Exited (if t <? 10 then 2 else 0) "" ""), 1%nat);
       http_get := fun _ t =>
         (if t <? 20 then HttpFailed (Py.OtherException "ConnectionError")
          else HttpResponse 200, 0%nat) |} in
  let w := world_ok (fun _ => Py.Finished (Py.Exited 0 "3 passed" "")) in
  let r := IntegrationTestRunner_run cfg0 pw w initial_state in
  fst r = Returned true /\
  exit_status (fst r) = Some 0 /\
  ready_keys (trace (snd r)) = ["test_db"; "test_api"] /\
  probed_keys (trace (snd r))
  = ["test_db"; "test_db"; "test_db"; "test_api"; "test_api"; "test_api"] /\
  count is_test_spawn (trace (snd r)) = 1%nat /\
  count is_stop (trace (snd r)) = 1%nat /\
  live_stacks (snd r) = 0%nat.
Proof. vm_compute. repeat split; reflexivity. Qed.

(** [docker] disappears while the database is being probed:
    [_check_database] lets the [FileNotFoundError] through, the loop takes
    it for "not ready yet", and the phase fails at the deadline. *)
Example configured_run_database_check_raises :
  let pw :=
    {| pg_isready := fun _ =>
         (Py.Finished (Py.LaunchFailed (Py.NotFound "[Errno 2] docker")), 0%nat);
       http_get := fun _ _ => (HttpResponse 200, 0%nat) |} in
  let r := IntegrationTestRunner_run cfg0 pw (world_ok alpha_beta)
                                     initial_state in
  fst r = Returned false /\
  ready_keys (trace (snd r)) = [] /\
  count is_probe (trace (snd r)) = 36%nat /\
  count is_test_spawn (trace (snd r)) = 0%nat /\
  count is_stop (trace (snd r)) = 1%nat.
Proof. vm_compute. repeat split; reflexivity. Qed.


(** * Further properties of the script *)

(** ** check_dependencies and check_env_files *)

Lemma stack_effect_version c o n : stack_effect [c; "--version"] o n = n.
Proof.
  destruct o as [[rc ? ?|?]|rc ? ? ?]; simpl; try reflexivity;
    rewrite !andb_false_r; simpl; destruct (rc =? 0); reflexivity.
Qed.

(** A line at a level other than INFO is printed in every mode. *)
Lemma logged_shown cfg message level st :
  level <> INFO -> logged cfg message level st = emit (EvLog level message) st.
Proof.
  intros H. unfold logged, log, when.
  destruct level; try contradiction; rewrite orb_true_r; reflexivity.
Qed.

Lemma logs_app a b : logs (a ++ b) = logs a ++ logs b.
Proof.
  induction a as [|ev a IH]; simpl; [reflexivity|].
  destruct ev; simpl; rewrite IH; reflexivity.
Qed.

Lemma logs_logged cfg message level st :
  level <> INFO ->
  logs (trace (logged cfg message level st))
  = logs (trace st) ++ [(level, message)].
Proof.
  intros H. rewrite (logged_shown _ _ _ _ H). simpl. apply logs_app.
Qed.

Lemma logs_launched cmd cwd o st :
  logs (trace (launched cmd cwd o st)) = logs (trace st).
Proof. unfold launched. simpl. rewrite logs_app. apply app_nil_r. Qed.

Lemma logs_emit_spawn cmd cwd env st :
  logs (trace (emit (EvSpawn cmd cwd env) st)) = logs (trace st).
Proof. simpl. rewrite logs_app. apply app_nil_r. Qed.

Ltac probe_ok :=
  erewrite bind_attempt_returned
    by (rewrite (bind_returned _ _ _ _ _ (spawn_exit0 _ _ _ _ _ _ _ _));
        apply log_returns);
  cbv beta iota.

Ltac probe_nonzero N :=
  erewrite bind_attempt_raised
    by (apply bind_raised, spawn_check_nonzero, N);
  cbv beta iota; cbn [Py.is_CalledProcessError Py.is_FileNotFoundError orb];
  try rewrite bind_log.

Ltac probe_unlaunched :=
  erewrite bind_attempt_raised by (apply bind_raised, spawn_launch_failed);
  cbv beta iota;
  cbn [Py.exn_of_failure Py.is_CalledProcessError Py.is_FileNotFoundError orb];
  try rewrite bind_log.

Ltac deps_done :=
  unfold ret, raise; cbn [fst snd];
  repeat first
    [ rewrite logged_stacks | rewrite launched_stacks
    | rewrite stack_effect_version
    | rewrite spawned_logged | rewrite spawned_launched
    | rewrite spawned_emit | rewrite logged_clock | rewrite launched_clock ];
  cbn [live_stacks clock emit];
  rewrite ?app_nil_r, <- ?app_assoc; cbn [app];
  repeat split; reflexivity.

Lemma check_dependencies_spec cfg (o1 o2 o3 : Py.proc_outcome) st :
  let r := check_dependencies cfg o1 o2 o3 st in
  fst r = deps_answer o1 o2 o3 /\
  spawned (trace (snd r))
  = spawned (trace st)
      ++ ["docker"; "--version"]
      :: (if exits_ok o1
          then ["docker-compose"; "--version"]
               :: (if exits_ok o2 then [[sys_executable cfg; "--version"]]
                   else [])
          else []) /\
  live_stacks (snd r) = live_stacks st /\
  clock (snd r) = clock st.
Proof.
  unfold check_dependencies, deps_answer, exits_ok.
  rewrite bind_do_emit, bind_log. cbv zeta.
  destruct o1 as [rc1 out1 err1|[m1|m1]];
    [destruct (Z.eq_dec rc1 0) as [->|N1]| |].
  - probe_ok. cbn [Z.eqb negb].
    destruct o2 as [rc2 out2 err2|[m2|m2]];
      [destruct (Z.eq_dec rc2 0) as [->|N2]| |].
    + probe_ok. cbn [Z.eqb negb].
      destruct o3 as [rc3 out3 err3|f3];
        [destruct (Z.eq_dec rc3 0) as [->|N3]|].
      * probe_ok. deps_done.
      * probe_nonzero N3. apply Z.eqb_neq in N3. rewrite N3. deps_done.
      * erewrite bind_attempt_raised
          by (apply bind_raised, spawn_launch_failed).
        cbv beta iota. rewrite is_failure_exn. deps_done.
    + probe_nonzero N2. apply Z.eqb_neq in N2. rewrite N2. cbn [negb].
      deps_done.
    + probe_unlaunched. deps_done.
    + probe_unlaunched. deps_done.
  - probe_nonzero N1. apply Z.eqb_neq in N1. rewrite N1. cbn [negb].
    deps_done.
  - probe_unlaunched. deps_done.
  - probe_unlaunched. deps_done.
Qed.

Lemma deps_answer_true o1 o2 o3 :
  deps_answer o1 o2 o3 = Returned true <->
  exits_ok o1 = true /\ exits_ok o2 = true /\ exits_ok o3 = true.
Proof.
  unfold deps_answer, exits_ok.
  destruct o1 as [rc1 ? ?|[?|?]]; try (split; [discriminate | intros [H _]; discriminate]).
  destruct (rc1 =? 0); cbn [negb];
    [|split; [discriminate | intros [H _]; discriminate]].
  destruct o2 as [rc2 ? ?|[?|?]];
    try (split; [discriminate | intros [_ [H _]]; discriminate]).
  destruct (rc2 =? 0); cbn [negb];
    [|split; [discriminate | intros [_ [H _]]; discriminate]].
  destruct o3 as [rc3 ? ?|f];
    [|split; [destruct f; discriminate | intros [_ [_ H]]; discriminate]].
  destruct (rc3 =? 0); split; auto; try discriminate.
  intros [_ [_ H]]; discriminate.
Qed.

(** X1.  [check_dependencies] probes docker, docker-compose and the Python
    interpreter in that order and stops at the first probe that does not
    exit 0; it launches nothing else and leaves the stack alone.  It
    answers [True] exactly when the three probes exit 0.  A probe that
    exits non-zero gives [False]; so does a docker or docker-compose that
    is not installed ([FileNotFoundError]), whereas an interpreter that
    cannot be launched is not caught: its exception leaves the method. *)
Theorem dependencies_probed_in_order :
  forall (cfg : Config) (o1 o2 o3 : Py.proc_outcome) (st : State),
    let r := check_dependencies cfg o1 o2 o3 st in
    (fst r = Returned true <->
     exits_ok o1 = true /\ exits_ok o2 = true /\ exits_ok o3 = true) /\
    spawned (trace (snd r))
    = spawned (trace st)
        ++ ["docker"; "--version"]
        :: (if exits_ok o1
            then ["docker-compose"; "--version"]
                 :: (if exits_ok o2 then [[sys_executable cfg; "--version"]]
                     else [])
            else []) /\
    live_stacks (snd r) = live_stacks st /\
    (forall msg,
        fst (check_dependencies cfg (Py.LaunchFailed (Py.NotFound msg)) o2 o3 st)
        = Returned false) /\
    (forall msg,
        exits_ok o1 = true ->
        fst (check_dependencies cfg o1 (Py.LaunchFailed (Py.NotFound msg)) o3 st)
        = Returned false) /\
    (forall msg,
        exits_ok o1 = true -> exits_ok o2 = true ->
        fst (check_dependencies cfg o1 o2 (Py.LaunchFailed (Py.NotFound msg)) st)
        = Raised (Py.FileNotFoundError msg)) /\
    (forall rc out err,
        rc <> 0 -> exits_ok o1 = true -> exits_ok o2 = true ->
        fst (check_dependencies cfg o1 o2 (Py.Exited rc out err) st)
        = Returned false).
Proof.
  intros cfg o1 o2 o3 st r.
  destruct (check_dependencies_spec cfg o1 o2 o3 st) as [A [S [L _]]].
  fold r in A, S, L.
  split; [rewrite A; apply deps_answer_true|].
  split; [exact S|]. split; [exact L|].
  split; [|split; [|split]].
  - intros msg.
    destruct (check_dependencies_spec cfg (Py.LaunchFailed (Py.NotFound msg))
                o2 o3 st) as [A' _].
    rewrite A'. reflexivity.
  - intros msg H1.
    destruct (check_dependencies_spec cfg o1 (Py.LaunchFailed (Py.NotFound msg))
                o3 st) as [A' _].
    rewrite A'. destruct (exits_ok_inv _ H1) as [a [b ->]]. reflexivity.
  - intros msg H1 H2.
    destruct (check_dependencies_spec cfg o1 o2
                (Py.LaunchFailed (Py.NotFound msg)) st) as [A' _].
    rewrite A'. destruct (exits_ok_inv _ H1) as [a [b ->]].
    destruct (exits_ok_inv _ H2) as [a' [b' ->]]. reflexivity.
  - intros rc out err N H1 H2.
    destruct (check_dependencies_spec cfg o1 o2 (Py.Exited rc out err) st)
      as [A' _].
    rewrite A'. destruct (exits_ok_inv _ H1) as [a [b ->]].
    destruct (exits_ok_inv _ H2) as [a' [b' ->]]. simpl.
    apply Z.eqb_neq in N. rewrite N. reflexivity.
Qed.

Lemma check_env_files_spec cfg ex st :
  let r := check_env_files cfg ex st in
  fst r = Returned (match missing_files cfg ex with [] => true | _ => false end) /\
  spawned (trace (snd r)) = spawned (trace st) /\
  live_stacks (snd r) = live_stacks st /\
  clock (snd r) = clock st /\
  (missing_files cfg ex <> [] ->
   In (EvLog ERROR ("[ERROR] Отсутствуют файлы окружения: "
                      ++ Py.join ", " (missing_files cfg ex))%string)
      (trace (snd r))).
Proof.
  unfold check_env_files. fold (missing_files cfg ex).
  rewrite bind_do_emit, bind_log. cbv zeta.
  destruct (missing_files cfg ex) as [|f fs].
  - rewrite bind_log. unfold ret. cbn [fst snd].
    rewrite !spawned_logged, spawned_emit, !logged_stacks, !logged_clock.
    rewrite app_nil_r. repeat split; auto. intros H. contradiction.
  - rewrite !bind_log. unfold ret. cbn [fst snd].
    rewrite !spawned_logged, spawned_emit, !logged_stacks, !logged_clock.
    rewrite app_nil_r. repeat split; auto. intros _.
    rewrite (logged_shown cfg _ ERROR) by discriminate.
    apply in_trace_later.
    rewrite (logged_shown cfg _ ERROR) by discriminate.
    apply in_trace_emit.
Qed.

(** X2.  [check_env_files] answers [True] exactly when both [.env.dev] and
    [.env.hh.dev] exist in the project root; it never raises and launches
    nothing.  When it answers [False] it prints, in every mode, an error
    line that names exactly the files that are missing, in the order
    [.env.dev], [.env.hh.dev]. *)
Theorem env_files_checked :
  forall (cfg : Config) (ex : string -> bool) (st : State),
    let r := check_env_files cfg ex st in
    fst r = Returned (ex (root_file cfg ".env.dev")
                      && ex (root_file cfg ".env.hh.dev")) /\
    spawned (trace (snd r)) = spawned (trace st) /\
    (fst r = Returned false ->
     In (EvLog ERROR
           ("[ERROR] Отсутствуют файлы окружения: "
              ++ Py.join ", "
                   ((if ex (root_file cfg ".env.dev") then [] else [".env.dev"])
                    ++ (if ex (root_file cfg ".env.hh.dev") then []
                        else [".env.hh.dev"])))%string)
        (trace (snd r))).
Proof.
  intros cfg ex st r.
  destruct (check_env_files_spec cfg ex st) as [A [S [_ [_ E]]]].
  fold r in A, S, E. unfold missing_files in A, E. cbn [filter] in A, E.
  destruct (ex (root_file cfg ".env.dev")), (ex (root_file cfg ".env.hh.dev"));
    cbn [negb andb app] in *;
    (split; [exact A|]); (split; [exact S|]); intros H;
    try (rewrite A in H; discriminate H);
    apply E; discriminate.
Qed.


(** ** Computations that leave the clock and the stacks alone *)

Lemma keeps_ret {A} (a : A) : keeps (ret a).
Proof. intros st. auto. Qed.

Lemma keeps_raise {A} e : keeps (@raise A e).
Proof. intros st. auto. Qed.

Lemma keeps_bind {A B} (m : M A) (k : A -> M B) :
  keeps m -> (forall a, keeps (k a)) -> keeps (bind m k).
Proof.
  intros Hm Hk st. unfold bind. specialize (Hm st).
  destruct (m st) as [[a|e|] st1]; cbn [snd] in *; auto.
  destruct (Hk a st1) as [L C]. destruct Hm as [L1 C1]. split; congruence.
Qed.

Lemma keeps_attempt {A} (m : M A) : keeps m -> keeps (attempt m).
Proof.
  intros Hm st. unfold attempt. specialize (Hm st).
  destruct (m st) as [[a|e|] st1]; cbn [snd] in *; auto.
Qed.

Lemma keeps_of_sum {A} (r : A + Py.exn) : keeps (of_sum r).
Proof. destruct r; [apply keeps_ret | apply keeps_raise]. Qed.

Lemma keeps_do_emit ev : keeps (do_emit ev).
Proof. intros st. auto. Qed.

Lemma keeps_when b m : keeps m -> keeps (when b m).
Proof. intros H. destruct b; [exact H | apply keeps_ret]. Qed.

Lemma keeps_log cfg message level : keeps (log cfg message level).
Proof. unfold log. apply keeps_when, keeps_do_emit. Qed.

Lemma keeps_if {A} (b : bool) (m1 m2 : M A) :
  keeps m1 -> keeps m2 -> keeps (if b then m1 else m2).
Proof. destruct b; auto. Qed.

Lemma keeps_for_each {A} (xs : list A) body :
  (forall x, keeps (body x)) -> keeps (for_each xs body).
Proof.
  intros H. induction xs as [|x xs IH]; simpl.
  - apply keeps_ret.
  - apply keeps_bind; auto.
Qed.

Lemma keeps_spawn_timeout cmd cwd env check cap text t o :
  keeps (spawn_timeout cmd cwd env check cap text t o).
Proof. intros st. unfold spawn_timeout. apply (keeps_of_sum _ (emit _ st)). Qed.

Ltac keeps_step :=
  first
    [ apply keeps_ret | apply keeps_raise | apply keeps_log
    | apply keeps_do_emit | apply keeps_of_sum | apply keeps_spawn_timeout
    | apply keeps_bind; [|intros ?]
    | apply keeps_attempt
    | apply keeps_when
    | apply keeps_for_each; intros ?
    | apply keeps_if
    | match goal with
      | |- keeps (match ?x with _ => _ end) => destruct x
      end ].

Ltac keeps_auto := repeat keeps_step.

Lemma keeps_run_single_test cfg submodule o :
  keeps (_run_single_test cfg submodule o).
Proof. unfold _run_single_test. keeps_auto. Qed.

Lemma keeps_run_submodule_tests cfg submodules outcomes :
  keeps (run_submodule_tests cfg submodules outcomes).
Proof.
  unfold run_submodule_tests.
  keeps_step; [apply keeps_do_emit|]. keeps_step; [apply keeps_log|].
  generalize (@nil TestResult.t).
  induction submodules as [|m ms IH]; intros results; simpl.
  - apply keeps_ret.
  - keeps_step; [apply keeps_log|].
    keeps_step; [apply keeps_run_single_test | apply IH].
Qed.

Lemma keeps_summary_loop results : forall p f, keeps (summary_loop results p f).
Proof.
  induction results as [|r rs IH]; intros p f; simpl.
  - apply keeps_ret.
  - keeps_step; [apply keeps_do_emit|]. keeps_step; [keeps_auto|].
    destruct (TestResult.success r); apply IH.
Qed.

Lemma keeps_report results cleanup_success :
  keeps (report results cleanup_success).
Proof.
  unfold report, print_summary.
  keeps_step.
  - do 4 (keeps_step; [apply keeps_do_emit|]).
    keeps_step; [apply keeps_summary_loop|].
    do 4 (keeps_step; [apply keeps_do_emit|]). keeps_auto.
  - keeps_auto.
Qed.

Lemma timeless_ret {A} (a : A) : timeless (ret a).
Proof. intros st. reflexivity. Qed.

Lemma timeless_raise {A} e : timeless (@raise A e).
Proof. intros st. reflexivity. Qed.

Lemma timeless_bind {A B} (m : M A) (k : A -> M B) :
  timeless m -> (forall a, timeless (k a)) -> timeless (bind m k).
Proof.
  intros Hm Hk st. unfold bind. specialize (Hm st).
  destruct (m st) as [[a|e|] st1]; cbn [snd] in *; auto.
  rewrite (Hk a st1). exact Hm.
Qed.

Lemma timeless_attempt {A} (m : M A) : timeless m -> timeless (attempt m).
Proof.
  intros Hm st. unfold attempt. specialize (Hm st).
  destruct (m st) as [[a|e|] st1]; cbn [snd] in *; auto.
Qed.

Lemma timeless_of_sum {A} (r : A + Py.exn) : timeless (of_sum r).
Proof. destruct r; [apply timeless_ret | apply timeless_raise]. Qed.

Lemma timeless_do_emit ev : timeless (do_emit ev).
Proof. intros st. reflexivity. Qed.

Lemma timeless_when b m : timeless m -> timeless (when b m).
Proof. intros H. destruct b; [exact H | apply timeless_ret]. Qed.

Lemma timeless_log cfg message level : timeless (log cfg message level).
Proof. unfold log. apply timeless_when, timeless_do_emit. Qed.

Lemma timeless_if {A} (b : bool) (m1 m2 : M A) :
  timeless m1 -> timeless m2 -> timeless (if b then m1 else m2).
Proof. destruct b; auto. Qed.

Lemma timeless_spawn cmd cwd check cap text o :
  timeless (spawn cmd cwd check cap text o).
Proof.
  intros st. unfold spawn.
  apply (timeless_of_sum _ (set_stacks _ (emit _ st))).
Qed.

Ltac timeless_step :=
  first
    [ apply timeless_ret | apply timeless_raise | apply timeless_log
    | apply timeless_do_emit | apply timeless_of_sum | apply timeless_spawn
    | apply timeless_bind; [|intros ?]
    | apply timeless_attempt
    | apply timeless_when
    | apply timeless_if
    | match goal with
      | |- timeless (match ?x with _ => _ end) => destruct x
      end ].

Ltac timeless_auto := repeat timeless_step.

Lemma timeless_start_test_environment cfg o_down o_up :
  timeless (start_test_environment cfg o_down o_up).
Proof. unfold start_test_environment. timeless_auto. Qed.

Lemma timeless_cleanup_environment cfg o :
  timeless (cleanup_environment cfg o).
Proof. unfold cleanup_environment. timeless_auto. Qed.

(** ** The shape of run *)

Lemma bind_ext {A B} (m : M A) (k1 k2 : A -> M B) st :
  (forall a st', k1 a st' = k2 a st') -> bind m k1 st = bind m k2 st.
Proof.
  intros H. unfold bind. destruct (m st) as [[a|e|] st1]; auto.
Qed.

(** [run] is its first three phases followed, when the start answers
    [True], by the rest. *)
Lemma run_split cfg services submodules w st :
  run cfg services submodules w st
  = bind (before_readiness cfg w)
         (fun started =>
            if negb started then ret false
            else from_readiness cfg services submodules w) st.
Proof.
  unfold run, before_readiness, from_readiness.
  rewrite bind_assoc. apply bind_ext. intros _ s1.
  rewrite bind_assoc. apply bind_ext. intros _ s2.
  rewrite bind_assoc. apply bind_ext. intros deps s3.
  destruct deps; cbn [negb]; [|reflexivity].
  rewrite bind_assoc. apply bind_ext. intros files s4.
  destruct files; cbn [negb]; reflexivity.
Qed.


Lemma bind_unfold {A B} (m : M A) (k : A -> M B) st :
  bind m k st
  = match m st with
    | (Returned a, st') => k a st'
    | (Raised e, st') => (Raised e, st')
    | (OutOfFuel, st') => (OutOfFuel, st')
    end.
Proof. reflexivity. Qed.

Lemma deps_answer_not_out_of_fuel o1 o2 o3 : deps_answer o1 o2 o3 <> OutOfFuel.
Proof.
  unfold deps_answer.
  destruct o1 as [rc1 ? ?|[?|?]]; try discriminate.
  destruct (rc1 =? 0); try discriminate. cbn [negb].
  destruct o2 as [rc2 ? ?|[?|?]]; try discriminate.
  destruct (rc2 =? 0); try discriminate. cbn [negb].
  destruct o3 as [rc3 ? ?|f]; discriminate.
Qed.

Lemma preconditions_ok_iff cfg w :
  preconditions_ok cfg w = true <->
  deps_answer (docker_version w) (compose_version w) (python_version w)
  = Returned true /\ missing_files cfg (file_exists w) = [].
Proof.
  unfold preconditions_ok, missing_files. cbn [filter].
  rewrite deps_answer_true.
  destruct (exits_ok (docker_version w)), (exits_ok (compose_version w)),
    (exits_ok (python_version w)),
    (file_exists w (root_file cfg ".env.dev")),
    (file_exists w (root_file cfg ".env.hh.dev")); cbn [andb negb];
    split; try discriminate; try tauto; intros [[? [? ?]] ?];
    try discriminate; auto.
Qed.

(** The first three phases of [run], whatever the world answers. *)
Lemma before_readiness_spec cfg w st :
  let r := before_readiness cfg w st in
  fst r = start_phase_answer cfg w /\
  (exists cmds,
      spawned (trace (snd r))
      = spawned (trace st) ++ cmds
          ++ (if preconditions_ok cfg w
              then cmd_pre_down
                   :: (if exits_ok (compose_pre_down w) then [cmd_up] else [])
              else []) /\
      Forall is_version_probe cmds) /\
  live_stacks (snd r)
  = (if preconditions_ok cfg w && exits_ok (compose_pre_down w)
     then (if exits_ok (compose_up w) then 1 else 0)
     else live_stacks st)%nat /\
  clock (snd r) = clock st.
Proof.
  unfold before_readiness, start_phase_answer.
  rewrite !bind_print, bind_unfold.
  match goal with
  | |- context [check_dependencies cfg (Py.Ran ?a) (Py.Ran ?b) (Py.Ran ?c) ?s] =>
      pose proof (check_dependencies_spec cfg a b c s) as [A [S [L C]]];
      pose proof (deps_answer_not_out_of_fuel a b c) as NF;
      destruct (check_dependencies cfg a b c s) as [r1 s1]
  end.
  cbn [fst snd] in A, S, L, C. rewrite !spawned_emit in S.
  cbn [app] in S. rewrite !app_nil_r in S. cbn [emit live_stacks clock] in L, C.
  pose proof (preconditions_ok_iff cfg w) as PI. subst r1.
  assert (V : Forall is_version_probe
                (["docker"; "--version"]
                 :: (if exits_ok (docker_version w)
                     then ["docker-compose"; "--version"]
                          :: (if exits_ok (compose_version w)
                              then [[sys_executable cfg; "--version"]]
                              else [])
                     else []))).
  { constructor; [eexists; reflexivity|].
    destruct (exits_ok (docker_version w)); [|constructor].
    constructor; [eexists; reflexivity|].
    destruct (exits_ok (compose_version w)); [|constructor].
    constructor; [eexists; reflexivity | constructor]. }
  destruct (deps_answer (docker_version w) (compose_version w)
              (python_version w)) as [[|]|e|] eqn:D.
  - (* the tools answer *)
    cbn [negb]. rewrite bind_unfold.
    pose proof (check_env_files_spec cfg (file_exists w) s1) as [A2 [S2 [L2 [C2 _]]]].
    destruct (check_env_files cfg (file_exists w) s1) as [r2 s2].
    cbn [fst snd] in A2, S2, L2, C2. subst r2.
    destruct (missing_files cfg (file_exists w)) as [|f fs] eqn:MF.
    + cbn [negb].
      assert (P : preconditions_ok cfg w = true) by (apply PI; auto).
      rewrite P. cbn [andb].
      destruct (start_test_environment_spec cfg (compose_pre_down w)
                  (compose_up w) s2) as [A3 [S3 L3]].
      split; [exact A3|]. split; [|split].
      * eexists. split; [|exact V].
        rewrite S3, S2, S, <- !app_assoc. reflexivity.
      * rewrite L3. destruct (exits_ok (compose_pre_down w)); congruence.
      * rewrite (timeless_start_test_environment cfg (compose_pre_down w)
                   (compose_up w) s2).
        congruence.
    + cbn [negb]. unfold ret. cbn [fst snd].
      assert (P : preconditions_ok cfg w = false).
      { destruct (preconditions_ok cfg w); [|reflexivity].
        destruct (proj1 PI eq_refl) as [_ X]. discriminate X. }
      rewrite P. cbn [andb]. split; [reflexivity|]. split; [|split; congruence].
      eexists. split; [|exact V]. rewrite S2, S, app_nil_r. reflexivity.
  - (* a probe answers False *)
    cbn [negb]. unfold ret. cbn [fst snd].
    assert (P : preconditions_ok cfg w = false).
    { destruct (preconditions_ok cfg w); [|reflexivity].
      destruct (proj1 PI eq_refl) as [X _]. discriminate X. }
    rewrite P. cbn [andb]. split; [reflexivity|]. split; [|split; congruence].
    eexists. split; [|exact V]. rewrite S, app_nil_r. reflexivity.
  - cbn [fst snd].
    assert (P : preconditions_ok cfg w = false).
    { destruct (preconditions_ok cfg w); [|reflexivity].
      destruct (proj1 PI eq_refl) as [X _]. discriminate X. }
    rewrite P. cbn [andb]. split; [reflexivity|]. split; [|split; congruence].
    eexists. split; [|exact V]. rewrite S, app_nil_r. reflexivity.
  - contradiction.
Qed.


Lemma count_before_readiness cfg w st :
  count later_phase_event (trace (snd (before_readiness cfg w st)))
  = count later_phase_event (trace st).
Proof.
  apply count_extends.
  apply (emits_before_readiness cfg w (fun ev => later_phase_event ev = false));
    try reflexivity.
  intros cmd. unfold later_phase_event. simpl. rewrite andb_false_r. reflexivity.
Qed.

Lemma run_stops_early cfg services submodules w st :
  start_phase_answer cfg w <> Returned true ->
  run cfg services submodules w st
  = (match start_phase_answer cfg w with
     | Returned _ => Returned false
     | a => a
     end, snd (before_readiness cfg w st)).
Proof.
  intros H. rewrite run_split, bind_unfold.
  destruct (before_readiness_spec cfg w st) as [A _].
  destruct (before_readiness cfg w st) as [r0 s0]. cbn [fst snd] in *.
  subst r0. destruct (start_phase_answer cfg w) as [[|]|e|];
    [contradiction | reflexivity | reflexivity | reflexivity].
Qed.

Lemma start_phase_answer_early cfg w :
  preconditions_ok cfg w = false ->
  start_phase_answer cfg w <> Returned true /\
  start_phase_answer cfg w <> OutOfFuel.
Proof.
  intros P. unfold start_phase_answer.
  pose proof (preconditions_ok_iff cfg w) as PI.
  pose proof (deps_answer_not_out_of_fuel (docker_version w)
                (compose_version w) (python_version w)) as NF.
  destruct (deps_answer (docker_version w) (compose_version w)
              (python_version w)) as [[|]|e|]; try (split; discriminate);
    [|contradiction].
  destruct (missing_files cfg (file_exists w)); [|split; discriminate].
  rewrite (proj2 PI (conj eq_refl eq_refl)) in P. discriminate P.
Qed.

(** X3.  When a dependency probe does not exit 0 or an environment file is
    missing, the run ends without touching the environment: it does not
    succeed and the process exits with status 1, the only commands it
    launched are version probes, the stacks are as they were, and nothing
    of the later phases (probes, tests, cleanup, summary) has happened. *)
Theorem run_aborts_before_environment :
  forall (cfg : Config) (services : list (string * Service.t))
         (submodules : list Submodule.t) (w : World) (st : State),
    preconditions_ok cfg w = false ->
    let r := run cfg services submodules w st in
    fst r <> Returned true /\
    main cfg services submodules w st = Some 1 /\
    (exists cmds,
        spawned (trace (snd r)) = spawned (trace st) ++ cmds /\
        Forall is_version_probe cmds) /\
    live_stacks (snd r) = live_stacks st /\
    count later_phase_event (trace (snd r))
    = count later_phase_event (trace st).
Proof.
  intros cfg services submodules w st P r.
  destruct (start_phase_answer_early cfg w P) as [NT NF].
  pose proof (run_stops_early cfg services submodules w st NT) as R.
  destruct (before_readiness_spec cfg w st) as [_ [[cmds [S V]] [L _]]].
  rewrite P in S, L. cbn [andb] in L. rewrite app_nil_r in S.
  assert (F : fst r <> Returned true).
  { subst r. rewrite R. cbn [fst].
    destruct (start_phase_answer cfg w) as [[|]|e|]; discriminate. }
  split; [exact F|]. split.
  { destruct (main_exit_status cfg services submodules w st) as [M|M];
      [|exact M].
    exfalso. unfold main in M. fold r in M.
    destruct (fst r) as [[|]|e|]; try discriminate M. apply F. reflexivity. }
  subst r. rewrite R. cbn [snd].
  split; [exists cmds; auto|]. split; [exact L|].
  apply count_before_readiness.
Qed.

Lemma run_aborts_before_environment_witness :
  let w := {| docker_version := ok;
              compose_version := Py.LaunchFailed (Py.NotFound "docker-compose");
              python_version := ok; file_exists := fun _ => true;
              compose_pre_down := ok; compose_up := ok; compose_logs := ok;
              test_process := alpha_beta; compose_down := ok |} in
  main cfg0 db_never_ready [module_named "alpha"] w initial_state = Some 1.
Proof.
  intros w.
  apply (run_aborts_before_environment cfg0 db_never_ready
           [module_named "alpha"] w initial_state).
  reflexivity.
Defined.

Lemma start_answer_true o_down o_up :
  start_answer o_down o_up = Returned true <->
  exits_ok o_down = true /\ exits_ok o_up = true.
Proof.
  unfold start_answer, exits_ok.
  destruct o_down as [rc ? ?|f];
    [|split; [discriminate | intros [H _]; discriminate]].
  destruct (rc =? 0); [|split; [discriminate | intros [H _]; discriminate]].
  destruct o_up as [rc' ? ?|f'];
    [|split; [discriminate | intros [_ H]; discriminate]].
  destruct (rc' =? 0); split; auto; try discriminate.
  intros [_ H]; discriminate.
Qed.

Lemma start_phase_answer_true cfg w :
  start_phase_answer cfg w = Returned true <-> env_ready cfg w.
Proof.
  unfold start_phase_answer, env_ready.
  pose proof (preconditions_ok_iff cfg w) as PI.
  pose proof (start_answer_true (compose_pre_down w) (compose_up w)) as SA.
  unfold preconditions_ok in PI. split.
  - intros H.
    destruct (deps_answer (docker_version w) (compose_version w)
                (python_version w)) as [[|]|e|]; try discriminate H.
    destruct (missing_files cfg (file_exists w)); [|discriminate H].
    apply SA in H. destruct H as [H6 H7].
    pose proof (proj2 PI (conj eq_refl eq_refl)) as Q.
    destruct (exits_ok (docker_version w)), (exits_ok (compose_version w)),
      (exits_ok (python_version w)),
      (file_exists w (root_file cfg ".env.dev")),
      (file_exists w (root_file cfg ".env.hh.dev"));
      try discriminate Q; repeat split; auto.
  - intros [H1 [H2 [H3 [H4 [H5 [H6 H7]]]]]].
    rewrite H1, H2, H3, H4, H5 in PI. destruct (proj1 PI eq_refl) as [D F].
    rewrite D, F. apply SA. auto.
Qed.

(** X4.  When the dependency probes answer and the environment files exist
    but a command of the start does not exit 0, the run ends right after
    the start: it does not succeed (it returns [False] when the failing
    command exited non-zero), the commands it launched after the version
    probes are the forced tear-down and, only if that one exited 0, the
    bring-up, and nothing of the later phases happens: no readiness check
    is called and [cleanup_environment] is not called, so no tear-down
    follows the failed start. *)
Theorem run_ends_after_failed_start :
  forall (cfg : Config) (services : list (string * Service.t))
         (submodules : list Submodule.t) (w : World) (st : State),
    preconditions_ok cfg w = true ->
    exits_ok (compose_pre_down w) && exits_ok (compose_up w) = false ->
    let r := run cfg services submodules w st in
    fst r <> Returned true /\
    ((exists rc out err, compose_pre_down w = Py.Exited rc out err) ->
     (exists rc out err, compose_up w = Py.Exited rc out err) ->
     fst r = Returned false) /\
    (exists cmds,
        spawned (trace (snd r))
        = spawned (trace st) ++ cmds
            ++ cmd_pre_down
            :: (if exits_ok (compose_pre_down w) then [cmd_up] else []) /\
        Forall is_version_probe cmds) /\
    count later_phase_event (trace (snd r))
    = count later_phase_event (trace st).
Proof.
  intros cfg services submodules w st P F r.
  assert (NT : start_phase_answer cfg w <> Returned true).
  { intros H. apply start_phase_answer_true in H.
    destruct H as [_ [_ [_ [_ [_ [H6 H7]]]]]]. rewrite H6, H7 in F.
    discriminate F. }
  pose proof (run_stops_early cfg services submodules w st NT) as R.
  destruct (before_readiness_spec cfg w st) as [_ [[cmds [S V]] _]].
  rewrite P in S. subst r. rewrite R. cbn [fst snd].
  split; [|split; [|split]].
  - destruct (start_phase_answer cfg w) as [[|]|e|]; discriminate.
  - intros [rc [o [e E1]]] [rc' [o' [e' E2]]].
    unfold start_phase_answer.
    destruct (proj1 (preconditions_ok_iff cfg w) P) as [D M].
    rewrite D, M, E1, E2. unfold start_answer.
    destruct (rc =? 0); [|reflexivity]. destruct (rc' =? 0); reflexivity.
  - exists cmds. auto.
  - apply count_before_readiness.
Qed.

Lemma run_ends_after_failed_start_witness :
  let w := {| docker_version := ok; compose_version := ok;
              python_version := ok; file_exists := fun _ => true;
              compose_pre_down := ok;
              compose_up := Py.Exited 1 "" "port is already allocated";
              compose_logs := ok; test_process := alpha_beta;
              compose_down := ok |} in
  let r := run cfg0 db_never_ready [module_named "alpha"] w initial_state in
  count later_phase_event (trace (snd r))
  = count later_phase_event (trace initial_state).
Proof.
  intros w r.
  apply (run_ends_after_failed_start cfg0 db_never_ready
           [module_named "alpha"] w initial_state); reflexivity.
Defined.

(** ** _show_container_logs *)

Lemma in_logged ev cfg message level st :
  In ev (trace st) -> In ev (trace (logged cfg message level st)).
Proof.
  intros H. destruct (logged_extends (fun _ => True) cfg message level st)
    as [evs [E _]]; [auto|].
  rewrite E. apply in_or_app. left. exact H.
Qed.

Lemma spawn_unchecked cmd cwd cap text rc out err st :
  spawn cmd cwd false cap text (Py.Exited rc out err) st
  = (Returned {| Py.returncode := rc; Py.stdout := Py.captured cap out;
                 Py.stderr := Py.captured cap err |},
     launched cmd cwd (Py.Exited rc out err) st).
Proof. reflexivity. Qed.

(** X5.  [_show_container_logs] never raises: whether the logs command
    exits (with any status), cannot be launched, or writes what is not
    text, it returns normally after launching that one command, and the
    stacks are as they were.  It writes, in every mode, a warning that
    announces the logs and then: for a command that exited, a heading and
    what the command wrote to stdout as warnings, followed by a heading and
    what it wrote to stderr as errors when that is not empty; for a
    command that cannot be launched or whose output cannot be decoded, one
    error line with the text of the exception, and none of the output. *)
Theorem show_container_logs_never_raises :
  forall (cfg : Config) (o : Py.run_outcome) (st : State),
  exists st',
    _show_container_logs cfg o st = (Returned tt, st') /\
    spawned (trace st') = spawned (trace st) ++ [cmd_logs] /\
    live_stacks st' = live_stacks st /\
    logs (trace st')
    = logs (trace st)
        ++ (WARNING, "Показываем логи контейнеров для диагностики...")
        :: match o with
           | Py.Ran (Py.Exited _ out err) =>
               [(WARNING, "Логи контейнеров:"); (WARNING, out)]
               ++ (if Py.truthy err
                   then [(ERROR, "Ошибки:"); (ERROR, err)] else [])
           | Py.Ran (Py.LaunchFailed f) =>
               [(ERROR, ("Не удалось получить логи: "
                           ++ Py.str_exn (Py.exn_of_failure f))%string)]
           | Py.Undecodable _ _ _ reason =>
               [(ERROR, ("Не удалось получить логи: " ++ reason)%string)]
           end.
Proof.
  intros cfg o st.
  destruct (show_container_logs_spec cfg o st) as [st' [E D]].
  exists st'. split; [exact E|].
  destruct D as [_ Ds Dsp _ _].
  split; [exact Dsp|]. split; [exact Ds|].
  revert E. unfold _show_container_logs. rewrite bind_log.
  destruct o as [[rc out err|f]|rc out err reason].
  - destruct (Py.truthy err) eqn:T.
    + erewrite bind_attempt_returned.
      2:{ rewrite (bind_returned _ _ _ _ _ (spawn_unchecked _ _ _ _ _ _ _ _)).
          rewrite !bind_log. cbn [Py.stdout Py.stderr Py.captured Py.text].
          rewrite T. cbn [when]. rewrite bind_log. apply log_returns. }
      cbv beta iota. unfold ret. intros E. injection E as <-.
      rewrite !logs_logged, logs_launched, logs_logged by discriminate.
      rewrite <- !app_assoc. reflexivity.
    + erewrite bind_attempt_returned.
      2:{ rewrite (bind_returned _ _ _ _ _ (spawn_unchecked _ _ _ _ _ _ _ _)).
          rewrite !bind_log. cbn [Py.stdout Py.stderr Py.captured Py.text].
          rewrite T. cbn [when]. reflexivity. }
      cbv beta iota. unfold ret. intros E. injection E as <-.
      rewrite !logs_logged, logs_launched, logs_logged by discriminate.
      rewrite <- !app_assoc. reflexivity.
  - erewrite bind_attempt_raised by (apply bind_raised, spawn_launch_failed).
    cbv beta iota. rewrite log_returns. intros E. injection E as <-.
    rewrite logs_logged, logs_launched, logs_logged by discriminate.
    rewrite <- !app_assoc. reflexivity.
  - erewrite bind_attempt_raised by (apply bind_raised, spawn_undecodable).
    cbv beta iota. rewrite log_returns. intros E. injection E as <-.
    rewrite logs_logged, logs_launched, logs_logged by discriminate.
    rewrite <- !app_assoc. reflexivity.
Qed.

(** ** What a successful run means, and what a run leaves behind *)

Lemma ready_keys_no_probe st st' :
  extends (fun ev => is_probe ev = false) st st' ->
  ready_keys (trace st') = ready_keys (trace st).
Proof.
  intros [evs [E F]]. rewrite E, ready_keys_app.
  assert (ready_keys evs = []) as ->; [|apply app_nil_r].
  clear E. induction F as [|ev evs H _ IH]; simpl; [reflexivity|].
  destruct ev; simpl in H; try discriminate; exact IH.
Qed.

Lemma emits_after_tests cfg submodules w (P : Event -> Prop) :
  (forall level message, P (EvLog level message)) ->
  (forall line, P (EvPrint line)) ->
  (forall method, P (EvCall method)) ->
  (forall cmd cwd env, P (EvSpawn cmd cwd env)) ->
  emits (results <- run_submodule_tests cfg submodules (test_process w) ;;
         cleanup_success <- cleanup_environment cfg (compose_down w) ;;
         report results cleanup_success) P.
Proof.
  intros. emits_step; [apply emits_run_submodule_tests; auto|].
  emits_step; [apply emits_cleanup_environment; auto|].
  apply emits_report; auto.
Qed.

Lemma cleanup_answer_true cfg o :
  cleanup_answer cfg o = Returned true ->
  no_cleanup cfg = true \/ exits_ok o = true.
Proof.
  unfold cleanup_answer, exits_ok. destruct (no_cleanup cfg); [auto|].
  destruct o as [rc ? ?|f]; [|discriminate].
  intros H. injection H as H. auto.
Qed.

(** X6.  A run returns [True] (and the process exits with 0) only if
    everything went well: the three dependency probes exited 0, both
    environment files exist, both commands of the start exited 0, every
    service answered [True] to a readiness check (once each, in the order
    of the dict), the test command of every submodule ran and exited 0, and
    the tear-down of the cleanup exited 0 or was suppressed by
    no_cleanup. *)
Theorem successful_run_is_sound :
  forall (cfg : Config) (services : list (string * Service.t))
         (submodules : list Submodule.t) (w : World) (st : State),
    fst (run cfg services submodules w st) = Returned true ->
    env_ready cfg w /\
    ready_keys (trace (snd (run cfg services submodules w st)))
    = ready_keys (trace st) ++ keys services /\
    (forall m, In m submodules ->
       exists out err, test_process w m = Py.Finished (Py.Exited 0 out err)) /\
    (no_cleanup cfg = true \/ exits_ok (compose_down w) = true).
Proof.
  intros cfg services submodules w st H.
  assert (Hw : env_ready cfg w).
  { apply start_phase_answer_true.
    destruct (start_phase_answer cfg w) as [[|]|e|] eqn:A; try reflexivity;
      exfalso;
      (assert (NT : start_phase_answer cfg w <> Returned true)
        by (rewrite A; discriminate));
      rewrite (run_stops_early cfg services submodules w st NT), A in H;
      discriminate H. }
  split; [exact Hw|].
  destruct (run_from_readiness cfg services submodules w st Hw) as [R _].
  destruct (wait_for_services_spec cfg services 180 (compose_logs w)
              (entering_readiness cfg w st)) as [b [st4 [E4 P4]]].
  destruct b.
  2:{ exfalso.
      destruct (run_readiness_failure cfg services submodules w st st4 Hw E4)
        as [A _].
      rewrite A in H. destruct (cleanup_answer cfg (compose_down w));
        discriminate H. }
  pose proof (run_after_readiness cfg services submodules w st st4 Hw E4) as A.
  rewrite A in H.
  destruct (cleanup_answer cfg (compose_down w)) as [c|e|] eqn:CA;
    try discriminate H.
  injection H as H. apply andb_true_iff in H. destruct H as [F C]. subst c.
  split; [|split; [|apply cleanup_answer_true, CA]].
  - rewrite R. unfold from_readiness.
    rewrite (bind_returned _ _ _ _ _ E4). cbn [negb].
    rewrite (ready_keys_no_probe st4).
    + destruct (ep_ready _ _ _ _ _ _ P4 eq_refl) as [_ [Rk _]].
      rewrite Rk. f_equal. apply ready_keys_no_probe.
      apply (emits_before_readiness cfg w (fun ev => is_probe ev = false));
        reflexivity.
    + apply (emits_after_tests cfg submodules w
               (fun ev => is_probe ev = false)); reflexivity.
  - apply Nat.eqb_eq in F. apply failed_zero_iff in F.
    rewrite forallb_forall in F. intros m Im.
    specialize (F (result_of m (test_process w m))
                  (in_map _ _ _ Im)).
    unfold result_of in F.
    destruct (test_process w m) as [[rc out err|f]|out err];
      cbn [TestResult.success] in F; try discriminate F.
    apply Z.eqb_eq in F. subst rc. eauto.
Qed.

Lemma successful_run_is_sound_witness :
  let w := world_ok (fun _ => Py.Finished (Py.Exited 0 "3 passed" "")) in
  let services := [("db", service "db" (always (CheckReturned true) 1))] in
  (forall m, In m [module_named "alpha"; module_named "beta"] ->
     exists out err, test_process w m = Py.Finished (Py.Exited 0 out err)) /\
  (no_cleanup cfg0 = true \/ exits_ok (compose_down w) = true).
Proof.
  intros w services.
  apply (successful_run_is_sound cfg0 services
           [module_named "alpha"; module_named "beta"] w initial_state).
  vm_compute. reflexivity.
Defined.

Lemma cleanup_stacks cfg (o : Py.proc_outcome) st :
  live_stacks (snd (cleanup_environment cfg o st))
  = if no_cleanup cfg then live_stacks st
    else stack_effect cmd_down o (live_stacks st).
Proof.
  unfold cleanup_environment. rewrite bind_do_emit.
  destruct (no_cleanup cfg).
  - rewrite bind_log. unfold ret. cbn [snd]. rewrite logged_stacks. reflexivity.
  - rewrite bind_log. destruct o as [rc out err|f].
    + destruct (Z.eq_dec rc 0) as [->|N].
      * erewrite bind_attempt_returned
          by (rewrite (bind_returned _ _ _ _ _ (spawn_exit0 _ _ _ _ _ _ _ _));
              apply log_returns).
        unfold ret. cbn [snd].
        rewrite logged_stacks, launched_stacks, logged_stacks. reflexivity.
      * erewrite bind_attempt_raised
          by (apply bind_raised, spawn_check_nonzero, N).
        cbv beta iota. cbn [Py.is_CalledProcessError].
        rewrite bind_log. unfold ret. cbn [snd].
        rewrite logged_stacks, launched_stacks, logged_stacks. reflexivity.
    + erewrite bind_attempt_raised by (apply bind_raised, spawn_launch_failed).
      cbv beta iota. rewrite is_failure_exn. unfold raise. cbn [snd].
      rewrite launched_stacks, logged_stacks. reflexivity.
Qed.

(** X7.  A run that started the environment leaves it as the cleanup
    decides, whatever the readiness phase and the tests did: when the
    tear-down of the cleanup exits 0 no stack is left up, and under
    no_cleanup exactly the one stack that the start brought up is left. *)
Theorem run_leaves_no_stack_behind :
  forall (cfg : Config) (services : list (string * Service.t))
         (submodules : list Submodule.t) (w : World) (st : State),
    env_ready cfg w ->
    exits_ok (compose_down w) = true ->
    live_stacks (snd (run cfg services submodules w st))
    = (if no_cleanup cfg then 1 else 0)%nat.
Proof.
  intros cfg services submodules w st Hw Hd.
  destruct (run_from_readiness cfg services submodules w st Hw) as [R _].
  rewrite R.
  assert (L1 : live_stacks (entering_readiness cfg w st) = 1%nat).
  { unfold entering_readiness.
    destruct (before_readiness_spec cfg w st) as [_ [_ [L _]]].
    rewrite L.
    destruct Hw as [H1 [H2 [H3 [H4 [H5 [H6 H7]]]]]].
    unfold preconditions_ok. rewrite H1, H2, H3, H4, H5, H6, H7. reflexivity. }
  destruct (wait_for_services_spec cfg services 180 (compose_logs w)
              (entering_readiness cfg w st)) as [b [st4 [E4 P4]]].
  pose proof (ep_stacks _ _ _ _ _ _ P4) as L4. rewrite L1 in L4.
  assert (C : forall s, live_stacks s = 1%nat ->
                live_stacks (snd (cleanup_environment cfg (compose_down w) s))
                = (if no_cleanup cfg then 1 else 0)%nat).
  { intros s Ls. rewrite cleanup_stacks, Ls.
    destruct (no_cleanup cfg); [reflexivity|].
    destruct (exits_ok_inv _ Hd) as [o [e ->]]. reflexivity. }
  unfold from_readiness. rewrite (bind_returned _ _ _ _ _ E4).
  destruct b; cbn [negb].
  - rewrite bind_unfold.
    destruct (keeps_run_submodule_tests cfg submodules (test_process w) st4)
      as [L5 _].
    destruct (run_submodule_tests_spec cfg submodules (test_process w) st4)
      as [st5 [E5 _]].
    rewrite E5 in L5 |- *. cbn [snd] in L5. rewrite bind_unfold.
    pose proof (C st5 (eq_trans L5 L4)) as L6.
    destruct (cleanup_environment cfg (compose_down w) st5) as [[c|e|] st6];
      cbn [snd] in *; try exact L6.
    destruct (keeps_report
                (map (fun m => result_of m (test_process w m)) submodules)
                c st6) as [L7 _].
    rewrite L7. exact L6.
  - rewrite bind_unfold. pose proof (C st4 L4) as L6.
    destruct (cleanup_environment cfg (compose_down w) st4) as [[c|e|] st6];
      cbn [snd] in *; exact L6.
Qed.

Lemma run_leaves_no_stack_behind_witness :
  live_stacks (snd (run cfg0 db_never_ready [module_named "alpha"]
                        (world_ok alpha_beta) initial_state))
  = (if no_cleanup cfg0 then 1 else 0)%nat.
Proof.
  apply (run_leaves_no_stack_behind cfg0 db_never_ready
           [module_named "alpha"] (world_ok alpha_beta) initial_state).
  - repeat split; reflexivity.
  - reflexivity.
Defined.


(** ** The readiness phase: who answered, and how often it asks *)


Lemma count_probed p key info attempts st :
  count p (trace (probed key info attempts st))
  = (count p (trace st)
     + if p (EvProbe key attempts
               (outcome (Service.check_function info (Service.url info)
                           (clock st))))
       then 1 else 0)%nat.
Proof.
  rewrite probed_trace, count_app. unfold count at 2. simpl.
  destruct (p _); reflexivity.
Qed.

Lemma count_slept p seconds st :
  count p (trace (slept seconds st))
  = (count p (trace st) + if p (EvSleep seconds) then 1 else 0)%nat.
Proof.
  rewrite slept_trace, count_app. unfold count at 2. simpl.
  destruct (p _); reflexivity.
Qed.

Lemma paced_refl st : paced st st.
Proof. constructor; lia. Qed.

Lemma paced_trans st1 st2 st3 : paced st1 st2 -> paced st2 st3 -> paced st1 st3.
Proof. intros [A1 B1] [A2 B2]. constructor; lia. Qed.

(** Steps that add neither a probe nor a sleep. *)
Lemma paced_extends st st' :
  extends (fun ev => is_probe ev = false /\ is_sleep ev = false) st st' ->
  paced st st'.
Proof.
  intros X.
  assert (C : forall p, (forall ev, is_probe ev = false /\ is_sleep ev = false ->
                                    p ev = false) ->
                        count p (trace st') = count p (trace st)).
  { intros p H. apply count_extends. eapply extends_weaken; [|exact X].
    exact H. }
  constructor.
  - rewrite (C is_probe), (C is_sleep), (C is_ready_probe); [lia | | |].
    + intros ev [H _]. destruct ev; try reflexivity; discriminate H.
    + intros ev [_ H]. exact H.
    + intros ev [H _]. exact H.
  - apply C. intros ev [_ H]. destruct ev; try reflexivity; discriminate H.
Qed.

Lemma paced_logged cfg message level st : paced st (logged cfg message level st).
Proof.
  apply paced_extends, (logged_extends _ cfg message level st).
  intros l m. split; reflexivity.
Qed.

Lemma paced_probed_ready key info attempts st :
  outcome (Service.check_function info (Service.url info) (clock st))
  = CheckReturned true ->
  paced st (probed key info attempts st).
Proof.
  intros O. constructor; rewrite !count_probed, ?O; cbn; lia.
Qed.

Lemma paced_probed_slept key info attempts st :
  outcome (Service.check_function info (Service.url info) (clock st))
  <> CheckReturned true ->
  paced st (slept 5 (probed key info attempts st)).
Proof.
  intros O. constructor; rewrite !count_slept, !count_probed; cbn.
  - destruct (outcome _) as [[|]|e]; [contradiction| |]; lia.
  - lia.
Qed.

Lemma wait_loop_paced cfg key info start timeout :
  forall fuel ready attempts st,
    paced st (snd (wait_loop cfg fuel key info start timeout ready attempts st)).
Proof.
  induction fuel as [|fuel IH]; intros ready attempts st.
  - apply paced_refl.
  - cbn [wait_loop]. rewrite bind_time_time.
    destruct ready; [rewrite andb_false_r; apply paced_refl|].
    destruct (clock st - start <? timeout); cbn [andb negb];
      [|apply paced_refl].
    rewrite bind_attempt_call_check.
    destruct (outcome (Service.check_function info (Service.url info)
                         (clock st))) as [[|]|e] eqn:O.
    + rewrite bind_log.
      eapply paced_trans; [|apply IH].
      eapply paced_trans; [|apply paced_logged].
      apply paced_probed_ready, O.
    + rewrite bind_time_sleep.
      eapply paced_trans; [|apply IH].
      apply paced_probed_slept. rewrite O. discriminate.
    + rewrite bind_when_log, bind_time_sleep.
      eapply paced_trans; [|apply IH].
      destruct (verbose cfg).
      * constructor; rewrite !count_slept;
          rewrite !count_logged by reflexivity;
          rewrite !count_probed, ?O; cbn; lia.
      * apply paced_probed_slept. rewrite O. discriminate.
Qed.

Lemma paced_show_container_logs cfg o st :
  paced st (snd (_show_container_logs cfg o st)).
Proof.
  apply paced_extends.
  apply (emits_show_container_logs cfg
           (fun ev => is_probe ev = false /\ is_sleep ev = false));
    intros; split; reflexivity.
Qed.

Lemma wait_each_paced cfg start timeout o_logs :
  forall services st,
    paced st (snd (wait_each cfg services start timeout o_logs st)).
Proof.
  induction services as [|[key info] rest IH]; intros st; cbn [wait_each].
  - rewrite bind_log. apply paced_logged.
  - rewrite bind_log, bind_unfold.
    eapply paced_trans; [apply paced_logged|].
    match goal with
    | |- context [wait_loop cfg ?f key info start timeout false 0%nat ?s] =>
        pose proof (wait_loop_paced cfg key info start timeout f false 0%nat s)
          as P;
        destruct (wait_loop cfg f key info start timeout false 0%nat s)
          as [[r|e|] st1]
    end; cbn [snd] in P; [|exact P|exact P].
    eapply paced_trans; [exact P|].
    destruct (negb (fst r)); [|apply IH].
    rewrite bind_log, bind_unfold.
    eapply paced_trans; [apply paced_logged|].
    match goal with
    | |- context [_show_container_logs cfg o_logs ?s] =>
        pose proof (paced_show_container_logs cfg o_logs s) as L;
        destruct (_show_container_logs cfg o_logs s) as [[u|e|] st2]
    end; exact L.
Qed.

Lemma count_ready_probe evs :
  count is_ready_probe evs = length (ready_keys evs).
Proof.
  unfold count. induction evs as [|ev evs IH]; [reflexivity|].
  destruct ev as [| | |k n [[|]|e]| |]; simpl; rewrite ?IH; reflexivity.
Qed.

(** X9.  In the readiness phase every probe that does not find its service
    ready is followed by one sleep, and nothing else sleeps: whatever the
    checks answer and however long they take, the phase makes as many
    probes as it makes sleeps and finds services ready together, and every
    sleep is one of 5 seconds. *)
Theorem probes_are_sleeps_plus_ready :
  forall (cfg : Config) (services : list (string * Service.t)) (timeout : Z)
         (o_logs : Py.run_outcome) (st : State),
    let st' := snd (wait_for_services cfg services timeout o_logs st) in
    (count is_probe (trace st') + count is_sleep (trace st)
       + length (ready_keys (trace st))
     = count is_probe (trace st) + count is_sleep (trace st')
       + length (ready_keys (trace st')))%nat /\
    (forall seconds,
        In (EvSleep seconds) (trace st') ->
        seconds = 5 \/ In (EvSleep seconds) (trace st)).
Proof.
  intros cfg services timeout o_logs st st'.
  assert (P : paced st st').
  { subst st'. unfold wait_for_services.
    rewrite bind_do_emit, bind_log, bind_time_time.
    eapply paced_trans; [|apply wait_each_paced].
    eapply paced_trans; [|apply paced_logged].
    apply paced_extends. exists [EvCall "wait_for_services"].
    split; [reflexivity|]. constructor; [split; reflexivity | constructor]. }
  destruct P as [P1 P2]. rewrite !count_ready_probe in P1.
  split; [exact P1|].
  intros seconds Hin.
  destruct (Z.eq_dec seconds 5) as [E|N]; [left; exact E | right].
  assert (X : extends (fun _ => True) st st').
  { subst st'.
    apply (emits_wait_for_services cfg (fun _ => True)); intros; exact I. }
  destruct X as [evs [T _]]. rewrite T in Hin, P2. rewrite count_app in P2.
  apply in_app_or in Hin. destruct Hin as [Hin|Hin]; [exact Hin|].
  exfalso.
  assert (Z0 : count is_other_sleep evs = 0%nat) by lia.
  apply (count_zero_not_in _ _ _ Z0) in Hin.
  simpl in Hin. apply Z.eqb_neq in N. rewrite N in Hin. discriminate Hin.
Qed.

(** ** The environment of a test command *)

Lemma dict_get_set k k0 v0 d :
  dict_get k (dict_set k0 v0 d)
  = if String.eqb k k0 then Some v0 else dict_get k d.
Proof.
  induction d as [|[k' v'] d IH]; simpl; [reflexivity|].
  destruct (String.eqb_spec k0 k') as [<-|N]; simpl.
  - destruct (String.eqb k k0); reflexivity.
  - rewrite IH. destruct (String.eqb_spec k k0) as [->|N'].
    + apply String.eqb_neq in N. rewrite N. reflexivity.
    + reflexivity.
Qed.

Lemma dict_get_app k d1 d2 :
  dict_get k (d1 ++ d2)
  = match dict_get k d1 with Some v => Some v | None => dict_get k d2 end.
Proof.
  induction d1 as [|[k' v'] d1 IH]; simpl; [reflexivity|].
  destruct (String.eqb k k'); [reflexivity | exact IH].
Qed.

Lemma dict_get_update k upd : forall d,
  dict_get k (dict_update d upd)
  = match dict_get k (List.rev upd) with
    | Some v => Some v
    | None => dict_get k d
    end.
Proof.
  unfold dict_update.
  induction upd as [|[k0 v0] upd IH]; intros d; simpl; [reflexivity|].
  rewrite IH, dict_get_app, dict_get_set. simpl.
  destruct (dict_get k (List.rev upd)); [reflexivity|].
  destruct (String.eqb k k0); reflexivity.
Qed.

(** X10.  Whatever becomes of the test command, [_run_single_test]
    launches it in the directory of the submodule with an environment that
    is the inherited one overlaid by the submodule's [env]: a variable the
    submodule sets has the submodule's value (the last one given), every
    other variable keeps its inherited value, and a variable set by neither
    is absent. *)
Theorem test_environment_is_overlay :
  forall (cfg : Config) (submodule : Submodule.t) (o : Py.timed_outcome)
         (st : State),
    let env := dict_update (os_environ cfg) (Submodule.env submodule) in
    In (EvSpawn (Submodule.test_command submodule)
                (Some (Submodule.path submodule)) (Some env))
       (trace (snd (_run_single_test cfg submodule o st))) /\
    (forall k,
        dict_get k env
        = match dict_get k (List.rev (Submodule.env submodule)) with
          | Some v => Some v
          | None => dict_get k (os_environ cfg)
          end).
Proof.
  intros cfg submodule o st env. split.
  - destruct (run_single_test_spec cfg submodule o st) as [st' [E Q]].
    rewrite E. cbn [snd]. destruct Q as [_ [_ [evs [T _]]]].
    rewrite T. apply in_or_app. left. apply in_trace_emit.
  - intros k. apply dict_get_update.
Qed.

Example overlay_example :
  let env := dict_update [("PATH", "/usr/bin"); ("API_BASE_URL", "http://prod")]
                         [("API_BASE_URL", "http://localhost:8001");
                          ("POSTGRES_PORT", "5433")] in
  dict_get "API_BASE_URL" env = Some "http://localhost:8001" /\
  dict_get "PATH" env = Some "/usr/bin" /\
  dict_get "POSTGRES_PORT" env = Some "5433" /\
  dict_get "HOME" env = None.
Proof. vm_compute. auto. Qed.

(** ** The text of the summary *)

Lemma printed_app a b : printed (a ++ b) = printed a ++ printed b.
Proof.
  induction a as [|ev a IH]; simpl; [reflexivity|].
  destruct ev; simpl; rewrite IH; reflexivity.
Qed.

Lemma printed_emit ev st :
  printed (trace (emit ev st))
  = printed (trace st) ++ match ev with EvPrint l => [l] | _ => [] end.
Proof. simpl. rewrite printed_app. destruct ev; reflexivity. Qed.

Lemma summary_loop_printed results : forall p f st,
  exists st',
    summary_loop results p f st
    = (Returned ((p + passed results)%nat, (f + failed results)%nat), st') /\
    printed (trace st')
    = printed (trace st) ++ flat_map result_lines results.
Proof.
  unfold passed, failed.
  induction results as [|r rs IH]; intros p f st; cbn [summary_loop].
  - exists st. unfold ret. simpl. rewrite !Nat.add_0_r, app_nil_r. auto.
  - rewrite bind_print. cbn [flat_map filter].
    destruct (TestResult.success r) eqn:Hs; cbn [negb andb when length].
    + assert (RL : result_lines r
                   = [(nl ++ TestResult.name r ++ ": " ++ "ПРОЙДЕН")%string])
        by (unfold result_lines; rewrite Hs; reflexivity).
      rewrite bind_ret.
      match goal with
      | |- context [summary_loop rs (S p) f ?s] =>
          destruct (IH (S p) f s) as [st' [E Pr]]
      end.
      exists st'. rewrite E, Pr, printed_emit, RL.
      split; [f_equal; f_equal; f_equal; lia|].
      rewrite <- !app_assoc. reflexivity.
    + destruct (Py.truthy (TestResult.error r)) eqn:Ht; cbn [when].
      * assert (RL : result_lines r
                     = [(nl ++ TestResult.name r ++ ": " ++ "ПРОВАЛЕН")%string;
                        ("  Ошибка: " ++ TestResult.error r)%string])
          by (unfold result_lines; rewrite Hs, Ht; reflexivity).
        rewrite bind_print.
        match goal with
        | |- context [summary_loop rs p (S f) ?s] =>
            destruct (IH p (S f) s) as [st' [E Pr]]
        end.
        exists st'. rewrite E, Pr, !printed_emit, RL.
        split; [f_equal; f_equal; f_equal; lia|].
        rewrite <- !app_assoc. reflexivity.
      * assert (RL : result_lines r
                     = [(nl ++ TestResult.name r ++ ": " ++ "ПРОВАЛЕН")%string])
          by (unfold result_lines; rewrite Hs, Ht; reflexivity).
        rewrite bind_ret.
        match goal with
        | |- context [summary_loop rs p (S f) ?s] =>
            destruct (IH p (S f) s) as [st' [E Pr]]
        end.
        exists st'. rewrite E, Pr, printed_emit, RL.
        split; [f_equal; f_equal; f_equal; lia|].
        rewrite <- !app_assoc. reflexivity.
Qed.

(** X11.  [print_summary] prints, between a heading and a tally, one status
    line for every result, in order, each failed result with a non-empty
    error followed by that error; the total in the tally is the number of
    results and is the sum of the passed and the failed.  It answers
    whether all results passed, so for no results at all it answers
    [True]. *)
Theorem summary_reports_every_result :
  forall (results : list TestResult.t) (st : State),
  exists st',
    print_summary results st
    = (Returned (forallb TestResult.success results), st') /\
    (passed results + failed results = length results)%nat /\
    printed (trace st')
    = printed (trace st)
        ++ [(nl ++ Py.repeat_str "=" 60)%string;
            "РЕЗУЛЬТАТЫ ИНТЕГРАЦИОННЫХ ТЕСТОВ";
            Py.repeat_str "=" 60]
        ++ flat_map result_lines results
        ++ [(nl ++ Py.repeat_str "=" 60)%string;
            ("ИТОГО: " ++ Py.str_nat (length results) ++ " модулей")%string;
            ("Пройдено: " ++ Py.str_nat (passed results))%string;
            ("Провалено: " ++ Py.str_nat (failed results))%string;
            if forallb TestResult.success results
            then (nl ++ "ВСЕ ИНТЕГРАЦИОННЫЕ ТЕСТЫ ПРОЙДЕНЫ!")%string
            else (nl ++ Py.str_nat (failed results)
                     ++ " модуль(ей) провалено")%string].
Proof.
  intros results st.
  pose proof (passed_failed_total results) as T.
  assert (V : (failed results =? 0)%nat = forallb TestResult.success results).
  { destruct (forallb TestResult.success results) eqn:F.
    - apply Nat.eqb_eq, failed_zero_iff, F.
    - apply Nat.eqb_neq. intros Z. apply failed_zero_iff in Z. congruence. }
  cut (exists st',
         print_summary results st
         = (Returned (forallb TestResult.success results), st') /\
         printed (trace st')
         = printed (trace st)
             ++ [(nl ++ Py.repeat_str "=" 60)%string;
                 "РЕЗУЛЬТАТЫ ИНТЕГРАЦИОННЫХ ТЕСТОВ";
                 Py.repeat_str "=" 60]
             ++ flat_map result_lines results
             ++ [(nl ++ Py.repeat_str "=" 60)%string;
                 ("ИТОГО: " ++ Py.str_nat (passed results + failed results)
                            ++ " модулей")%string;
                 ("Пройдено: " ++ Py.str_nat (passed results))%string;
                 ("Провалено: " ++ Py.str_nat (failed results))%string;
                 if forallb TestResult.success results
                 then (nl ++ "ВСЕ ИНТЕГРАЦИОННЫЕ ТЕСТЫ ПРОЙДЕНЫ!")%string
                 else (nl ++ Py.str_nat (failed results)
                          ++ " модуль(ей) провалено")%string]).
  { intros [st' [A B]]. exists st'. rewrite <- T. auto. }
  unfold print_summary. rewrite bind_do_emit, !bind_print.
  match goal with
  | |- context [bind (summary_loop results 0 0) _ ?s] =>
      destruct (summary_loop_printed results 0 0 s) as [st1 [E Pr]];
      rewrite (bind_returned _ _ _ _ _ E)
  end.
  cbn [fst snd Nat.add]. rewrite !bind_print, V.
  rewrite !printed_emit in Pr. cbn [app] in Pr.
  destruct (forallb TestResult.success results); rewrite bind_print;
    eexists; (split; [reflexivity|]);
    rewrite !printed_emit, Pr, <- !app_assoc; reflexivity.
Qed.

(** ** What a test command that failed shows at once *)

Lemma for_each_lines_logs cfg lines : forall st,
  exists st',
    for_each lines
      (fun line =>
         when (Py.truthy (Py.strip line)) (log cfg ("  " ++ line) ERROR)) st
    = (Returned tt, st') /\
    logs (trace st')
    = logs (trace st)
        ++ map (fun line => (ERROR, ("  " ++ line)%string))
               (filter (fun line => Py.truthy (Py.strip line)) lines).
Proof.
  induction lines as [|line lines IH]; intros st; cbn [for_each filter].
  - exists st. rewrite app_nil_r. auto.
  - rewrite bind_when_log.
    destruct (Py.truthy (Py.strip line)).
    + destruct (IH (logged cfg ("  " ++ line) ERROR st)) as [st' [E L]].
      exists st'. split; [exact E|].
      rewrite L, logs_logged by discriminate.
      cbn [map]. rewrite <- app_assoc. reflexivity.
    + exact (IH st).
Qed.

Lemma excerpt_short out err : (length (excerpt out err) <= 20)%nat.
Proof.
  unfold excerpt, Py.last_n.
  etransitivity; [apply filter_length_le|].
  rewrite length_skipn. lia.
Qed.

Lemma excerpt_lines out err line :
  In line (excerpt out err) ->
  Py.truthy (Py.strip line) = true /\
  In line (Py.split_newline (out ++ err)).
Proof.
  unfold excerpt, Py.last_n. intros H. apply filter_In in H.
  destruct H as [H T]. split; [exact T|].
  rewrite <- (firstn_skipn
                (length (Py.split_newline (out ++ err)) - 20)
                (Py.split_newline (out ++ err))).
  apply in_or_app. right. exact H.
Qed.

(** X12.  [_run_single_test] logs one headline, in every mode: a SUCCESS
    line for a test command that exited 0, an ERROR line for one that
    exited with another status, that timed out, that could not be launched
    or whose output could not be decoded (the last two with the text of
    the exception).  After the ERROR line of a command that exited, a run
    that is not verbose shows an excerpt of the output: a heading and
    then, each as an ERROR line indented by two blanks, the lines that are
    not blank among the last 20 lines of stdout followed by stderr, in
    order; a verbose run shows no excerpt.  The excerpt has at most 20
    lines. *)
Theorem failed_test_shows_excerpt :
  forall (cfg : Config) (submodule : Submodule.t) (o : Py.timed_run_outcome)
         (st : State),
    let st' := snd (_run_single_test cfg submodule o st) in
    logs (trace st')
    = logs (trace st)
        ++ match o with
           | Py.RanTimed (Py.Finished (Py.Exited rc out err)) =>
               if rc =? 0 then
                 [(SUCCESS,
                   ("[SUCCESS] Тесты " ++ Submodule.name submodule
                      ++ " пройдены")%string)]
               else
                 (ERROR,
                  ("[ERROR] Тесты " ++ Submodule.name submodule
                     ++ " провалились")%string)
                 :: (if verbose cfg then []
                     else (ERROR, "Последние строки вывода:")
                          :: map (fun line => (ERROR, ("  " ++ line)%string))
                                 (excerpt out err))
           | Py.RanTimed (Py.Finished (Py.LaunchFailed f)) =>
               [(ERROR,
                 ("✗ Ошибка запуска тестов " ++ Submodule.name submodule
                    ++ ": " ++ Py.str_exn (Py.exn_of_failure f))%string)]
           | Py.RanTimed (Py.Expired _ _) =>
               [(ERROR,
                 ("✗ Таймаут выполнения тестов "
                    ++ Submodule.name submodule)%string)]
           | Py.UndecodableTimed _ _ _ reason =>
               [(ERROR,
                 ("✗ Ошибка запуска тестов " ++ Submodule.name submodule
                    ++ ": " ++ reason)%string)]
           end /\
    (forall out err,
        (length (excerpt out err) <= 20)%nat /\
        (forall line,
            In line (excerpt out err) ->
            Py.truthy (Py.strip line) = true /\
            In line (Py.split_newline (out ++ err)))).
Proof.
  intros cfg submodule o st st'. subst st'.
  split; [| intros out err; split; [apply excerpt_short | apply excerpt_lines]].
  destruct o as [[[rc out err|f]|out err]|rc out err reason].
  - unfold _run_single_test.
    match goal with
    | |- context [bind (attempt (bind ?sp ?body)) ?k st] =>
        assert (B : exists st1,
                   bind sp body st
                   = (Returned (result_of submodule
                                  (Py.Finished (Py.Exited rc out err))), st1) /\
                   logs (trace st1)
                   = logs (trace st)
                       ++ (if rc =? 0 then
                             [(SUCCESS,
                               ("[SUCCESS] Тесты " ++ Submodule.name submodule
                                  ++ " пройдены")%string)]
                           else
                             (ERROR,
                              ("[ERROR] Тесты " ++ Submodule.name submodule
                                 ++ " провалились")%string)
                             :: (if verbose cfg then []
                                 else (ERROR, "Последние строки вывода:")
                                      :: map (fun line =>
                                                (ERROR, ("  " ++ line)%string))
                                             (excerpt out err))))
    end.
    { erewrite bind_returned by reflexivity.
      cbn [Py.returncode Py.stdout Py.stderr Py.text TestResult.success
           Py.captured].
      destruct (rc =? 0) eqn:Hrc.
      - rewrite bind_log. eexists. split.
        + unfold ret, result_of. rewrite Hrc. reflexivity.
        + rewrite logs_logged, logs_emit_spawn by discriminate. reflexivity.
      - rewrite bind_assoc, bind_log.
        destruct (verbose cfg); cbn [negb when].
        + rewrite bind_ret. eexists. split.
          * unfold ret, result_of. rewrite Hrc. reflexivity.
          * rewrite logs_logged, logs_emit_spawn by discriminate. reflexivity.
        + rewrite bind_assoc, bind_log.
          match goal with
          | |- context [bind (for_each ?ls _) _ ?s] =>
              destruct (for_each_lines_logs cfg ls s) as [st2 [E L]]
          end.
          rewrite (bind_returned _ _ _ _ _ E).
          eexists. split.
          * unfold ret, result_of. rewrite Hrc. reflexivity.
          * rewrite L, !logs_logged, logs_emit_spawn by discriminate.
            rewrite <- !app_assoc. reflexivity. }
    destruct B as [st1 [E L]].
    rewrite (bind_attempt_returned _ _ _ _ _ E). exact L.
  - unfold _run_single_test.
    erewrite bind_attempt_raised by reflexivity.
    cbv beta iota.
    assert (T : Py.is_TimeoutExpired (Py.exn_of_failure f) = false)
      by (destruct f; reflexivity).
    rewrite T, bind_log. unfold ret. cbn [snd].
    rewrite logs_logged, logs_emit_spawn by discriminate. reflexivity.
  - unfold _run_single_test.
    erewrite bind_attempt_raised by reflexivity.
    cbv beta iota. cbn [Py.is_TimeoutExpired].
    rewrite bind_log. unfold ret. cbn [snd].
    rewrite logs_logged, logs_emit_spawn by discriminate. reflexivity.
  - rewrite run_single_test_undecodable. cbn [snd]. unfold test_event.
    rewrite logs_logged, logs_emit_spawn by discriminate. reflexivity.
Qed.

(** A line made of a no-break space is blank; so is one made of an
    ideographic space. *)
Example blank_lines_are_left_out :
  let nbsp := String "194"%char (String "160"%char "") in
  let wide := String "227"%char (String "128"%char (String "128"%char "")) in
  excerpt ("FAILED test_api" ++ nl ++ nbsp ++ nl ++ "  " ++ nl
             ++ wide ++ nl ++ "1 failed")%string ""
  = ["FAILED test_api"; "1 failed"].
Proof. vm_compute. reflexivity. Qed.

(** ** The lines a run that is not verbose leaves out *)

Lemma emits_log_shown cfg message level :
  emits (log cfg message level) (shown cfg).
Proof.
  unfold log. destruct (verbose cfg) eqn:V.
  - apply emits_when, emits_do_emit. destruct level; exact V || exact I.
  - destruct level; cbn [orb when];
      first [apply emits_do_emit; exact I | apply emits_ret].
Qed.

Ltac shown_step :=
  first
    [ apply emits_log_shown
    | apply emits_print; intros ?; exact I
    | apply emits_ret | apply emits_raise
    | apply emits_time_time
    | apply emits_time_sleep; intros ?; exact I
    | apply emits_call_check; intros ? ?; exact I
    | apply emits_of_sum
    | apply emits_bind; [|intros ?]
    | apply emits_attempt
    | apply emits_when
    | apply emits_for_each; intros ?
    | apply emits_spawn; exact I
    | apply emits_spawn_timeout; exact I
    | apply emits_do_emit; exact I
    | apply emits_if
    | match goal with
      | |- emits (match ?x with _ => _ end) _ => destruct x
      end ].

Section Shown.

Variable cfg : Config.

Lemma shown_wait_loop fuel key info start timeout :
  forall ready attempts,
    emits (wait_loop cfg fuel key info start timeout ready attempts)
          (shown cfg).
Proof.
  induction fuel as [|fuel IH]; intros ready attempts; simpl.
  - intros st. apply extends_refl.
  - shown_step; [shown_step|].
    apply emits_if; [|apply emits_ret].
    shown_step; [repeat shown_step|].
    destruct a0 as [[|]|e].
    + shown_step; [repeat shown_step|]. apply IH.
    + shown_step; [repeat shown_step|]. apply IH.
    + shown_step; [repeat shown_step|].
      shown_step; [repeat shown_step|]. apply IH.
Qed.

Lemma shown_wait_each services start timeout o_logs :
  emits (wait_each cfg services start timeout o_logs) (shown cfg).
Proof.
  induction services as [|[key info] rest IH]; cbn [wait_each].
  - repeat shown_step.
  - shown_step; [repeat shown_step|].
    shown_step; [apply shown_wait_loop|].
    apply emits_if; [|apply IH].
    unfold _show_container_logs. repeat shown_step.
Qed.

Lemma shown_run_each submodules outcomes :
  forall results, emits (run_each cfg submodules outcomes results) (shown cfg).
Proof.
  induction submodules as [|m ms IH]; intros results; simpl.
  - apply emits_ret.
  - shown_step; [repeat shown_step|]. shown_step; [|apply IH].
    unfold _run_single_test. repeat shown_step.
Qed.

Lemma shown_summary_loop results :
  forall p f, emits (summary_loop results p f) (shown cfg).
Proof.
  induction results as [|r rs IH]; intros p f; simpl.
  - apply emits_ret.
  - shown_step; [repeat shown_step|]. shown_step; [repeat shown_step|].
    destruct (TestResult.success r); apply IH.
Qed.

Lemma shown_print_summary results :
  emits (print_summary results) (shown cfg).
Proof.
  unfold print_summary. do 4 (shown_step; [repeat shown_step|]).
  shown_step; [apply shown_summary_loop|]. repeat shown_step.
Qed.

Lemma shown_cleanup_environment o_down :
  emits (cleanup_environment cfg o_down) (shown cfg).
Proof.
  unfold cleanup_environment. shown_step; [repeat shown_step|].
  destruct (no_cleanup cfg); repeat shown_step.
Qed.

Lemma shown_run services submodules w :
  emits (run cfg services submodules w) (shown cfg).
Proof.
  unfold run.
  do 2 (shown_step; [repeat shown_step|]).
  shown_step; [unfold check_dependencies; repeat shown_step|].
  apply emits_if; [apply emits_ret|].
  shown_step; [unfold check_env_files; repeat shown_step|].
  apply emits_if; [apply emits_ret|].
  shown_step; [unfold start_test_environment; repeat shown_step|].
  apply emits_if; [apply emits_ret|].
  shown_step.
  { unfold wait_for_services.
    do 3 (shown_step; [repeat shown_step|]). apply shown_wait_each. }
  apply emits_if.
  - shown_step; [apply shown_cleanup_environment|]. apply emits_ret.
  - shown_step.
    { unfold run_submodule_tests. shown_step; [repeat shown_step|].
      shown_step; [repeat shown_step|]. apply shown_run_each. }
    shown_step; [apply shown_cleanup_environment|].
    unfold report. shown_step; [apply shown_print_summary|].
    repeat shown_step.
Qed.

End Shown.

(** X13.  [log] writes a line of level ERROR, WARNING or SUCCESS whatever
    the configuration and a line of level INFO only when [verbose] is set;
    and so a whole run, however it ends, adds no INFO line to what was
    written before unless it is verbose. *)
Theorem info_lines_need_verbose :
  forall (cfg : Config) (services : list (string * Service.t))
         (submodules : list Submodule.t) (w : World) (st : State),
    (forall message level,
        trace (snd (log cfg message level st))
        = if verbose cfg
             || match level with INFO => false | _ => true end
          then trace st ++ [EvLog level message]
          else trace st) /\
    exists evs,
      trace (snd (run cfg services submodules w st)) = trace st ++ evs /\
      forall message, In (EvLog INFO message) evs -> verbose cfg = true.
Proof.
  intros cfg services submodules w st. split.
  - intros message level. unfold log.
    destruct (verbose cfg); [reflexivity|].
    destruct level; reflexivity.
  - destruct (shown_run cfg services submodules w st) as [evs [T F]].
    exists evs. split; [exact T|].
    intros message I.
    exact (proj1 (Forall_forall _ _) F _ I).
Qed.

(** ** The two readiness checks of the script *)

(** X14.  [_check_api] never raises: it answers [True] exactly when the
    request got a response of status 200, and [False] for every other
    status and for every failure of the request.  [_check_database] does
    not look at its url; it answers [True] exactly when [pg_isready] exited
    0, answers [False] for any other exit status and when the 5 seconds
    ran out, and raises only when the command could not be launched, with
    the exception of the operating system; both take the time the world
    takes to answer. *)
Theorem checks_answer_or_fail_to_launch :
  forall (pw : ProbeWorld) (url : string) (now : Z),
    (forall e, outcome (_check_api pw url now) <> CheckRaised e) /\
    (outcome (_check_api pw url now) = CheckReturned true
     <-> fst (http_get pw url now) = HttpResponse 200) /\
    duration (_check_api pw url now) = snd (http_get pw url now) /\
    (forall url', _check_database pw url' now = _check_database pw url now) /\
    duration (_check_database pw url now) = snd (pg_isready pw now) /\
    outcome (_check_database pw url now)
    = match fst (pg_isready pw now) with
      | Py.Finished (Py.Exited rc _ _) => CheckReturned (rc =? 0)
      | Py.Finished (Py.LaunchFailed f) => CheckRaised (Py.exn_of_failure f)
      | Py.Expired _ _ => CheckReturned false
      end /\
    (forall e,
        outcome (_check_database pw url now) = CheckRaised e ->
        Py.is_TimeoutExpired e = false /\
        Py.is_CalledProcessError e = false).
Proof.
  intros pw url now.
  assert (D : outcome (_check_database pw url now)
              = match fst (pg_isready pw now) with
                | Py.Finished (Py.Exited rc _ _) => CheckReturned (rc =? 0)
                | Py.Finished (Py.LaunchFailed f) =>
                    CheckRaised (Py.exn_of_failure f)
                | Py.Expired _ _ => CheckReturned false
                end).
  { unfold _check_database.
    destruct (pg_isready pw now) as [[[rc out err|[msg|msg]]|out err] d];
      reflexivity. }
  repeat split.
  - intros e. unfold _check_api.
    destruct (http_get pw url now) as [[c|e'] d]; discriminate.
  - unfold _check_api.
    destruct (http_get pw url now) as [[c|e'] d]; cbn [outcome fst];
      intros H; [|discriminate H].
    injection H as H. apply Z.eqb_eq in H. congruence.
  - unfold _check_api. intros H.
    destruct (http_get pw url now) as [[c|e'] d]; cbn [outcome fst] in *;
      [|discriminate H].
    injection H as ->. reflexivity.
  - unfold _check_api. destruct (http_get pw url now) as [[c|e'] d]; reflexivity.
  - unfold _check_database.
    destruct (pg_isready pw now) as [o d]. reflexivity.
  - exact D.
  - rewrite D in H.
    destruct (fst (pg_isready pw now)) as [[rc out err|[msg|msg]]|out err];
      try discriminate H; injection H as <-; reflexivity.
  - rewrite D in H.
    destruct (fst (pg_isready pw now)) as [[rc out err|[msg|msg]]|out err];
      try discriminate H; injection H as <-; reflexivity.
Qed.
